(** * slyr: the dictionary converter

A shallow embedding of [slyr/converters/dictionary.py], the class
[DictionaryConverter] that projects a parsed symbol (fill, line or marker
symbol, or a bare symbol layer) onto nested Python dictionaries, lists
and scalars.

Python values are the inductive [value]; a dictionary is an association
list in insertion order.  Exceptions are a [result] monad; the one
mutable attribute of the converter, [self.out], is threaded explicitly
through the symbol-level methods. *)

From Stdlib Require Import ZArith List String Ascii Bool Lia.
From Stdlib Require Import Floats.SpecFloat DecimalString.
Import ListNotations.

Local Open Scope string_scope.
Local Open Scope Z_scope.

Set Implicit Arguments.
Set Warnings "-register-all".

(** ** Python values *)

Inductive value : Type :=
| VNone
| VBool (b : bool)
| VInt (z : Z)
| VFloat (f : spec_float)
| VStr (s : string)
| VList (l : list value)
| VDict (d : list (string * value)).

Definition dict : Type := list (string * value).

Definition bytes : Type := list Byte.byte.

Module Dict.

(** [d[k]] as an optional lookup *)
Fixpoint get (k : string) (d : dict) : option value :=
  match d with
  | [] => None
  | (k', v) :: d' => if String.eqb k k' then Some v else get k d'
  end.

(** [d[k] = v]: an existing key keeps its position, a new key goes last *)
Fixpoint set (k : string) (v : value) (d : dict) : dict :=
  match d with
  | [] => [(k, v)]
  | (k', v') :: d' =>
      if String.eqb k k' then (k, v) :: d' else (k', v') :: set k v d'
  end.

Definition keys (d : dict) : list string := map fst d.

Definition mem (k : string) (d : dict) : bool :=
  match get k d with Some _ => true | None => false end.

End Dict.

(** ** Exceptions *)

Inductive exn : Type :=
| NotImplementedException (msg : string)
| AttributeError (msg : string)
| KeyError (msg : string).

Inductive result (A : Type) : Type :=
| Ok (a : A)
| Raise (e : exn).

Arguments Ok {A} a.
Arguments Raise {A} e.

Definition bind {A B : Type} (m : result A) (k : A -> result B) : result B :=
  match m with
  | Ok a => k a
  | Raise e => Raise e
  end.

Declare Scope result_scope.
Delimit Scope result_scope with result.
Notation "x <- m ;; k" := (bind m (fun x => k))
  (at level 61, m at next level, right associativity) : result_scope.
Local Open Scope result_scope.

(** A [for] loop that collects one converted element per input element,
    left to right, and stops at the first exception. *)
Section MapM.
Variables (A B : Type) (f : A -> result B).

Fixpoint mapM (l : list A) : result (list B) :=
  match l with
  | [] => Ok []
  | a :: l' =>
      b <- f a ;;
      bs <- mapM l' ;;
      Ok (b :: bs)
  end.
End MapM.

(** ** The parsed objects

The classes below are declared in [slyr.parser]; the converter reads
their attributes and tests their class. *)

(** Modelled from the spec: class [Color] is declared outside this module;
    it carries a [model] discriminator and exposes its canonical dictionary
    through [to_dict()].  The record holds the attribute and the dictionary
    the accessor returns. *)
Record Color : Type := {
  model : string;
  to_dict : dict
}.

(** Modelled from the spec: class [ColorRamp] yields its own canonical
    dictionary through [to_dict()]. *)
Record ColorRamp : Type := {
  ramp_to_dict : dict
}.

(** Modelled from the spec: class [Font], the attributes [convert_font]
    reads; [font_size] is the attribute [size]. *)
Record Font : Type := {
  font_name : value;
  charset : value;
  weight : value;
  font_size : value;
  italic : value;
  strikethrough : value;
  underline : value
}.

(** Modelled from the spec: class [LineTemplate], a dash pattern. *)
Record LineTemplate : Type := {
  pattern_interval : value;
  pattern_parts : list value
}.

(** Modelled from the spec: the picture classes.  [StdPicture] is a holder
    whose attribute [picture] is the concrete payload (possibly [None]);
    [OtherPicture] stands for any picture class that is neither a
    [BmpPicture] nor an [EmfPicture] nor a [StdPicture]. *)
Inductive Picture : Type :=
| BmpPicture (content : bytes)
| EmfPicture (content : bytes)
| StdPicture (picture : option Picture)
| OtherPicture (cls : string).

(** The three attributes every symbol layer carries. *)
Record LayerAttrs : Type := {
  enabled : bool;
  locked : bool;
  tags : option (list string)
}.

(** The attributes of each concrete layer class that hold no symbol, layer
    or decoration; one name space per class. *)

Module GradientFill.
Record attrs : Type := {
  ramp : ColorRamp;
  percent : value;
  angle : value;
  intervals : value;
  type : Z
}.
End GradientFill.

Module LineFill.
Record attrs : Type := {
  angle : value;
  offset : value;
  separation : value
}.
End LineFill.

Module MarkerFill.
Record attrs : Type := {
  offset_x : value;
  offset_y : value;
  separation_x : value;
  separation_y : value;
  random : value
}.
End MarkerFill.

Module PictureFill.
Record attrs : Type := {
  color_foreground : option Color;
  color_background : option Color;
  color_transparent : option Color;
  swap_fb_gb : value;
  picture : option Picture;
  angle : value;
  scale_x : value;
  scale_y : value;
  offset_x : value;
  offset_y : value;
  separation_x : value;
  separation_y : value
}.
End PictureFill.

Module SimpleLine.
Record attrs : Type := {
  color : option Color;
  width : value;
  line_type : value
}.
End SimpleLine.

Module CartographicLine.
Record attrs : Type := {
  color : option Color;
  width : value;
  offset : value;
  cap : value;
  join : value;
  template : option LineTemplate
}.
End CartographicLine.

Module MarkerLine.
Record attrs : Type := {
  color : option Color;
  offset : value;
  cap : value;
  join : value;
  template : option LineTemplate
}.
End MarkerLine.

Module HashLine.
Record attrs : Type := {
  color : option Color;
  width : value;
  offset : value;
  cap : value;
  join : value;
  template : option LineTemplate
}.
End HashLine.

Module SimpleMarker.
Record attrs : Type := {
  color : option Color;
  type : value;
  size : value;
  x_offset : value;
  y_offset : value;
  outline_enabled : value;
  outline_color : option Color;
  outline_width : value
}.
End SimpleMarker.

Module CharacterMarker.
Record attrs : Type := {
  color : option Color;
  unicode : value;
  font : value;
  std_font : option Font;
  size : value;
  angle : value;
  x_offset : value;
  y_offset : value
}.
End CharacterMarker.

Module ArrowMarker.
Record attrs : Type := {
  color : option Color;
  size : value;
  width : value;
  angle : value;
  x_offset : value;
  y_offset : value
}.
End ArrowMarker.

Module PictureMarker.
Record attrs : Type := {
  color_foreground : option Color;
  color_background : option Color;
  color_transparent : option Color;
  size : value;
  angle : value;
  x_offset : value;
  y_offset : value;
  swap_fb_gb : value;
  picture : option Picture
}.
End PictureMarker.

(** Modelled from the spec: the layer, symbol and decoration classes.

    [SymbolLayer] has one constructor per concrete layer class the converter
    knows, grouped by family (fill, line, marker).  [OtherFillSymbolLayer],
    [OtherLineSymbolLayer] and [OtherMarkerSymbolLayer] stand for any further
    class of a family, and [OtherSymbolLayer] for a layer class of no family;
    [cls] is the class name.  An attribute that may be [None] is an
    [option]; the hatch line of a line fill and the marker of a marker fill
    are always present.

    [SymbolOrLayer] is what [convert_symbol] accepts where the source writes
    [Union[SymbolLayer, FillSymbol]] and the like: a bare layer, or one of the
    three multi-layer [Symbol] classes.  Only a [MarkerSymbol] carries the
    halo attributes.

    A [Decoration] is a [LineDecoration] (a sequence of decorations) or a
    [SimpleLineDecoration]. *)
Inductive SymbolLayer : Type :=
| SimpleFillSymbolLayer (base : LayerAttrs) (color : option Color)
    (outline_layer : option SymbolLayer) (outline_symbol : option SymbolOrLayer)
| ColorSymbol (base : LayerAttrs) (color : option Color)
| GradientFillSymbolLayer (base : LayerAttrs) (a : GradientFill.attrs)
    (outline_layer : option SymbolLayer) (outline_symbol : option SymbolOrLayer)
| LineFillSymbolLayer (base : LayerAttrs) (a : LineFill.attrs)
    (outline_layer : option SymbolLayer) (outline_symbol : option SymbolOrLayer)
    (line : SymbolOrLayer)
| MarkerFillSymbolLayer (base : LayerAttrs) (a : MarkerFill.attrs)
    (outline_layer : option SymbolLayer) (outline_symbol : option SymbolOrLayer)
    (marker : SymbolOrLayer)
| PictureFillSymbolLayer (base : LayerAttrs) (a : PictureFill.attrs)
    (outline_layer : option SymbolLayer) (outline_symbol : option SymbolOrLayer)
| OtherFillSymbolLayer (cls : string) (base : LayerAttrs)
| SimpleLineSymbolLayer (base : LayerAttrs) (a : SimpleLine.attrs)
| CartographicLineSymbolLayer (base : LayerAttrs) (a : CartographicLine.attrs)
    (decoration : option Decoration)
| MarkerLineSymbolLayer (base : LayerAttrs) (a : MarkerLine.attrs)
    (pattern_marker : option SymbolOrLayer) (decoration : option Decoration)
| HashLineSymbolLayer (base : LayerAttrs) (a : HashLine.attrs)
    (line : option SymbolOrLayer) (decoration : option Decoration)
| OtherLineSymbolLayer (cls : string) (base : LayerAttrs)
| SimpleMarkerSymbolLayer (base : LayerAttrs) (a : SimpleMarker.attrs)
| CharacterMarkerSymbolLayer (base : LayerAttrs) (a : CharacterMarker.attrs)
| ArrowMarkerSymbolLayer (base : LayerAttrs) (a : ArrowMarker.attrs)
| PictureMarkerSymbolLayer (base : LayerAttrs) (a : PictureMarker.attrs)
| OtherMarkerSymbolLayer (cls : string) (base : LayerAttrs)
| OtherSymbolLayer (cls : string) (base : LayerAttrs)

with SymbolOrLayer : Type :=
| BareLayer (layer : SymbolLayer)
| FillSymbol (levels : list SymbolLayer)
| LineSymbol (levels : list SymbolLayer)
| MarkerSymbol (levels : list SymbolLayer)
    (halo : bool) (halo_size : value) (halo_symbol : option SymbolOrLayer)

with Decoration : Type :=
| LineDecoration (decorations : list Decoration)
| SimpleLineDecoration (fixed_angle flip_first flip_all : bool)
    (marker : option SymbolOrLayer) (marker_positions : list value).

(** [layer.enabled], [layer.locked], [layer.tags] *)
Definition layer_attrs (layer : SymbolLayer) : LayerAttrs :=
  match layer with
  | SimpleFillSymbolLayer base _ _ _ | ColorSymbol base _
  | GradientFillSymbolLayer base _ _ _ | LineFillSymbolLayer base _ _ _ _
  | MarkerFillSymbolLayer base _ _ _ _ | PictureFillSymbolLayer base _ _ _
  | OtherFillSymbolLayer _ base
  | SimpleLineSymbolLayer base _ | CartographicLineSymbolLayer base _ _
  | MarkerLineSymbolLayer base _ _ _ | HashLineSymbolLayer base _ _ _
  | OtherLineSymbolLayer _ base
  | SimpleMarkerSymbolLayer base _ | CharacterMarkerSymbolLayer base _
  | ArrowMarkerSymbolLayer base _ | PictureMarkerSymbolLayer base _
  | OtherMarkerSymbolLayer _ base | OtherSymbolLayer _ base => base
  end.

(** [type(layer).__name__] *)
Definition layer_class_name (layer : SymbolLayer) : string :=
  match layer with
  | SimpleFillSymbolLayer _ _ _ _ => "SimpleFillSymbolLayer"
  | ColorSymbol _ _ => "ColorSymbol"
  | GradientFillSymbolLayer _ _ _ _ => "GradientFillSymbolLayer"
  | LineFillSymbolLayer _ _ _ _ _ => "LineFillSymbolLayer"
  | MarkerFillSymbolLayer _ _ _ _ _ => "MarkerFillSymbolLayer"
  | PictureFillSymbolLayer _ _ _ _ => "PictureFillSymbolLayer"
  | SimpleLineSymbolLayer _ _ => "SimpleLineSymbolLayer"
  | CartographicLineSymbolLayer _ _ _ => "CartographicLineSymbolLayer"
  | MarkerLineSymbolLayer _ _ _ _ => "MarkerLineSymbolLayer"
  | HashLineSymbolLayer _ _ _ _ => "HashLineSymbolLayer"
  | SimpleMarkerSymbolLayer _ _ => "SimpleMarkerSymbolLayer"
  | CharacterMarkerSymbolLayer _ _ => "CharacterMarkerSymbolLayer"
  | ArrowMarkerSymbolLayer _ _ => "ArrowMarkerSymbolLayer"
  | PictureMarkerSymbolLayer _ _ => "PictureMarkerSymbolLayer"
  | OtherFillSymbolLayer cls _ | OtherLineSymbolLayer cls _
  | OtherMarkerSymbolLayer cls _ | OtherSymbolLayer cls _ => cls
  end.

(** [issubclass(layer.__class__, FillSymbolLayer)] and its two siblings *)
Definition is_FillSymbolLayer (layer : SymbolLayer) : bool :=
  match layer with
  | SimpleFillSymbolLayer _ _ _ _ | ColorSymbol _ _
  | GradientFillSymbolLayer _ _ _ _ | LineFillSymbolLayer _ _ _ _ _
  | MarkerFillSymbolLayer _ _ _ _ _ | PictureFillSymbolLayer _ _ _ _
  | OtherFillSymbolLayer _ _ => true
  | _ => false
  end.

Definition is_LineSymbolLayer (layer : SymbolLayer) : bool :=
  match layer with
  | SimpleLineSymbolLayer _ _ | CartographicLineSymbolLayer _ _ _
  | MarkerLineSymbolLayer _ _ _ _ | HashLineSymbolLayer _ _ _ _
  | OtherLineSymbolLayer _ _ => true
  | _ => false
  end.

Definition is_MarkerSymbolLayer (layer : SymbolLayer) : bool :=
  match layer with
  | SimpleMarkerSymbolLayer _ _ | CharacterMarkerSymbolLayer _ _
  | ArrowMarkerSymbolLayer _ _ | PictureMarkerSymbolLayer _ _
  | OtherMarkerSymbolLayer _ _ => true
  | _ => false
  end.

(** [type(x).__name__] for a symbol, a bare layer or [None] *)
Definition class_name (symbol : option SymbolOrLayer) : string :=
  match symbol with
  | None => "NoneType"
  | Some (BareLayer layer) => layer_class_name layer
  | Some (FillSymbol _) => "FillSymbol"
  | Some (LineSymbol _) => "LineSymbol"
  | Some (MarkerSymbol _ _ _ _) => "MarkerSymbol"
  end.

(** Missing from this module: the two encoders of [PictureUtils] and the
    gradient type codes declared by class [GradientFillSymbolLayer]; both
    are interfaces the converter is parametrised by. *)
Class PictureUtils : Type := {
  to_base64_png : bytes -> string;
  to_base64 : bytes -> string
}.

Class GradientTypes : Type := {
  LINEAR : Z;
  CIRCULAR : Z;
  BUFFERED : Z;
  RECTANGULAR : Z
}.

(** Missing from this module as well: the text of a class,
    [str(layer.__class__)], which an error message about an unknown layer
    class holds.  Python prints [<class 'module.Name'>], and the module of
    a layer class is fixed where the class is defined; [repr_class cls] is
    that text for the class of name [cls], and nothing is assumed of it. *)
Class ClassTexts : Type := {
  repr_class : string -> string
}.

(** ** The converter instance and its one attribute, [self.out] *)

Record DictionaryConverter : Type := {
  out : dict
}.

(** [DictionaryConverter()] *)
Definition __init__ : DictionaryConverter := {| out := [] |}.

(** A method that may assign [self.out] and may raise; an exception leaves
    the assignments made so far in place. *)
Definition M (A : Type) : Type :=
  DictionaryConverter -> DictionaryConverter * result A.

Definition ret_M {A : Type} (a : A) : M A := fun self => (self, Ok a).

Definition bind_M {A B : Type} (m : M A) (k : A -> M B) : M B :=
  fun self =>
    match m self with
    | (self', Ok a) => k a self'
    | (self', Raise e) => (self', Raise e)
    end.

Definition lift {A : Type} (r : result A) : M A := fun self => (self, r).

Declare Scope M_scope.
Delimit Scope M_scope with M.
Notation "x <- m ;; k" := (bind_M m (fun x => k))
  (at level 61, m at next level, right associativity) : M_scope.
Notation "m ;;; k" := (bind_M m (fun _ => k))
  (at level 61, right associativity) : M_scope.

(** [self.out = d] *)
Definition set_out (d : dict) : M unit :=
  fun _ => ({| out := d |}, Ok tt).

(** [self.out] *)
Definition get_out : M dict := fun self => (self, Ok (out self)).

(** [self.out[k] = v] *)
Definition out_set (k : string) (v : value) : M unit :=
  fun self => ({| out := Dict.set k v (out self) |}, Ok tt).

(** [self.out['levels'].append(x)] *)
Definition levels_append (x : value) : M unit :=
  fun self =>
    match Dict.get "levels" (out self) with
    | Some (VList l) =>
        ({| out := Dict.set "levels" (VList (l ++ [x])) (out self) |}, Ok tt)
    | Some _ => (self, Raise (AttributeError "object has no attribute 'append'"))
    | None => (self, Raise (KeyError "'levels'"))
    end.

(** [for a in l: body(a)] *)
Section ForEach.
Variables (A : Type) (body : A -> M unit).

Fixpoint for_each (l : list A) : M unit :=
  match l with
  | [] => ret_M tt
  | a :: l' => (body a ;;; for_each l')%M
  end.
End ForEach.

(** ** Leaf converters *)

(** What reading [x.model] raises when [x] is [None] *)
Definition no_model : exn :=
  AttributeError "'NoneType' object has no attribute 'model'".

(** [x.model] where [x] may be [None] *)
Definition get_model (color : option Color) : result value :=
  match color with
  | Some c => Ok (VStr (model c))
  | None => Raise no_model
  end.

(** [x.to_dict()] where [x] may be [None] *)
Definition get_to_dict (color : option Color) : result value :=
  match color with
  | Some c => Ok (VDict (to_dict c))
  | None => Raise (AttributeError "'NoneType' object has no attribute 'to_dict'")
  end.

(** [x.model if x else None] *)
Definition model_or_None (color : option Color) : value :=
  match color with
  | Some c => VStr (model c)
  | None => VNone
  end.

Definition convert_color (color : option Color) : value :=
  match color with
  | Some c => VDict (to_dict c)
  | None => VNone
  end.

Definition convert_font (font : Font) : dict :=
  [("font_name", font_name font);
   ("charset", charset font);
   ("weight", weight font);
   ("size", font_size font);
   ("italic", italic font);
   ("strikethrough", strikethrough font);
   ("underline", underline font)].

Definition convert_template (template : LineTemplate) : dict :=
  [("pattern_interval", pattern_interval template);
   ("pattern_parts", VList (pattern_parts template))].

(** [picture.__class__.__name__] *)
Definition picture_class_name (picture : option Picture) : string :=
  match picture with
  | None => "NoneType"
  | Some (BmpPicture _) => "BmpPicture"
  | Some (EmfPicture _) => "EmfPicture"
  | Some (StdPicture _) => "StdPicture"
  | Some (OtherPicture cls) => cls
  end.

(** [str(n)] for an integer *)
Definition str_of_Z (n : Z) : string := NilZero.string_of_int (Z.to_int n).

Section Leaves.

Context {utils : PictureUtils} {gradients : GradientTypes}.

Definition convert_picture (picture : option Picture) : result value :=
  match picture with
  | None => Ok VNone
  | Some p =>
      let picture := match p with StdPicture payload => payload | _ => Some p end in
      let out := [("type", VStr (picture_class_name picture))] in
      match picture with
      | Some (BmpPicture content) =>
          Ok (VDict (Dict.set "content" (VStr (to_base64_png content)) out))
      | Some (EmfPicture content) =>
          Ok (VDict (Dict.set "content" (VStr (to_base64 content)) out))
      | _ =>
          Raise (NotImplementedException
                   (picture_class_name picture ++ " picture conversion not implemented"))
      end
  end.

Definition convert_gradient_type (gradient_type : Z) : result string :=
  if gradient_type =? LINEAR then Ok "linear"
  else if gradient_type =? CIRCULAR then Ok "circular"
  else if gradient_type =? BUFFERED then Ok "buffered"
  else if gradient_type =? RECTANGULAR then Ok "rectangular"
  else Raise (NotImplementedException
                ("Gradient type " ++ str_of_Z gradient_type ++ " not implemented yet")).

Definition convert_color_symbol (color : option Color) : result dict :=
  color_model <- get_model color ;;
  Ok [("color", convert_color color); ("color_model", color_model)].

Definition convert_simple_line_symbol_layer (layer : SimpleLine.attrs) : result dict :=
  color_model <- get_model (SimpleLine.color layer) ;;
  Ok [("color", convert_color (SimpleLine.color layer));
      ("color_model", color_model);
      ("width", SimpleLine.width layer);
      ("line_type", SimpleLine.line_type layer)].

Definition convert_simple_marker_symbol_layer (layer : SimpleMarker.attrs) : result dict :=
  color_model <- get_model (SimpleMarker.color layer) ;;
  outline_color_model <- get_model (SimpleMarker.outline_color layer) ;;
  outline_color <- get_to_dict (SimpleMarker.outline_color layer) ;;
  Ok [("color", convert_color (SimpleMarker.color layer));
      ("color_model", color_model);
      ("marker_type", SimpleMarker.type layer);
      ("size", SimpleMarker.size layer);
      ("x_offset", SimpleMarker.x_offset layer);
      ("y_offset", SimpleMarker.y_offset layer);
      ("outline_enabled", SimpleMarker.outline_enabled layer);
      ("outline_color_model", outline_color_model);
      ("outline_color", outline_color);
      ("outline_size", SimpleMarker.outline_width layer)].

Definition convert_character_marker_symbol_layer (layer : CharacterMarker.attrs) : result dict :=
  color_model <- get_model (CharacterMarker.color layer) ;;
  let out := [("color", convert_color (CharacterMarker.color layer));
              ("color_model", color_model);
              ("unicode", CharacterMarker.unicode layer);
              ("font", CharacterMarker.font layer);
              ("std_font", VNone);
              ("size", CharacterMarker.size layer);
              ("angle", CharacterMarker.angle layer);
              ("x_offset", CharacterMarker.x_offset layer);
              ("y_offset", CharacterMarker.y_offset layer)] in
  match CharacterMarker.std_font layer with
  | Some std_font => Ok (Dict.set "std_font" (VDict (convert_font std_font)) out)
  | None => Ok out
  end.

Definition convert_arrow_marker_symbol_layer (layer : ArrowMarker.attrs) : result dict :=
  color_model <- get_model (ArrowMarker.color layer) ;;
  Ok [("color", convert_color (ArrowMarker.color layer));
      ("color_model", color_model);
      ("size", ArrowMarker.size layer);
      ("width", ArrowMarker.width layer);
      ("angle", ArrowMarker.angle layer);
      ("x_offset", ArrowMarker.x_offset layer);
      ("y_offset", ArrowMarker.y_offset layer)].

Definition convert_picture_marker_symbol_layer (layer : PictureMarker.attrs) : result dict :=
  color_foreground_model <- get_model (PictureMarker.color_foreground layer) ;;
  color_background_model <- get_model (PictureMarker.color_background layer) ;;
  picture <- convert_picture (PictureMarker.picture layer) ;;
  Ok [("color_foreground", convert_color (PictureMarker.color_foreground layer));
      ("color_foreground_model", color_foreground_model);
      ("color_background", convert_color (PictureMarker.color_background layer));
      ("color_background_model", color_background_model);
      ("color_transparent", convert_color (PictureMarker.color_transparent layer));
      ("color_transparent_model", model_or_None (PictureMarker.color_transparent layer));
      ("size", PictureMarker.size layer);
      ("angle", PictureMarker.angle layer);
      ("x_offset", PictureMarker.x_offset layer);
      ("y_offset", PictureMarker.y_offset layer);
      ("swap_fg_bg", PictureMarker.swap_fb_gb layer);
      ("picture", picture)].

End Leaves.

(** ** The recursive methods

    The methods below call one another through a layer's outline, pattern
    and decoration attributes.  They are written over the three calls that
    recurse, which [convert_symbol_layer], [convert_symbol] and
    [convert_decoration] close further down:
    - [self_convert_symbol_layer layer] is [self.convert_symbol_layer(layer)]
      (the method never assigns [self.out], so calling it on a new instance
      is the same);
    - [new_convert_symbol symbol] is
      [DictionaryConverter().convert_symbol(symbol)], the value returned
      by a new instance;
    - [self_convert_decoration d] is [convert_decoration(d)]. *)
Module Open.

Section Methods.

Context {utils : PictureUtils} {gradients : GradientTypes} {classes : ClassTexts}.

Variable self_convert_symbol_layer : SymbolLayer -> result dict.
Variable new_convert_symbol : SymbolOrLayer -> result dict.
Variable self_convert_decoration : Decoration -> result dict.

(** The outline block shared by the fill layers:
    [if layer.outline_layer: ...] and [if layer.outline_symbol: ...] *)
Definition set_outline (outline_layer : option SymbolLayer)
    (outline_symbol : option SymbolOrLayer) (out : dict) : result dict :=
  out <- match outline_layer with
         | Some l =>
             x <- self_convert_symbol_layer l ;;
             Ok (Dict.set "outline_layer" (VDict x) out)
         | None => Ok out
         end ;;
  match outline_symbol with
  | Some s =>
      x <- new_convert_symbol s ;;
      Ok (Dict.set "outline_symbol" (VDict x) out)
  | None => Ok out
  end.

Definition convert_simple_fill_symbol_layer (color : option Color)
    (outline_layer : option SymbolLayer)
    (outline_symbol : option SymbolOrLayer) : result dict :=
  color_model <- get_model color ;;
  let out := [("color", convert_color color); ("color_model", color_model)] in
  set_outline outline_layer outline_symbol out.

Definition convert_gradient_fill_symbol_layer (layer : GradientFill.attrs)
    (outline_layer : option SymbolLayer)
    (outline_symbol : option SymbolOrLayer) : result dict :=
  out <- set_outline outline_layer outline_symbol [] ;;
  let out := Dict.set "ramp" (VDict (ramp_to_dict (GradientFill.ramp layer))) out in
  let out := Dict.set "percent" (GradientFill.percent layer) out in
  let out := Dict.set "angle" (GradientFill.angle layer) out in
  let out := Dict.set "intervals" (GradientFill.intervals layer) out in
  gradient_type <- convert_gradient_type (GradientFill.type layer) ;;
  Ok (Dict.set "gradient_type" (VStr gradient_type) out).

Definition convert_line_fill_symbol_layer (layer : LineFill.attrs)
    (outline_layer : option SymbolLayer)
    (outline_symbol : option SymbolOrLayer)
    (line : SymbolOrLayer) : result dict :=
  out <- set_outline outline_layer outline_symbol [] ;;
  line_symbol <- match line with
                 | BareLayer l => self_convert_symbol_layer l
                 | FillSymbol _ | LineSymbol _ | MarkerSymbol _ _ _ _ =>
                     new_convert_symbol line
                 end ;;
  let out := Dict.set "line_symbol" (VDict line_symbol) out in
  let out := Dict.set "angle" (LineFill.angle layer) out in
  let out := Dict.set "offset" (LineFill.offset layer) out in
  Ok (Dict.set "separation" (LineFill.separation layer) out).

Definition convert_marker_fill_symbol_layer (layer : MarkerFill.attrs)
    (outline_layer : option SymbolLayer)
    (outline_symbol : option SymbolOrLayer)
    (marker : SymbolOrLayer) : result dict :=
  out <- set_outline outline_layer outline_symbol [] ;;
  marker' <- match marker with
             | BareLayer l => self_convert_symbol_layer l
             | FillSymbol _ | LineSymbol _ | MarkerSymbol _ _ _ _ =>
                 new_convert_symbol marker
             end ;;
  let out := Dict.set "marker" (VDict marker') out in
  let out := Dict.set "offset_x" (MarkerFill.offset_x layer) out in
  let out := Dict.set "offset_y" (MarkerFill.offset_y layer) out in
  let out := Dict.set "separation_x" (MarkerFill.separation_x layer) out in
  let out := Dict.set "separation_y" (MarkerFill.separation_y layer) out in
  Ok (Dict.set "random" (MarkerFill.random layer) out).

Definition convert_picture_fill_symbol_layer (layer : PictureFill.attrs)
    (outline_layer : option SymbolLayer)
    (outline_symbol : option SymbolOrLayer) : result dict :=
  color_background_model <- get_model (PictureFill.color_background layer) ;;
  let out :=
    [("color_foreground", convert_color (PictureFill.color_foreground layer));
     ("color_foreground_model", model_or_None (PictureFill.color_foreground layer));
     ("color_background", convert_color (PictureFill.color_background layer));
     ("color_background_model", color_background_model);
     ("color_transparent", convert_color (PictureFill.color_transparent layer));
     ("color_transparent_model", model_or_None (PictureFill.color_transparent layer));
     ("swap_fg_bg", PictureFill.swap_fb_gb layer)] in
  out <- set_outline outline_layer outline_symbol out ;;
  picture <- convert_picture (PictureFill.picture layer) ;;
  let out := Dict.set "picture" picture out in
  let out := Dict.set "angle" (PictureFill.angle layer) out in
  let out := Dict.set "scale_x" (PictureFill.scale_x layer) out in
  let out := Dict.set "scale_y" (PictureFill.scale_y layer) out in
  let out := Dict.set "offset_x" (PictureFill.offset_x layer) out in
  let out := Dict.set "offset_y" (PictureFill.offset_y layer) out in
  let out := Dict.set "separation_x" (PictureFill.separation_x layer) out in
  Ok (Dict.set "separation_y" (PictureFill.separation_y layer) out).

Definition convert_fill_symbol_layer (layer : SymbolLayer) : result dict :=
  match layer with
  | SimpleFillSymbolLayer _ color outline_layer outline_symbol =>
      convert_simple_fill_symbol_layer color outline_layer outline_symbol
  | ColorSymbol _ color =>
      convert_color_symbol color
  | GradientFillSymbolLayer _ a outline_layer outline_symbol =>
      convert_gradient_fill_symbol_layer a outline_layer outline_symbol
  | LineFillSymbolLayer _ a outline_layer outline_symbol line =>
      convert_line_fill_symbol_layer a outline_layer outline_symbol line
  | MarkerFillSymbolLayer _ a outline_layer outline_symbol marker =>
      convert_marker_fill_symbol_layer a outline_layer outline_symbol marker
  | PictureFillSymbolLayer _ a outline_layer outline_symbol =>
      convert_picture_fill_symbol_layer a outline_layer outline_symbol
  | _ =>
      Raise (NotImplementedException
               (repr_class (layer_class_name layer) ++ " not implemented yet"))
  end.

Definition convert_simple_line_decoration (layer : Decoration) : result dict :=
  match layer with
  | SimpleLineDecoration fixed_angle flip_first flip_all marker marker_positions =>
      let out := [("fixed_angle", VBool fixed_angle);
                  ("flip_first", VBool flip_first);
                  ("flip_all", VBool flip_all);
                  ("marker", VNone);
                  ("positions", VList marker_positions)] in
      match marker with
      | Some (BareLayer l) =>
          x <- self_convert_symbol_layer l ;;
          Ok (Dict.set "marker" (VDict x) out)
      | Some ((FillSymbol _ | LineSymbol _ | MarkerSymbol _ _ _ _) as s) =>
          x <- new_convert_symbol s ;;
          Ok (Dict.set "marker" (VDict x) out)
      | None => Ok out
      end
  | LineDecoration _ =>
      Raise (AttributeError
               "'LineDecoration' object has no attribute 'fixed_angle'")
  end.

(** The body of [convert_decoration]; the loop appends one converted
    element per element of [decoration.decorations]. *)
Definition convert_decoration (decoration : Decoration) : result dict :=
  match decoration with
  | LineDecoration decorations =>
      converted <-
        mapM (fun d =>
                match d with
                | LineDecoration _ => self_convert_decoration d
                | SimpleLineDecoration _ _ _ _ _ => convert_simple_line_decoration d
                end) decorations ;;
      Ok [("decorations", VList (map VDict converted))]
  | SimpleLineDecoration _ _ _ _ _ =>
      Raise (AttributeError
               "'SimpleLineDecoration' object has no attribute 'decorations'")
  end.

(** The decoration block shared by the cartographic, marker and hash
    line layers: [if layer.decoration is not None: ...] *)
Definition set_decoration (decoration : option Decoration) (out : dict)
    : result dict :=
  match decoration with
  | Some ((LineDecoration _) as d) =>
      x <- self_convert_decoration d ;;
      Ok (Dict.set "decoration" (VDict x) out)
  | Some ((SimpleLineDecoration _ _ _ _ _) as d) =>
      x <- convert_simple_line_decoration d ;;
      Ok (Dict.set "decoration" (VDict x) out)
  | None => Ok out
  end.

(** [if layer.template is not None: ...] *)
Definition set_template (template : option LineTemplate) (out : dict) : dict :=
  match template with
  | Some t => Dict.set "template" (VDict (convert_template t)) out
  | None => out
  end.

(** The block of the marker and hash line layers that converts a
    payload which is a bare layer, a symbol, or absent, under key [k] *)
Definition set_payload (k : string) (payload : option SymbolOrLayer)
    (out : dict) : result dict :=
  match payload with
  | Some (BareLayer l) =>
      x <- self_convert_symbol_layer l ;;
      Ok (Dict.set k (VDict x) out)
  | Some ((FillSymbol _ | LineSymbol _ | MarkerSymbol _ _ _ _) as s) =>
      x <- new_convert_symbol s ;;
      Ok (Dict.set k (VDict x) out)
  | None => Ok out
  end.

Definition convert_cartographic_line_symbol_layer
    (layer : CartographicLine.attrs) (decoration : option Decoration)
    : result dict :=
  color_model <- get_model (CartographicLine.color layer) ;;
  let out := [("color", convert_color (CartographicLine.color layer));
              ("color_model", color_model);
              ("width", CartographicLine.width layer);
              ("offset", CartographicLine.offset layer);
              ("cap", CartographicLine.cap layer);
              ("join", CartographicLine.join layer);
              ("template", VNone);
              ("decoration", VNone)] in
  let out := set_template (CartographicLine.template layer) out in
  set_decoration decoration out.

Definition convert_marker_line_symbol_layer
    (layer : MarkerLine.attrs) (pattern_marker : option SymbolOrLayer)
    (decoration : option Decoration) : result dict :=
  let out := [("color", convert_color (MarkerLine.color layer));
              ("color_model", model_or_None (MarkerLine.color layer));
              ("offset", MarkerLine.offset layer);
              ("cap", MarkerLine.cap layer);
              ("join", MarkerLine.join layer);
              ("template", VNone);
              ("pattern_marker", VNone);
              ("decoration", VNone)] in
  let out := set_template (MarkerLine.template layer) out in
  out <- set_payload "pattern_marker" pattern_marker out ;;
  set_decoration decoration out.

Definition convert_hash_line_symbol_layer
    (layer : HashLine.attrs) (line : option SymbolOrLayer)
    (decoration : option Decoration) : result dict :=
  color_model <- get_model (HashLine.color layer) ;;
  let out := [("color", convert_color (HashLine.color layer));
              ("color_model", color_model);
              ("width", HashLine.width layer);
              ("offset", HashLine.offset layer);
              ("cap", HashLine.cap layer);
              ("join", HashLine.join layer);
              ("template", VNone);
              ("decoration", VNone);
              ("line", VNone)] in
  let out := set_template (HashLine.template layer) out in
  out <- set_payload "line" line out ;;
  set_decoration decoration out.

Definition convert_line_symbol_layer (layer : SymbolLayer) : result dict :=
  match layer with
  | SimpleLineSymbolLayer _ a =>
      convert_simple_line_symbol_layer a
  | CartographicLineSymbolLayer _ a decoration =>
      convert_cartographic_line_symbol_layer a decoration
  | HashLineSymbolLayer _ a line decoration =>
      convert_hash_line_symbol_layer a line decoration
  | MarkerLineSymbolLayer _ a pattern_marker decoration =>
      convert_marker_line_symbol_layer a pattern_marker decoration
  | _ =>
      Raise (NotImplementedException
               (repr_class (layer_class_name layer) ++ " not implemented yet"))
  end.

Definition convert_marker_symbol_layer (layer : SymbolLayer) : result dict :=
  match layer with
  | SimpleMarkerSymbolLayer _ a => convert_simple_marker_symbol_layer a
  | CharacterMarkerSymbolLayer _ a => convert_character_marker_symbol_layer a
  | ArrowMarkerSymbolLayer _ a => convert_arrow_marker_symbol_layer a
  | PictureMarkerSymbolLayer _ a => convert_picture_marker_symbol_layer a
  | _ =>
      Raise (NotImplementedException
               (repr_class (layer_class_name layer) ++ " not implemented yet"))
  end.

(** [if layer.tags: out['tags'] = layer.tags] *)
Definition set_tags (tags : option (list string)) (out : dict) : dict :=
  match tags with
  | Some (t :: ts) => Dict.set "tags" (VList (map VStr (t :: ts))) out
  | Some [] | None => out
  end.

(** The body of [convert_symbol_layer] *)
Definition convert_symbol_layer (layer : SymbolLayer) : result dict :=
  out <- (if is_FillSymbolLayer layer then convert_fill_symbol_layer layer
          else if is_LineSymbolLayer layer then convert_line_symbol_layer layer
          else if is_MarkerSymbolLayer layer then convert_marker_symbol_layer layer
          else Raise (NotImplementedException
                        (repr_class (layer_class_name layer) ++ " not implemented yet"))) ;;
  let out := Dict.set "type" (VStr (layer_class_name layer)) out in
  let out := Dict.set "enabled" (VBool (enabled (layer_attrs layer))) out in
  let out := Dict.set "locked" (VBool (locked (layer_attrs layer))) out in
  Ok (set_tags (tags (layer_attrs layer)) out).

(** The tail shared by the three symbol methods:
    [if issubclass(symbol.__class__, SymbolLayer): ... else: for l in symbol.levels: ...] *)
Definition append_levels (symbol : SymbolOrLayer) : M unit :=
  match symbol with
  | BareLayer layer =>
      (x <- lift (self_convert_symbol_layer layer) ;;
       levels_append (VDict x))%M
  | FillSymbol levels | LineSymbol levels | MarkerSymbol levels _ _ _ =>
      for_each (fun l =>
                  (x <- lift (self_convert_symbol_layer l) ;;
                   levels_append (VDict x))%M) levels
  end.

Definition convert_fill_symbol (symbol : SymbolOrLayer) : M unit :=
  (set_out [("type", VStr "FillSymbol"); ("levels", VList [])] ;;;
   append_levels symbol)%M.

Definition convert_line_symbol (symbol : SymbolOrLayer) : M unit :=
  (set_out [("type", VStr "LineSymbol"); ("levels", VList [])] ;;;
   append_levels symbol)%M.

(** [symbol.halo], [symbol.halo_size] and [symbol.halo_symbol]: only a
    [MarkerSymbol] has these attributes. *)
Definition no_attribute (symbol : SymbolOrLayer) (name : string) : exn :=
  AttributeError
    ("'" ++ class_name (Some symbol) ++ "' object has no attribute '" ++ name ++ "'").

Definition get_halo (symbol : SymbolOrLayer) : result value :=
  match symbol with
  | MarkerSymbol _ halo _ _ => Ok (VBool halo)
  | BareLayer _ | FillSymbol _ | LineSymbol _ => Raise (no_attribute symbol "halo")
  end.

Definition get_halo_size (symbol : SymbolOrLayer) : result value :=
  match symbol with
  | MarkerSymbol _ _ halo_size _ => Ok halo_size
  | BareLayer _ | FillSymbol _ | LineSymbol _ => Raise (no_attribute symbol "halo_size")
  end.

Definition get_halo_symbol (symbol : SymbolOrLayer) : result (option SymbolOrLayer) :=
  match symbol with
  | MarkerSymbol _ _ _ halo_symbol => Ok halo_symbol
  | BareLayer _ | FillSymbol _ | LineSymbol _ => Raise (no_attribute symbol "halo_symbol")
  end.

(** The dictionary literal reads the three halo attributes before
    [self.out] is assigned; the halo symbol is converted by a new instance
    when it is a [FillSymbol]. *)
Definition convert_marker_symbol (symbol : SymbolOrLayer) : M unit :=
  (halo <- lift (get_halo symbol) ;;
   halo_size <- lift (get_halo_size symbol) ;;
   halo_symbol <- lift (get_halo_symbol symbol) ;;
   set_out [("type", VStr "MarkerSymbol");
            ("levels", VList []);
            ("halo", halo);
            ("halo_size", halo_size);
            ("halo_symbol_type", VStr (class_name halo_symbol))] ;;;
   match symbol with
   | MarkerSymbol _ _ _ (Some ((FillSymbol _) as h)) =>
       (x <- lift (new_convert_symbol h) ;;
        out_set "halo_symbol" (VDict x))%M
   | _ => ret_M tt
   end ;;;
   append_levels symbol)%M.

(** Modelled from the spec: [Converter.convert_symbol], the method of the
    base class that [super().convert_symbol(symbol)] reaches.  It
    determines the category of the symbol (or of the bare layer) and
    calls the method of that category; a layer of no family is an
    unsupported variant. *)
Definition Converter_convert_symbol (symbol : SymbolOrLayer) : M unit :=
  match symbol with
  | FillSymbol _ => convert_fill_symbol symbol
  | LineSymbol _ => convert_line_symbol symbol
  | MarkerSymbol _ _ _ _ => convert_marker_symbol symbol
  | BareLayer layer =>
      if is_FillSymbolLayer layer then convert_fill_symbol symbol
      else if is_LineSymbolLayer layer then convert_line_symbol symbol
      else if is_MarkerSymbolLayer layer then convert_marker_symbol symbol
      else lift (Raise (NotImplementedException
                          (repr_class (layer_class_name layer)
                             ++ " not implemented yet")))
  end.

(** The body of [DictionaryConverter.convert_symbol] *)
Definition convert_symbol (symbol : SymbolOrLayer) : M dict :=
  (set_out [] ;;;
   Converter_convert_symbol symbol ;;;
   get_out)%M.

End Methods.

End Open.

Section DictionaryConverter.

Context {utils : PictureUtils} {gradients : GradientTypes} {classes : ClassTexts}.

(** [DictionaryConverter.convert_symbol_layer], [convert_symbol] and
    [convert_decoration]: the recursion follows the object tree. *)
Fixpoint convert_symbol_layer (layer : SymbolLayer) {struct layer} : result dict :=
  Open.convert_symbol_layer
    convert_symbol_layer
    (fun s => snd (convert_symbol s __init__))
    convert_decoration
    layer
with convert_symbol (symbol : SymbolOrLayer) {struct symbol} : M dict :=
  Open.convert_symbol
    convert_symbol_layer
    (fun s => snd (convert_symbol s __init__))
    symbol
with convert_decoration (decoration : Decoration) {struct decoration} : result dict :=
  Open.convert_decoration
    convert_symbol_layer
    (fun s => snd (convert_symbol s __init__))
    convert_decoration
    decoration.

(** [DictionaryConverter().convert_symbol(symbol)]: the value a new instance
    returns *)
Definition new_convert_symbol (symbol : SymbolOrLayer) : result dict :=
  snd (convert_symbol symbol __init__).

(** The methods of [DictionaryConverter], closed over the recursion. *)

Definition convert_simple_fill_symbol_layer :=
  Open.convert_simple_fill_symbol_layer convert_symbol_layer new_convert_symbol.

Definition convert_gradient_fill_symbol_layer :=
  Open.convert_gradient_fill_symbol_layer convert_symbol_layer new_convert_symbol.

Definition convert_line_fill_symbol_layer :=
  Open.convert_line_fill_symbol_layer convert_symbol_layer new_convert_symbol.

Definition convert_marker_fill_symbol_layer :=
  Open.convert_marker_fill_symbol_layer convert_symbol_layer new_convert_symbol.

Definition convert_picture_fill_symbol_layer :=
  Open.convert_picture_fill_symbol_layer convert_symbol_layer new_convert_symbol.

Definition convert_fill_symbol_layer :=
  Open.convert_fill_symbol_layer convert_symbol_layer new_convert_symbol.

Definition convert_simple_line_decoration :=
  Open.convert_simple_line_decoration convert_symbol_layer new_convert_symbol.

Definition convert_cartographic_line_symbol_layer :=
  Open.convert_cartographic_line_symbol_layer
    convert_symbol_layer new_convert_symbol convert_decoration.

Definition convert_marker_line_symbol_layer :=
  Open.convert_marker_line_symbol_layer
    convert_symbol_layer new_convert_symbol convert_decoration.

Definition convert_hash_line_symbol_layer :=
  Open.convert_hash_line_symbol_layer
    convert_symbol_layer new_convert_symbol convert_decoration.

Definition convert_line_symbol_layer :=
  Open.convert_line_symbol_layer
    convert_symbol_layer new_convert_symbol convert_decoration.

Definition convert_marker_symbol_layer :=
  Open.convert_marker_symbol_layer.

Definition convert_fill_symbol :=
  Open.convert_fill_symbol convert_symbol_layer.

Definition convert_line_symbol :=
  Open.convert_line_symbol convert_symbol_layer.

Definition convert_marker_symbol :=
  Open.convert_marker_symbol convert_symbol_layer new_convert_symbol.

Definition Converter_convert_symbol :=
  Open.Converter_convert_symbol convert_symbol_layer new_convert_symbol.

Definition convert_color_ramp (ramp : ColorRamp) : M unit :=
  set_out (ramp_to_dict ramp).

(** [layer] belongs to a family whose converter returns the base map
    [base]. *)
Definition family_base (layer : SymbolLayer) (base : dict) : Prop :=
  (is_FillSymbolLayer layer = true /\ convert_fill_symbol_layer layer = Ok base)
  \/ (is_LineSymbolLayer layer = true /\ convert_line_symbol_layer layer = Ok base)
  \/ (is_MarkerSymbolLayer layer = true /\ convert_marker_symbol_layer layer = Ok base).

(** The four gradient type codes, and a code that is one of them. *)
Definition gradient_codes : list Z := [LINEAR; CIRCULAR; BUFFERED; RECTANGULAR].

Definition known_gradient_type (code : Z) : Prop := In code gradient_codes.

(** The objects a conversion visits, and the result of visiting one. *)
Inductive node : Type :=
| NLayer (layer : SymbolLayer)
| NSymbol (symbol : SymbolOrLayer)
| NDecoration (decoration : Decoration).

Definition convert_node (n : node) : result dict :=
  match n with
  | NLayer layer => convert_symbol_layer layer
  | NSymbol symbol => new_convert_symbol symbol
  | NDecoration ((LineDecoration _) as d) => convert_decoration d
  | NDecoration ((SimpleLineDecoration _ _ _ _ _) as d) =>
      convert_simple_line_decoration d
  end.

Definition raises (n : node) : Prop := exists e, convert_node n = Raise e.

(** The layers a symbol is converted through: a bare layer counts as a
    one-element sequence. *)
Definition symbol_levels (symbol : SymbolOrLayer) : list SymbolLayer :=
  match symbol with
  | BareLayer layer => [layer]
  | FillSymbol levels | LineSymbol levels | MarkerSymbol levels _ _ _ => levels
  end.

(** The entry a halo symbol adds to the map of a marker symbol: the
    conversion of the halo by a new instance when the halo is a
    [FillSymbol], nothing otherwise. *)
Definition halo_entry (halo_symbol : option SymbolOrLayer) : result dict :=
  match halo_symbol with
  | Some ((FillSymbol _) as h) =>
      x <- new_convert_symbol h ;;
      Ok [("halo_symbol", VDict x)]
  | _ => Ok []
  end.

(** [result] holds, under [levels], one converted layer per layer of
    [symbol], in the order of the layers. *)
Definition levels_in_order (symbol : SymbolOrLayer) (result : dict) : Prop :=
  exists converted : list dict,
    Dict.get "levels" result = Some (VList (map VDict converted))
    /\ List.length converted = List.length (symbol_levels symbol)
    /\ (forall i layer,
           nth_error (symbol_levels symbol) i = Some layer ->
           exists d,
             nth_error converted i = Some d
             /\ convert_symbol_layer layer = Ok d).

(** [result] holds the halo of a marker symbol: the flag, the size, the
    class name of the halo symbol (['NoneType'] without one) and, exactly
    when the halo symbol is a [FillSymbol], the map a new instance converts
    it to. *)
Definition halo_fields (halo : bool) (halo_size : value)
    (halo_symbol : option SymbolOrLayer) (result : dict) : Prop :=
  Dict.get "type" result = Some (VStr "MarkerSymbol")
  /\ Dict.get "halo" result = Some (VBool halo)
  /\ Dict.get "halo_size" result = Some halo_size
  /\ Dict.get "halo_symbol_type" result = Some (VStr (class_name halo_symbol))
  /\ (halo_symbol = None ->
      Dict.get "halo_symbol_type" result = Some (VStr "NoneType"))
  /\ (Dict.mem "halo_symbol" result = true
      <-> exists hl, halo_symbol = Some (FillSymbol hl))
  /\ (forall hl,
        halo_symbol = Some (FillSymbol hl) ->
        exists d,
          snd (convert_symbol (FillSymbol hl) __init__) = Ok d
          /\ Dict.get "halo_symbol" result = Some (VDict d)
          /\ Dict.get "halo_symbol_type" result = Some (VStr "FillSymbol")).

(** A payload attribute that holds a bare layer or a symbol, as a node *)
Definition payload_node (payload : SymbolOrLayer) : node :=
  match payload with
  | BareLayer l => NLayer l
  | FillSymbol _ | LineSymbol _ | MarkerSymbol _ _ _ _ => NSymbol payload
  end.

(** [child c p]: converting [p] converts [c] *)
Inductive child : node -> node -> Prop :=
| child_simple_fill_layer base color l os :
    child (NLayer l) (NLayer (SimpleFillSymbolLayer base color (Some l) os))
| child_simple_fill_symbol base color ol s :
    child (NSymbol s) (NLayer (SimpleFillSymbolLayer base color ol (Some s)))
| child_gradient_layer base a l os :
    child (NLayer l) (NLayer (GradientFillSymbolLayer base a (Some l) os))
| child_gradient_symbol base a ol s :
    child (NSymbol s) (NLayer (GradientFillSymbolLayer base a ol (Some s)))
| child_line_fill_layer base a l os line :
    child (NLayer l) (NLayer (LineFillSymbolLayer base a (Some l) os line))
| child_line_fill_symbol base a ol s line :
    child (NSymbol s) (NLayer (LineFillSymbolLayer base a ol (Some s) line))
| child_line_fill_line base a ol os line :
    child (payload_node line) (NLayer (LineFillSymbolLayer base a ol os line))
| child_marker_fill_layer base a l os marker :
    child (NLayer l) (NLayer (MarkerFillSymbolLayer base a (Some l) os marker))
| child_marker_fill_symbol base a ol s marker :
    child (NSymbol s) (NLayer (MarkerFillSymbolLayer base a ol (Some s) marker))
| child_marker_fill_marker base a ol os marker :
    child (payload_node marker) (NLayer (MarkerFillSymbolLayer base a ol os marker))
| child_picture_fill_layer base a l os :
    child (NLayer l) (NLayer (PictureFillSymbolLayer base a (Some l) os))
| child_picture_fill_symbol base a ol s :
    child (NSymbol s) (NLayer (PictureFillSymbolLayer base a ol (Some s)))
| child_cartographic_decoration base a d :
    child (NDecoration d) (NLayer (CartographicLineSymbolLayer base a (Some d)))
| child_marker_line_pattern base a p deco :
    child (payload_node p) (NLayer (MarkerLineSymbolLayer base a (Some p) deco))
| child_marker_line_decoration base a pm d :
    child (NDecoration d) (NLayer (MarkerLineSymbolLayer base a pm (Some d)))
| child_hash_line_line base a p deco :
    child (payload_node p) (NLayer (HashLineSymbolLayer base a (Some p) deco))
| child_hash_line_decoration base a line d :
    child (NDecoration d) (NLayer (HashLineSymbolLayer base a line (Some d)))
| child_bare_layer l :
    child (NLayer l) (NSymbol (BareLayer l))
| child_fill_symbol l levels :
    In l levels -> child (NLayer l) (NSymbol (FillSymbol levels))
| child_line_symbol l levels :
    In l levels -> child (NLayer l) (NSymbol (LineSymbol levels))
| child_marker_symbol l levels halo halo_size halo_symbol :
    In l levels ->
    child (NLayer l) (NSymbol (MarkerSymbol levels halo halo_size halo_symbol))
| child_marker_symbol_halo levels halo halo_size hl :
    child (NSymbol (FillSymbol hl))
          (NSymbol (MarkerSymbol levels halo halo_size (Some (FillSymbol hl))))
| child_line_decoration d ds :
    In d ds -> child (NDecoration d) (NDecoration (LineDecoration ds))
| child_simple_decoration_marker fa ff fl p positions :
    child (payload_node p)
          (NDecoration (SimpleLineDecoration fa ff fl (Some p) positions)).

(** [part_of c p]: [c] is [p] or is reached from [p] through [child] *)
Inductive part_of : node -> node -> Prop :=
| part_self n : part_of n n
| part_step c m p : child c m -> part_of m p -> part_of c p.

(** ** What further properties speak about *)

(** The [type] of the map a symbol converts to: the category of the symbol,
    and for a bare layer the category of its family. *)
Definition category (symbol : SymbolOrLayer) : string :=
  match symbol with
  | FillSymbol _ => "FillSymbol"
  | LineSymbol _ => "LineSymbol"
  | MarkerSymbol _ _ _ _ => "MarkerSymbol"
  | BareLayer layer =>
      if is_FillSymbolLayer layer then "FillSymbol"
      else if is_LineSymbolLayer layer then "LineSymbol"
      else "MarkerSymbol"
  end.

(** The keys of the map a symbol converts to, in their order. *)
Definition symbol_keys (symbol : SymbolOrLayer) : list string :=
  match symbol with
  | MarkerSymbol _ _ _ (Some (FillSymbol _)) =>
      ["type"; "levels"; "halo"; "halo_size"; "halo_symbol_type"; "halo_symbol"]
  | MarkerSymbol _ _ _ _ =>
      ["type"; "levels"; "halo"; "halo_size"; "halo_symbol_type"]
  | BareLayer _ | FillSymbol _ | LineSymbol _ => ["type"; "levels"]
  end.

(** [layer.outline_layer] and [layer.outline_symbol] of the fill layers
    that have an outline. *)
Definition outlines (layer : SymbolLayer)
    : option (option SymbolLayer * option SymbolOrLayer) :=
  match layer with
  | SimpleFillSymbolLayer _ _ ol os
  | GradientFillSymbolLayer _ _ ol os
  | LineFillSymbolLayer _ _ ol os _
  | MarkerFillSymbolLayer _ _ ol os _
  | PictureFillSymbolLayer _ _ ol os => Some (ol, os)
  | _ => None
  end.

(** [d] holds the outline of a fill layer: [outline_layer] is the converted
    outline layer and [outline_symbol] the map a new instance converts the
    outline symbol to; the key of an absent outline is absent. *)
Definition outline_entries (ol : option SymbolLayer) (os : option SymbolOrLayer)
    (d : dict) : Prop :=
  match ol with
  | Some l =>
      exists x, convert_symbol_layer l = Ok x
                /\ Dict.get "outline_layer" d = Some (VDict x)
  | None => Dict.get "outline_layer" d = None
  end
  /\ match os with
     | Some sy =>
         exists x, new_convert_symbol sy = Ok x
                   /\ Dict.get "outline_symbol" d = Some (VDict x)
     | None => Dict.get "outline_symbol" d = None
     end.

(** The exceptions of the five places where the converter's own code can
    stop: the three [raise] statements (a layer of an unknown class, a
    gradient type code that is none of the four, a picture that is neither
    a bitmap nor an EMF), the read of [.model] on a color that is [None],
    and the read of [.halo] on a bare layer of the marker family.  A
    [KeyError] of the converter's own dictionary is not among them. *)
Definition foreseen (e : exn) : Prop :=
  match e with
  | NotImplementedException msg =>
      (exists cls, msg = repr_class cls ++ " not implemented yet")
      \/ (exists code,
            ~ known_gradient_type code
            /\ msg = "Gradient type " ++ str_of_Z code ++ " not implemented yet")
      \/ (exists picture,
            msg = picture_class_name picture ++ " picture conversion not implemented")
  | AttributeError msg =>
      msg = "'NoneType' object has no attribute 'model'"
      \/ (exists layer,
            is_MarkerSymbolLayer layer = true
            /\ msg = "'" ++ layer_class_name layer ++ "' object has no attribute 'halo'")
  | KeyError _ => False
  end.

(** [agrees b r]: the result [r] is a value exactly when [b] holds, and an
    exception [r] raises is a foreseen one. *)
Definition agrees {A : Type} (b : bool) (r : result A) : Prop :=
  match r with
  | Ok _ => b = true
  | Raise e => b = false /\ foreseen e
  end.

Definition present {A : Type} (x : option A) : bool :=
  match x with Some _ => true | None => false end.

(** A picture [convert_picture] accepts. *)
Definition picture_ok (picture : option Picture) : bool :=
  match picture with
  | None => true
  | Some (BmpPicture _ | EmfPicture _) => true
  | Some (StdPicture (Some (BmpPicture _ | EmfPicture _))) => true
  | Some (StdPicture _) | Some (OtherPicture _) => false
  end.

Definition known_code (code : Z) : bool := existsb (Z.eqb code) gradient_codes.

(** The objects the converter converts without an exception: every color
    whose model is read unguarded is present, every gradient code is known,
    every picture is accepted, every layer is of a class the converter
    knows, and a bare layer given as a symbol is a fill or a line layer. *)
Fixpoint layer_ok (layer : SymbolLayer) {struct layer} : bool :=
  match layer with
  | SimpleFillSymbolLayer _ color ol os =>
      present color
      && (match ol with Some l => layer_ok l | None => true end
          && match os with Some s => symbol_ok s | None => true end)
  | ColorSymbol _ color => present color
  | GradientFillSymbolLayer _ a ol os =>
      (match ol with Some l => layer_ok l | None => true end
       && match os with Some s => symbol_ok s | None => true end)
      && known_code (GradientFill.type a)
  | LineFillSymbolLayer _ _ ol os line =>
      (match ol with Some l => layer_ok l | None => true end
       && match os with Some s => symbol_ok s | None => true end)
      && match line with
         | BareLayer l => layer_ok l
         | FillSymbol _ | LineSymbol _ | MarkerSymbol _ _ _ _ => symbol_ok line
         end
  | MarkerFillSymbolLayer _ _ ol os marker =>
      (match ol with Some l => layer_ok l | None => true end
       && match os with Some s => symbol_ok s | None => true end)
      && match marker with
         | BareLayer l => layer_ok l
         | FillSymbol _ | LineSymbol _ | MarkerSymbol _ _ _ _ => symbol_ok marker
         end
  | PictureFillSymbolLayer _ a ol os =>
      present (PictureFill.color_background a)
      && ((match ol with Some l => layer_ok l | None => true end
           && match os with Some s => symbol_ok s | None => true end)
          && picture_ok (PictureFill.picture a))
  | SimpleLineSymbolLayer _ a => present (SimpleLine.color a)
  | CartographicLineSymbolLayer _ a decoration =>
      present (CartographicLine.color a)
      && match decoration with Some d => decoration_ok d | None => true end
  | MarkerLineSymbolLayer _ _ pattern_marker decoration =>
      match pattern_marker with
      | Some (BareLayer l) => layer_ok l
      | Some ((FillSymbol _ | LineSymbol _ | MarkerSymbol _ _ _ _) as s) => symbol_ok s
      | None => true
      end
      && match decoration with Some d => decoration_ok d | None => true end
  | HashLineSymbolLayer _ a line decoration =>
      present (HashLine.color a)
      && (match line with
          | Some (BareLayer l) => layer_ok l
          | Some ((FillSymbol _ | LineSymbol _ | MarkerSymbol _ _ _ _) as s) => symbol_ok s
          | None => true
          end
          && match decoration with Some d => decoration_ok d | None => true end)
  | SimpleMarkerSymbolLayer _ a =>
      present (SimpleMarker.color a) && present (SimpleMarker.outline_color a)
  | CharacterMarkerSymbolLayer _ a => present (CharacterMarker.color a)
  | ArrowMarkerSymbolLayer _ a => present (ArrowMarker.color a)
  | PictureMarkerSymbolLayer _ a =>
      present (PictureMarker.color_foreground a)
      && (present (PictureMarker.color_background a)
          && picture_ok (PictureMarker.picture a))
  | OtherFillSymbolLayer _ _ | OtherLineSymbolLayer _ _
  | OtherMarkerSymbolLayer _ _ | OtherSymbolLayer _ _ => false
  end
with symbol_ok (symbol : SymbolOrLayer) {struct symbol} : bool :=
  match symbol with
  | BareLayer layer =>
      (is_FillSymbolLayer layer || is_LineSymbolLayer layer) && layer_ok layer
  | FillSymbol levels | LineSymbol levels => forallb layer_ok levels
  | MarkerSymbol levels _ _ halo_symbol =>
      match halo_symbol with
      | Some ((FillSymbol _) as h) => symbol_ok h
      | _ => true
      end
      && forallb layer_ok levels
  end
with decoration_ok (decoration : Decoration) {struct decoration} : bool :=
  match decoration with
  | LineDecoration decorations => forallb decoration_ok decorations
  | SimpleLineDecoration _ _ _ marker _ =>
      match marker with
      | Some (BareLayer l) => layer_ok l
      | Some ((FillSymbol _ | LineSymbol _ | MarkerSymbol _ _ _ _) as s) => symbol_ok s
      | None => true
      end
  end.

Definition node_ok (n : node) : bool :=
  match n with
  | NLayer layer => layer_ok layer
  | NSymbol symbol => symbol_ok symbol
  | NDecoration decoration => decoration_ok decoration
  end.

(** The number of objects in a layer, a symbol or a decoration. *)
Fixpoint layer_size (layer : SymbolLayer) {struct layer} : nat :=
  match layer with
  | SimpleFillSymbolLayer _ _ ol os
  | GradientFillSymbolLayer _ _ ol os
  | PictureFillSymbolLayer _ _ ol os =>
      S (match ol with Some l => layer_size l | None => 0 end
         + match os with Some s => symbol_size s | None => 0 end)
  | LineFillSymbolLayer _ _ ol os p
  | MarkerFillSymbolLayer _ _ ol os p =>
      S (match ol with Some l => layer_size l | None => 0 end
         + match os with Some s => symbol_size s | None => 0 end
         + symbol_size p)
  | CartographicLineSymbolLayer _ _ decoration =>
      S (match decoration with Some d => decoration_size d | None => 0 end)
  | MarkerLineSymbolLayer _ _ p decoration
  | HashLineSymbolLayer _ _ p decoration =>
      S (match p with Some s => symbol_size s | None => 0 end
         + match decoration with Some d => decoration_size d | None => 0 end)
  | _ => 1
  end%nat
with symbol_size (symbol : SymbolOrLayer) {struct symbol} : nat :=
  match symbol with
  | BareLayer layer => S (layer_size layer)
  | FillSymbol levels | LineSymbol levels => S (list_sum (map layer_size levels))
  | MarkerSymbol levels _ _ halo_symbol =>
      S (list_sum (map layer_size levels)
         + match halo_symbol with Some s => symbol_size s | None => 0 end)
  end%nat
with decoration_size (decoration : Decoration) {struct decoration} : nat :=
  match decoration with
  | LineDecoration decorations => S (list_sum (map decoration_size decorations))
  | SimpleLineDecoration _ _ _ marker _ =>
      S (match marker with Some s => symbol_size s | None => 0 end)
  end%nat.

Definition node_size (n : node) : nat :=
  match n with
  | NLayer layer => layer_size layer
  | NSymbol symbol => symbol_size symbol
  | NDecoration decoration => decoration_size decoration
  end.

End DictionaryConverter.

(** ** Concrete inputs

    An instance of the interfaces and a few parsed objects, used to run
    the converter. *)
Module Sample.

Definition alphabet : list ascii :=
  list_ascii_of_string
    "ABCDEFGHIJKLMNOPQRSTUVWXYZabcdefghijklmnopqrstuvwxyz0123456789+/".

Definition digit (n : N) : ascii := nth (N.to_nat n) alphabet "="%char.

(** RFC 4648 base64 with padding *)
Fixpoint b64encode (l : bytes) : string :=
  match l with
  | [] => ""
  | [a] =>
      let x := Byte.to_N a in
      String (digit (x / 4)) (String (digit ((x mod 4) * 16)) "==")
  | [a; b] =>
      let x := Byte.to_N a in
      let y := Byte.to_N b in
      String (digit (x / 4))
        (String (digit ((x mod 4) * 16 + y / 16))
           (String (digit ((y mod 16) * 4)) "="))
  | a :: b :: c :: l' =>
      let x := Byte.to_N a in
      let y := Byte.to_N b in
      let z := Byte.to_N c in
      String (digit (x / 4))
        (String (digit ((x mod 4) * 16 + y / 16))
           (String (digit ((y mod 16) * 4 + z / 64))
              (String (digit (z mod 64)) (b64encode l'))))
  end%N.

(** The sample encoders: base64 of the bytes; the sample rasteriser keeps
    the bytes as they are. *)
Definition utils : PictureUtils :=
  {| to_base64_png := b64encode; to_base64 := b64encode |}.

Definition gradients : GradientTypes :=
  {| LINEAR := 0; CIRCULAR := 1; BUFFERED := 2; RECTANGULAR := 3 |}.

(** The sample class texts: every class stands in one sample module. *)
Definition classes : ClassTexts :=
  {| repr_class := fun cls => "<class 'slyr.parser.objects." ++ cls ++ "'>" |}.

Definition red : Color :=
  {| model := "rgb";
     to_dict := [("R", VInt 255); ("G", VInt 0); ("B", VInt 0)] |}.

Definition plain : LayerAttrs :=
  {| enabled := true; locked := false; tags := Some [] |}.

Definition tagged : LayerAttrs :=
  {| enabled := true; locked := true; tags := Some ["roads"; "major"] |}.

(** 4.0 and 2.0 as binary64 values *)
Definition four : value := VFloat (S754_finite false 4503599627370496 (-50)).
Definition two : value := VFloat (S754_finite false 4503599627370496 (-51)).

Definition simple_fill : SymbolLayer :=
  SimpleFillSymbolLayer plain (Some red) None None.

Definition simple_line : SymbolLayer :=
  SimpleLineSymbolLayer tagged
    {| SimpleLine.color := Some red;
       SimpleLine.width := four;
       SimpleLine.line_type := VStr "solid" |}.

Definition dashes : LineTemplate :=
  {| pattern_interval := four; pattern_parts := [VInt 2; VInt 2] |}.

Definition cartographic_attrs : CartographicLine.attrs :=
  {| CartographicLine.color := Some red;
     CartographicLine.width := two;
     CartographicLine.offset := VInt 0;
     CartographicLine.cap := VStr "butt";
     CartographicLine.join := VStr "miter";
     CartographicLine.template := Some dashes |}.

Definition cartographic : SymbolLayer :=
  CartographicLineSymbolLayer plain cartographic_attrs None.

Definition simple_marker : SymbolLayer :=
  SimpleMarkerSymbolLayer plain
    {| SimpleMarker.color := Some red;
       SimpleMarker.type := VStr "circle";
       SimpleMarker.size := four;
       SimpleMarker.x_offset := VInt 0;
       SimpleMarker.y_offset := VInt 0;
       SimpleMarker.outline_enabled := VBool false;
       SimpleMarker.outline_color := Some red;
       SimpleMarker.outline_width := two |}.

Definition ramp : ColorRamp :=
  {| ramp_to_dict := [("type", VStr "AlgorithmicColorRamp")] |}.

(** A gradient fill whose type code, 7, is none of the four known codes *)
Definition odd_gradient_attrs : GradientFill.attrs :=
  {| GradientFill.ramp := ramp;
     GradientFill.percent := VInt 50;
     GradientFill.angle := VInt 90;
     GradientFill.intervals := VInt 5;
     GradientFill.type := 7 |}.

Definition odd_gradient : SymbolLayer :=
  GradientFillSymbolLayer plain odd_gradient_attrs None None.



Definition no_color_fill : SymbolLayer :=
  SimpleFillSymbolLayer plain None None None.

(** A picture fill whose foreground and transparent colors are absent *)
Definition no_foreground : PictureFill.attrs :=
  {| PictureFill.color_foreground := None;
     PictureFill.color_background := Some red;
     PictureFill.color_transparent := None;
     PictureFill.swap_fb_gb := VBool false;
     PictureFill.picture := Some (StdPicture (Some (EmfPicture [Byte.x4d; Byte.x61; Byte.x6e])));
     PictureFill.angle := VInt 0;
     PictureFill.scale_x := VInt 1;
     PictureFill.scale_y := VInt 1;
     PictureFill.offset_x := VInt 0;
     PictureFill.offset_y := VInt 0;
     PictureFill.separation_x := VInt 0;
     PictureFill.separation_y := VInt 0 |}.

Definition picture_fill : SymbolLayer :=
  PictureFillSymbolLayer plain no_foreground None None.

Definition picture_marker_attrs : PictureMarker.attrs :=
  {| PictureMarker.color_foreground := Some red;
     PictureMarker.color_background := Some red;
     PictureMarker.color_transparent := None;
     PictureMarker.size := four;
     PictureMarker.angle := VInt 0;
     PictureMarker.x_offset := VInt 0;
     PictureMarker.y_offset := VInt 0;
     PictureMarker.swap_fb_gb := VBool false;
     PictureMarker.picture := Some (BmpPicture [Byte.x42; Byte.x4d]) |}.

Definition picture_marker : SymbolLayer :=
  PictureMarkerSymbolLayer plain picture_marker_attrs.

(** A marker line with no color, no template, no pattern marker and no
    decoration *)
Definition marker_line_attrs : MarkerLine.attrs :=
  {| MarkerLine.color := None;
     MarkerLine.offset := VInt 0;
     MarkerLine.cap := VStr "butt";
     MarkerLine.join := VStr "miter";
     MarkerLine.template := None |}.

Definition marker_line : SymbolLayer :=
  MarkerLineSymbolLayer plain marker_line_attrs None None.

Definition hash_line_attrs : HashLine.attrs :=
  {| HashLine.color := Some red;
     HashLine.width := two;
     HashLine.offset := VInt 0;
     HashLine.cap := VStr "butt";
     HashLine.join := VStr "miter";
     HashLine.template := None |}.

Definition hash_line : SymbolLayer :=
  HashLineSymbolLayer plain hash_line_attrs None None.

Definition character_marker_attrs : CharacterMarker.attrs :=
  {| CharacterMarker.color := Some red;
     CharacterMarker.unicode := VInt 65;
     CharacterMarker.font := VStr "ESRI Default Marker";
     CharacterMarker.std_font := None;
     CharacterMarker.size := four;
     CharacterMarker.angle := VInt 0;
     CharacterMarker.x_offset := VInt 0;
     CharacterMarker.y_offset := VInt 0 |}.

Definition character_marker : SymbolLayer :=
  CharacterMarkerSymbolLayer plain character_marker_attrs.

(** A decoration that places a marker, and a marker symbol with a fill
    halo *)
Definition arrow_heads : Decoration :=
  LineDecoration
    [SimpleLineDecoration true false false
       (Some (BareLayer simple_marker)) [VInt 0; VInt 1]].

Definition decorated_line : SymbolLayer :=
  CartographicLineSymbolLayer plain cartographic_attrs (Some arrow_heads).

Definition halo_marker : SymbolOrLayer :=
  MarkerSymbol [simple_marker; character_marker] true two
    (Some (FillSymbol [simple_fill])).

(** Further inputs: layers with outlines, payloads and optional parts, a
    layer of a class the converter does not know, a picture it does not
    accept *)
Definition outlined_fill : SymbolLayer :=
  SimpleFillSymbolLayer tagged (Some red) (Some simple_line)
    (Some (LineSymbol [simple_line])).

Definition hatch_fill : SymbolLayer :=
  LineFillSymbolLayer plain
    {| LineFill.angle := VInt 45;
       LineFill.offset := VInt 0;
       LineFill.separation := four |}
    None None (LineSymbol [simple_line]).

Definition marker_fill_attrs : MarkerFill.attrs :=
  {| MarkerFill.offset_x := VInt 0;
     MarkerFill.offset_y := VInt 0;
     MarkerFill.separation_x := four;
     MarkerFill.separation_y := four;
     MarkerFill.random := VBool false |}.

Definition marker_fill : SymbolLayer :=
  MarkerFillSymbolLayer plain marker_fill_attrs None None (BareLayer simple_marker).

Definition dashed_marker_line_attrs : MarkerLine.attrs :=
  {| MarkerLine.color := Some red;
     MarkerLine.offset := VInt 0;
     MarkerLine.cap := VStr "butt";
     MarkerLine.join := VStr "miter";
     MarkerLine.template := Some dashes |}.

Definition patterned_line : SymbolLayer :=
  MarkerLineSymbolLayer plain dashed_marker_line_attrs
    (Some (BareLayer simple_marker)) (Some arrow_heads).

Definition dashed_hash_line_attrs : HashLine.attrs :=
  {| HashLine.color := Some red;
     HashLine.width := two;
     HashLine.offset := VInt 0;
     HashLine.cap := VStr "butt";
     HashLine.join := VStr "miter";
     HashLine.template := Some dashes |}.

Definition hashed_line : SymbolLayer :=
  HashLineSymbolLayer plain dashed_hash_line_attrs
    (Some (LineSymbol [simple_line])) (Some arrow_heads).

Definition unknown_layer : SymbolLayer :=
  OtherFillSymbolLayer "DotDensityFillSymbolLayer" plain.

Definition fill_with_unknown_outline : SymbolLayer :=
  SimpleFillSymbolLayer plain (Some red) (Some unknown_layer) None.

Definition odd_halo_marker : SymbolOrLayer :=
  MarkerSymbol [simple_marker] true two (Some (LineSymbol [unknown_layer])).

Definition gif_marker_attrs : PictureMarker.attrs :=
  {| PictureMarker.color_foreground := Some red;
     PictureMarker.color_background := Some red;
     PictureMarker.color_transparent := None;
     PictureMarker.size := four;
     PictureMarker.angle := VInt 0;
     PictureMarker.x_offset := VInt 0;
     PictureMarker.y_offset := VInt 0;
     PictureMarker.swap_fb_gb := VBool false;
     PictureMarker.picture := Some (OtherPicture "GifPicture") |}.

Definition arial : Font :=
  {| font_name := VStr "Arial";
     charset := VInt 0;
     weight := VInt 400;
     font_size := four;
     italic := VBool false;
     strikethrough := VBool false;
     underline := VBool false |}.

Definition glyph_attrs : CharacterMarker.attrs :=
  {| CharacterMarker.color := Some red;
     CharacterMarker.unicode := VInt 65;
     CharacterMarker.font := VStr "Arial";
     CharacterMarker.std_font := Some arial;
     CharacterMarker.size := four;
     CharacterMarker.angle := VInt 0;
     CharacterMarker.x_offset := VInt 0;
     CharacterMarker.y_offset := VInt 0 |}.

End Sample.

(** ** Properties *)

Unset Implicit Arguments.

Section Properties.

Context {utils : PictureUtils} {gradients : GradientTypes} {classes : ClassTexts}.

(** *** Dictionaries *)

Lemma get_set_same (k : string) (v : value) (d : dict) :
  Dict.get k (Dict.set k v d) = Some v.
Proof.
  induction d as [|[k' v'] d IH]; simpl.
  - now rewrite String.eqb_refl.
  - destruct (String.eqb k k') eqn:E; simpl.
    + now rewrite String.eqb_refl.
    + now rewrite E.
Qed.

Lemma get_set_other (k k' : string) (v : value) (d : dict) :
  k <> k' -> Dict.get k (Dict.set k' v d) = Dict.get k d.
Proof.
  intros Hne. induction d as [|[k0 v0] d IH]; simpl.
  - destruct (String.eqb_spec k k'); congruence.
  - destruct (String.eqb_spec k' k0) as [->|Hk0]; simpl.
    + destruct (String.eqb_spec k k0); congruence.
    + now rewrite IH.
Qed.

Lemma set_set_same (k : string) (v v' : value) (d : dict) :
  Dict.set k v (Dict.set k v' d) = Dict.set k v d.
Proof.
  induction d as [|[k0 v0] d IH]; simpl.
  - now rewrite String.eqb_refl.
  - destruct (String.eqb k k0) eqn:E; simpl.
    + now rewrite String.eqb_refl.
    + rewrite E. congruence.
Qed.

Lemma set_get_same (k : string) (v : value) (d : dict) :
  Dict.get k d = Some v -> Dict.set k v d = d.
Proof.
  induction d as [|[k0 v0] d IH]; simpl; [discriminate|].
  destruct (String.eqb_spec k k0) as [->|Hne]; intros H.
  - congruence.
  - now rewrite IH.
Qed.

Lemma mem_true_iff (k : string) (d : dict) :
  Dict.mem k d = true <-> exists v, Dict.get k d = Some v.
Proof.
  unfold Dict.mem. destruct (Dict.get k d) as [v|]; split.
  - now exists v.
  - reflexivity.
  - discriminate.
  - intros [v Hv]; discriminate.
Qed.

(** *** The exception monad *)

Lemma bind_Ok {A B : Type} (m : result A) (k : A -> result B) (b : B) :
  bind m k = Ok b -> exists a, m = Ok a /\ k a = Ok b.
Proof.
  destruct m as [a|e]; simpl; [|discriminate]. intros H. now exists a.
Qed.

Lemma mapM_Forall2 {A B : Type} (f : A -> result B) (l : list A) (bs : list B) :
  mapM f l = Ok bs <-> Forall2 (fun a b => f a = Ok b) l bs.
Proof.
  revert bs. induction l as [|a l IH]; intros bs; simpl.
  - split.
    + intros [= <-]. constructor.
    + intros H. inversion H. reflexivity.
  - split.
    + intros H. apply bind_Ok in H as (b & Hb & H).
      apply bind_Ok in H as (bs' & Hbs & [= <-]).
      constructor; [exact Hb | now apply IH].
    + intros H. inversion H as [|a' b l' bs' Hb Hrest]; subst.
      rewrite Hb. simpl. apply IH in Hrest. now rewrite Hrest.
Qed.

Lemma mapM_Raise {A B : Type} (f : A -> result B) (l : list A) (a : A) :
  In a l -> (exists e, f a = Raise e) -> exists e, mapM f l = Raise e.
Proof.
  intros Hin [e He]. induction l as [|a' l IH]; [contradiction|].
  simpl. destruct Hin as [->|Hin].
  - rewrite He. now exists e.
  - destruct (f a') as [b|e']; simpl; [|now exists e'].
    destruct (IH Hin) as [e'' ->]. now exists e''.
Qed.

(** *** The recursion, unfolded once *)

Lemma convert_symbol_layer_eq (layer : SymbolLayer) :
  convert_symbol_layer layer
  = Open.convert_symbol_layer
      convert_symbol_layer new_convert_symbol convert_decoration layer.
Proof. destruct layer; reflexivity. Qed.

Lemma convert_symbol_eq (symbol : SymbolOrLayer) :
  convert_symbol symbol
  = Open.convert_symbol convert_symbol_layer new_convert_symbol symbol.
Proof. destruct symbol; reflexivity. Qed.

Lemma convert_decoration_eq (decoration : Decoration) :
  convert_decoration decoration
  = Open.convert_decoration
      convert_symbol_layer new_convert_symbol convert_decoration decoration.
Proof. destruct decoration; reflexivity. Qed.

(** [convert_symbol] starts by assigning [self.out = {}]: what it does is
    the same on every instance. *)
Lemma convert_symbol_any_instance (symbol : SymbolOrLayer) (self : DictionaryConverter) :
  convert_symbol symbol self = convert_symbol symbol __init__.
Proof. rewrite convert_symbol_eq. reflexivity. Qed.

(** *** The symbol methods, run on an instance *)

Lemma for_each_cons {A : Type} (body : A -> M unit) (a : A) (l : list A)
    (self : DictionaryConverter) :
  for_each body (a :: l) self
  = match body a self with
    | (self', Ok _) => for_each body l self'
    | (self', Raise e) => (self', Raise e)
    end.
Proof. reflexivity. Qed.

Lemma convert_and_append (l : SymbolLayer) (self : DictionaryConverter)
    (acc : list value) :
  Dict.get "levels" (out self) = Some (VList acc) ->
  (x <- lift (convert_symbol_layer l) ;; levels_append (VDict x))%M self
  = match convert_symbol_layer l with
    | Ok x =>
        ({| out := Dict.set "levels" (VList (acc ++ [VDict x])) (out self) |}, Ok tt)
    | Raise e => (self, Raise e)
    end.
Proof.
  intros Hacc. unfold bind_M, lift, levels_append.
  destruct (convert_symbol_layer l); [rewrite Hacc|]; reflexivity.
Qed.

Lemma append_levels_run (symbol : SymbolOrLayer) (self : DictionaryConverter)
    (acc : list value) :
  Dict.get "levels" (out self) = Some (VList acc) ->
  match mapM convert_symbol_layer (symbol_levels symbol) with
  | Ok vs =>
      Open.append_levels convert_symbol_layer symbol self
      = ({| out := Dict.set "levels" (VList (acc ++ map VDict vs)) (out self) |}, Ok tt)
  | Raise e =>
      exists self', Open.append_levels convert_symbol_layer symbol self = (self', Raise e)
  end.
Proof.
  assert (loop : forall levels self acc,
    Dict.get "levels" (out self) = Some (VList acc) ->
    match mapM convert_symbol_layer levels with
    | Ok vs =>
        for_each (fun l => (x <- lift (convert_symbol_layer l) ;;
                            levels_append (VDict x))%M) levels self
        = ({| out := Dict.set "levels" (VList (acc ++ map VDict vs)) (out self) |}, Ok tt)
    | Raise e =>
        exists self',
          for_each (fun l => (x <- lift (convert_symbol_layer l) ;;
                              levels_append (VDict x))%M) levels self
          = (self', Raise e)
    end).
  { clear. intros levels. induction levels as [|l ls IH]; intros self acc Hacc.
    - simpl. unfold ret_M. rewrite app_nil_r, (set_get_same _ _ _ Hacc).
      now destruct self.
    - rewrite for_each_cons. cbv beta. rewrite (convert_and_append _ _ _ Hacc).
      cbn [mapM].
      destruct (convert_symbol_layer l) as [x|e]; cbn [bind].
      + specialize (IH {| out := Dict.set "levels" (VList (acc ++ [VDict x])) (out self) |}
                       (acc ++ [VDict x])%list).
        cbn [out] in IH. specialize (IH (get_set_same _ _ _)).
        destruct (mapM convert_symbol_layer ls) as [vs|e]; cbn [bind].
        * rewrite IH, set_set_same, <- app_assoc. reflexivity.
        * exact IH.
      + now exists self. }
  intros Hacc. destruct symbol as [layer|levels|levels|levels halo halo_size halo_symbol];
    simpl; try (now apply loop).
  rewrite (convert_and_append _ _ _ Hacc).
  destruct (convert_symbol_layer layer) as [x|e]; cbn [bind].
  - reflexivity.
  - now exists self.
Qed.

Lemma convert_fill_symbol_run (symbol : SymbolOrLayer) (self : DictionaryConverter) :
  match mapM convert_symbol_layer (symbol_levels symbol) with
  | Ok vs =>
      convert_fill_symbol symbol self
      = ({| out := [("type", VStr "FillSymbol"); ("levels", VList (map VDict vs))] |}, Ok tt)
  | Raise e => exists self', convert_fill_symbol symbol self = (self', Raise e)
  end.
Proof.
  unfold convert_fill_symbol, Open.convert_fill_symbol, bind_M, set_out.
  pose proof (append_levels_run symbol
    {| out := [("type", VStr "FillSymbol"); ("levels", VList [])] |} []
    eq_refl) as H.
  destruct (mapM convert_symbol_layer (symbol_levels symbol)) as [vs|e].
  - rewrite H. reflexivity.
  - destruct H as [self' ->]. now exists self'.
Qed.

Lemma convert_line_symbol_run (symbol : SymbolOrLayer) (self : DictionaryConverter) :
  match mapM convert_symbol_layer (symbol_levels symbol) with
  | Ok vs =>
      convert_line_symbol symbol self
      = ({| out := [("type", VStr "LineSymbol"); ("levels", VList (map VDict vs))] |}, Ok tt)
  | Raise e => exists self', convert_line_symbol symbol self = (self', Raise e)
  end.
Proof.
  unfold convert_line_symbol, Open.convert_line_symbol, bind_M, set_out.
  pose proof (append_levels_run symbol
    {| out := [("type", VStr "LineSymbol"); ("levels", VList [])] |} []
    eq_refl) as H.
  destruct (mapM convert_symbol_layer (symbol_levels symbol)) as [vs|e].
  - rewrite H. reflexivity.
  - destruct H as [self' ->]. now exists self'.
Qed.

Lemma convert_marker_symbol_run (levels : list SymbolLayer) (halo : bool)
    (halo_size : value) (halo_symbol : option SymbolOrLayer)
    (self : DictionaryConverter) :
  match halo_entry halo_symbol with
  | Ok entry =>
      match mapM convert_symbol_layer levels with
      | Ok vs =>
          convert_marker_symbol (MarkerSymbol levels halo halo_size halo_symbol) self
          = ({| out := ([("type", VStr "MarkerSymbol");
                        ("levels", VList (map VDict vs));
                        ("halo", VBool halo);
                        ("halo_size", halo_size);
                        ("halo_symbol_type", VStr (class_name halo_symbol))]
                         ++ entry)%list |}, Ok tt)
      | Raise e =>
          exists self',
            convert_marker_symbol (MarkerSymbol levels halo halo_size halo_symbol) self
            = (self', Raise e)
      end
  | Raise e =>
      exists self',
        convert_marker_symbol (MarkerSymbol levels halo halo_size halo_symbol) self
        = (self', Raise e)
  end.
Proof.
  unfold convert_marker_symbol, Open.convert_marker_symbol, halo_entry.
  set (start := [("type", VStr "MarkerSymbol"); ("levels", VList []);
                 ("halo", VBool halo); ("halo_size", halo_size);
                 ("halo_symbol_type", VStr (class_name halo_symbol))]).
  assert (tail : forall entry,
    match mapM convert_symbol_layer levels with
    | Ok vs =>
        Open.append_levels convert_symbol_layer
          (MarkerSymbol levels halo halo_size halo_symbol) {| out := (start ++ entry)%list |}
        = ({| out := ([("type", VStr "MarkerSymbol");
                      ("levels", VList (map VDict vs));
                      ("halo", VBool halo);
                      ("halo_size", halo_size);
                      ("halo_symbol_type", VStr (class_name halo_symbol))]
                       ++ entry)%list |}, Ok tt)
    | Raise e =>
        exists self',
          Open.append_levels convert_symbol_layer
            (MarkerSymbol levels halo halo_size halo_symbol) {| out := (start ++ entry)%list |}
          = (self', Raise e)
    end).
  { intros entry.
    pose proof (append_levels_run (MarkerSymbol levels halo halo_size halo_symbol)
                  {| out := (start ++ entry)%list |} [] eq_refl) as H.
    simpl in H. exact H. }
  destruct halo_symbol as [[l|hl|hl|hl hh hs hsym]|];
    try (specialize (tail []); unfold bind_M, set_out, ret_M;
         destruct (mapM convert_symbol_layer levels); exact tail).
  unfold bind_M at 1. unfold set_out at 1. unfold bind_M at 1. unfold bind_M at 1.
  unfold lift, out_set. simpl out.
  destruct (new_convert_symbol (FillSymbol hl)) as [x|e]; simpl bind.
  - specialize (tail [("halo_symbol", VDict x)]).
    destruct (mapM convert_symbol_layer levels); exact tail.
  - now eexists.
Qed.

(** *** What a new instance returns *)

Lemma new_convert_symbol_unfold (symbol : SymbolOrLayer) :
  new_convert_symbol symbol
  = match Converter_convert_symbol symbol {| out := [] |} with
    | (self', Ok _) => Ok (out self')
    | (_, Raise e) => Raise e
    end.
Proof.
  unfold new_convert_symbol. rewrite convert_symbol_eq.
  unfold Open.convert_symbol, bind_M, set_out, get_out, Converter_convert_symbol.
  now destruct (Open.Converter_convert_symbol _ _ _ _) as [self' [u|e]].
Qed.

Lemma convert_symbol_result (symbol : SymbolOrLayer) (self : DictionaryConverter) :
  snd (convert_symbol symbol self) = new_convert_symbol symbol.
Proof. now rewrite convert_symbol_any_instance. Qed.

Lemma new_convert_symbol_FillSymbol (levels : list SymbolLayer) :
  new_convert_symbol (FillSymbol levels)
  = (vs <- mapM convert_symbol_layer levels ;;
     Ok [("type", VStr "FillSymbol"); ("levels", VList (map VDict vs))]).
Proof.
  rewrite new_convert_symbol_unfold.
  change (Converter_convert_symbol (FillSymbol levels))
    with (convert_fill_symbol (FillSymbol levels)).
  pose proof (convert_fill_symbol_run (FillSymbol levels) {| out := [] |}) as H.
  cbn [symbol_levels] in H.
  destruct (mapM convert_symbol_layer levels) as [vs|e].
  - now rewrite H.
  - destruct H as [self' ->]. reflexivity.
Qed.

Lemma new_convert_symbol_LineSymbol (levels : list SymbolLayer) :
  new_convert_symbol (LineSymbol levels)
  = (vs <- mapM convert_symbol_layer levels ;;
     Ok [("type", VStr "LineSymbol"); ("levels", VList (map VDict vs))]).
Proof.
  rewrite new_convert_symbol_unfold.
  change (Converter_convert_symbol (LineSymbol levels))
    with (convert_line_symbol (LineSymbol levels)).
  pose proof (convert_line_symbol_run (LineSymbol levels) {| out := [] |}) as H.
  cbn [symbol_levels] in H.
  destruct (mapM convert_symbol_layer levels) as [vs|e].
  - now rewrite H.
  - destruct H as [self' ->]. reflexivity.
Qed.

Lemma new_convert_symbol_MarkerSymbol (levels : list SymbolLayer) (halo : bool)
    (halo_size : value) (halo_symbol : option SymbolOrLayer) :
  new_convert_symbol (MarkerSymbol levels halo halo_size halo_symbol)
  = (entry <- halo_entry halo_symbol ;;
     vs <- mapM convert_symbol_layer levels ;;
     Ok ([("type", VStr "MarkerSymbol");
          ("levels", VList (map VDict vs));
          ("halo", VBool halo);
          ("halo_size", halo_size);
          ("halo_symbol_type", VStr (class_name halo_symbol))] ++ entry)%list).
Proof.
  rewrite new_convert_symbol_unfold.
  change (Converter_convert_symbol (MarkerSymbol levels halo halo_size halo_symbol))
    with (convert_marker_symbol (MarkerSymbol levels halo halo_size halo_symbol)).
  pose proof (convert_marker_symbol_run levels halo halo_size halo_symbol
                {| out := [] |}) as H.
  destruct (halo_entry halo_symbol) as [entry|e]; cbn [bind].
  - destruct (mapM convert_symbol_layer levels) as [vs|e]; cbn [bind].
    + now rewrite H.
    + destruct H as [self' ->]. reflexivity.
  - destruct H as [self' ->]. reflexivity.
Qed.

(** A bare layer of the fill or of the line family is converted as the
    one-layer symbol of its family; a bare layer of the marker family makes
    [convert_marker_symbol] raise. *)
Lemma new_convert_symbol_BareLayer (layer : SymbolLayer) :
  new_convert_symbol (BareLayer layer)
  = if is_FillSymbolLayer layer then new_convert_symbol (FillSymbol [layer])
    else if is_LineSymbolLayer layer then new_convert_symbol (LineSymbol [layer])
    else if is_MarkerSymbolLayer layer then
      Raise (AttributeError
               ("'" ++ layer_class_name layer ++ "' object has no attribute 'halo'"))
    else Raise (NotImplementedException
                  (repr_class (layer_class_name layer) ++ " not implemented yet")).
Proof.
  rewrite new_convert_symbol_FillSymbol, new_convert_symbol_LineSymbol.
  rewrite new_convert_symbol_unfold.
  unfold Converter_convert_symbol, Open.Converter_convert_symbol.
  destruct (is_FillSymbolLayer layer).
  - pose proof (convert_fill_symbol_run (BareLayer layer) {| out := [] |}) as H.
    cbn [symbol_levels] in H. unfold convert_fill_symbol in H.
    destruct (mapM convert_symbol_layer [layer]) as [vs|e].
    + now rewrite H.
    + destruct H as [self' ->]. reflexivity.
  - destruct (is_LineSymbolLayer layer).
    + pose proof (convert_line_symbol_run (BareLayer layer) {| out := [] |}) as H.
      cbn [symbol_levels] in H. unfold convert_line_symbol in H.
      destruct (mapM convert_symbol_layer [layer]) as [vs|e].
      * now rewrite H.
      * destruct H as [self' ->]. reflexivity.
    + destruct (is_MarkerSymbolLayer layer); reflexivity.
Qed.

Lemma Forall2_nth_error_l {A B : Type} (R : A -> B -> Prop) (l : list A)
    (l' : list B) (i : nat) (a : A) :
  Forall2 R l l' -> nth_error l i = Some a ->
  exists b, nth_error l' i = Some b /\ R a b.
Proof.
  intros H. revert i. induction H as [|x y l l' Hxy _ IH]; intros i Hi.
  - destruct i; discriminate.
  - destruct i as [|i]; simpl in *.
    + injection Hi as <-. now exists y.
    + now apply IH.
Qed.

(** *** Keys that a block leaves alone *)

Lemma set_outline_other (outline_layer : option SymbolLayer)
    (outline_symbol : option SymbolOrLayer) (d d' : dict) (k : string) :
  Open.set_outline convert_symbol_layer new_convert_symbol
    outline_layer outline_symbol d = Ok d' ->
  k <> "outline_layer" -> k <> "outline_symbol" ->
  Dict.get k d' = Dict.get k d.
Proof.
  unfold Open.set_outline. intros H Hl Hs.
  apply bind_Ok in H as (d1 & H1 & H2).
  assert (Dict.get k d1 = Dict.get k d) as <-.
  { destruct outline_layer as [l|].
    - apply bind_Ok in H1 as (x & _ & [= <-]). now apply get_set_other.
    - now injection H1 as <-. }
  destruct outline_symbol as [sy|].
  - apply bind_Ok in H2 as (x & _ & [= <-]). now apply get_set_other.
  - now injection H2 as <-.
Qed.

Lemma set_template_other (template : option LineTemplate) (d : dict) (k : string) :
  k <> "template" -> Dict.get k (Open.set_template template d) = Dict.get k d.
Proof.
  intros Hk. destruct template; simpl; [now apply get_set_other | reflexivity].
Qed.

Lemma set_payload_other (key : string) (payload : option SymbolOrLayer)
    (d d' : dict) (k : string) :
  Open.set_payload convert_symbol_layer new_convert_symbol key payload d = Ok d' ->
  k <> key -> Dict.get k d' = Dict.get k d.
Proof.
  unfold Open.set_payload. intros H Hk.
  destruct payload as [[l|ls|ls|ls h hs hsym]|];
    try (apply bind_Ok in H as (x & _ & [= <-]); now apply get_set_other).
  now injection H as <-.
Qed.

Lemma set_decoration_other (decoration : option Decoration) (d d' : dict)
    (k : string) :
  Open.set_decoration convert_symbol_layer new_convert_symbol convert_decoration
    decoration d = Ok d' ->
  k <> "decoration" -> Dict.get k d' = Dict.get k d.
Proof.
  unfold Open.set_decoration. intros H Hk.
  destruct decoration as [[ds|fa ff fl m ps]|];
    try (apply bind_Ok in H as (x & _ & [= <-]); now apply get_set_other).
  now injection H as <-.
Qed.

Lemma set_tags_other (tags : option (list string)) (d : dict) (k : string) :
  k <> "tags" -> Dict.get k (Open.set_tags tags d) = Dict.get k d.
Proof.
  intros Hk. destruct tags as [[|t ts]|]; simpl; try reflexivity.
  now apply get_set_other.
Qed.

(** Rewrites a lookup through the assignments and blocks that set other
    keys. *)
Ltac skip_keys :=
  repeat match goal with
  | |- context [Dict.get _ (Dict.set _ _ _)] =>
      rewrite get_set_other by discriminate
  | |- context [Dict.get _ (Open.set_template _ _)] =>
      rewrite set_template_other by discriminate
  | |- context [Dict.get _ (Open.set_tags _ _)] =>
      rewrite set_tags_other by discriminate
  | H : Open.set_outline _ _ _ _ _ = Ok ?d |- context [Dict.get ?k ?d] =>
      rewrite (set_outline_other _ _ _ _ k H) by discriminate
  | H : Open.set_payload _ _ _ _ _ = Ok ?d |- context [Dict.get ?k ?d] =>
      rewrite (set_payload_other _ _ _ _ k H) by discriminate
  | H : Open.set_decoration _ _ _ _ _ = Ok ?d |- context [Dict.get ?k ?d] =>
      rewrite (set_decoration_other _ _ _ k H) by discriminate
  end.

(** Splits a successful sequence of steps into its steps. *)
Ltac split_Ok H :=
  repeat match type of H with
  | bind _ _ = Ok _ =>
      let x := fresh "x" in
      let Hx := fresh "Hx" in
      apply bind_Ok in H as (x & Hx & H); cbv zeta in H
  end.

(** No family converter emits the key [tags]. *)
Lemma family_base_no_tags (layer : SymbolLayer) (base : dict) :
  family_base layer base -> Dict.get "tags" base = None.
Proof.
  intros [[Hf H]|[[Hf H]|[Hf H]]]; destruct layer; try discriminate Hf;
    try discriminate H;
    unfold convert_fill_symbol_layer, convert_line_symbol_layer,
      convert_marker_symbol_layer in H;
    cbn [Open.convert_fill_symbol_layer Open.convert_line_symbol_layer
         Open.convert_marker_symbol_layer] in H.
  - unfold Open.convert_simple_fill_symbol_layer in H. split_Ok H.
    now skip_keys.
  - unfold convert_color_symbol in H. split_Ok H. now injection H as <-.
  - unfold Open.convert_gradient_fill_symbol_layer in H. split_Ok H.
    injection H as <-. now skip_keys.
  - unfold Open.convert_line_fill_symbol_layer in H. split_Ok H.
    injection H as <-. now skip_keys.
  - unfold Open.convert_marker_fill_symbol_layer in H. split_Ok H.
    injection H as <-. now skip_keys.
  - unfold Open.convert_picture_fill_symbol_layer in H. split_Ok H.
    injection H as <-. now skip_keys.
  - unfold convert_simple_line_symbol_layer in H. split_Ok H. now injection H as <-.
  - unfold Open.convert_cartographic_line_symbol_layer in H. split_Ok H.
    now skip_keys.
  - unfold Open.convert_marker_line_symbol_layer in H. cbv zeta in H. split_Ok H.
    now skip_keys.
  - unfold Open.convert_hash_line_symbol_layer in H. split_Ok H.
    now skip_keys.
  - unfold convert_simple_marker_symbol_layer in H. split_Ok H. now injection H as <-.
  - unfold convert_character_marker_symbol_layer in H. split_Ok H.
    destruct (CharacterMarker.std_font a); injection H as <-; now skip_keys.
  - unfold convert_arrow_marker_symbol_layer in H. split_Ok H. now injection H as <-.
  - unfold convert_picture_marker_symbol_layer in H. split_Ok H. now injection H as <-.
Qed.

(** *** The layer router *)

Lemma convert_symbol_layer_family (layer : SymbolLayer) (base : dict) :
  family_base layer base ->
  convert_symbol_layer layer
  = Ok (Open.set_tags (tags (layer_attrs layer))
          (Dict.set "locked" (VBool (locked (layer_attrs layer)))
             (Dict.set "enabled" (VBool (enabled (layer_attrs layer)))
                (Dict.set "type" (VStr (layer_class_name layer)) base)))).
Proof.
  intros H. rewrite convert_symbol_layer_eq. unfold Open.convert_symbol_layer.
  destruct H as [[Hf H]|[[Hf H]|[Hf H]]].
  - rewrite Hf. unfold convert_fill_symbol_layer in H. now rewrite H.
  - destruct layer; try discriminate Hf; cbn [is_FillSymbolLayer is_LineSymbolLayer];
      unfold convert_line_symbol_layer in H; now rewrite H.
  - destruct layer; try discriminate Hf;
      cbn [is_FillSymbolLayer is_LineSymbolLayer is_MarkerSymbolLayer];
      unfold convert_marker_symbol_layer in H; now rewrite H.
Qed.

(** C1: a layer whose family converter returns a base map converts to that
    map overlaid with [type] (the class name of the layer), [enabled] and
    [locked]; every other key of the base map is kept; the key [tags] is
    present exactly when the layer's tags are a non-empty list, and then
    holds them.  In particular a [SimpleFillSymbolLayer] with a color, no
    outline layer, no outline symbol, [enabled = true], [locked = false] and
    empty tags converts to a map whose keys are [color], [color_model],
    [type], [enabled], [locked] and no other. *)
Theorem layer_universal_fields :
  (forall (layer : SymbolLayer) (base : dict),
      family_base layer base ->
      exists result : dict,
        convert_symbol_layer layer = Ok result
        /\ Dict.get "type" result = Some (VStr (layer_class_name layer))
        /\ Dict.get "enabled" result = Some (VBool (enabled (layer_attrs layer)))
        /\ Dict.get "locked" result = Some (VBool (locked (layer_attrs layer)))
        /\ (forall k : string,
               k <> "type" -> k <> "enabled" -> k <> "locked" -> k <> "tags" ->
               Dict.get k result = Dict.get k base)
        /\ (Dict.mem "tags" result = true
             <-> exists t ts, tags (layer_attrs layer) = Some (t :: ts))
        /\ (forall t ts,
               tags (layer_attrs layer) = Some (t :: ts) ->
               Dict.get "tags" result = Some (VList (map VStr (t :: ts)))))
  /\ (forall (c : Color) (no_tags : option (list string)),
        no_tags = Some [] \/ no_tags = None ->
        exists result : dict,
          convert_symbol_layer
            (SimpleFillSymbolLayer
               {| enabled := true; locked := false; tags := no_tags |}
               (Some c) None None) = Ok result
          /\ result = [("color", VDict (to_dict c));
                       ("color_model", VStr (model c));
                       ("type", VStr "SimpleFillSymbolLayer");
                       ("enabled", VBool true);
                       ("locked", VBool false)]
          /\ Dict.keys result
             = ["color"; "color_model"; "type"; "enabled"; "locked"]
          /\ Dict.mem "tags" result = false
          /\ Dict.mem "outline_layer" result = false
          /\ Dict.mem "outline_symbol" result = false).
Proof.
  split.
  - intros layer base Hbase.
    pose proof (family_base_no_tags layer base Hbase) as Hno.
    eexists. split; [apply (convert_symbol_layer_family _ _ Hbase)|].
    assert (Hbelow : Dict.get "tags"
              (Dict.set "locked" (VBool (locked (layer_attrs layer)))
                 (Dict.set "enabled" (VBool (enabled (layer_attrs layer)))
                    (Dict.set "type" (VStr (layer_class_name layer)) base)))
            = None).
    { skip_keys. exact Hno. }
    repeat split.
    + skip_keys. apply get_set_same.
    + skip_keys. apply get_set_same.
    + rewrite set_tags_other by discriminate. apply get_set_same.
    + intros k H1 H2 H3 H4. rewrite set_tags_other by assumption.
      now rewrite !get_set_other by assumption.
    + intros Hmem. apply mem_true_iff in Hmem as [v Hv].
      destruct (tags (layer_attrs layer)) as [[|t ts]|]; simpl in Hv.
      * rewrite Hbelow in Hv. discriminate.
      * now exists t, ts.
      * rewrite Hbelow in Hv. discriminate.
    + intros (t & ts & ->). apply mem_true_iff. simpl. eexists.
      apply get_set_same.
    + intros t ts ->. simpl. apply get_set_same.
  - intros c no_tags [-> | ->]; eexists; repeat split.
Qed.

(** *** Exceptions are never caught *)

Lemma raises_bind {A B : Type} (m : result A) (k : A -> result B) :
  (exists e, m = Raise e) -> exists e, bind m k = Raise e.
Proof. intros [e ->]. now exists e. Qed.

Lemma raises_bind_k {A B : Type} (m : result A) (k : A -> result B) :
  (forall a, exists e, k a = Raise e) -> exists e, bind m k = Raise e.
Proof.
  intros H. destruct m as [a|e]; simpl; [apply H | now exists e].
Qed.

Lemma set_outline_raises_layer (l : SymbolLayer)
    (outline_symbol : option SymbolOrLayer) (d : dict) :
  (exists e, convert_symbol_layer l = Raise e) ->
  exists e, Open.set_outline convert_symbol_layer new_convert_symbol
              (Some l) outline_symbol d = Raise e.
Proof.
  intros H. unfold Open.set_outline. apply raises_bind. now apply raises_bind.
Qed.

Lemma set_outline_raises_symbol (outline_layer : option SymbolLayer)
    (sy : SymbolOrLayer) (d : dict) :
  (exists e, new_convert_symbol sy = Raise e) ->
  exists e, Open.set_outline convert_symbol_layer new_convert_symbol
              outline_layer (Some sy) d = Raise e.
Proof.
  intros H. unfold Open.set_outline. apply raises_bind_k. intros d'.
  now apply raises_bind.
Qed.

Lemma payload_raises (payload : SymbolOrLayer) :
  raises (payload_node payload) ->
  exists e,
    match payload with
    | BareLayer l => convert_symbol_layer l
    | FillSymbol _ | LineSymbol _ | MarkerSymbol _ _ _ _ => new_convert_symbol payload
    end = Raise e.
Proof. now destruct payload. Qed.

Lemma set_payload_raises (key : string) (payload : SymbolOrLayer) (d : dict) :
  raises (payload_node payload) ->
  exists e, Open.set_payload convert_symbol_layer new_convert_symbol
              key (Some payload) d = Raise e.
Proof.
  intros H. unfold Open.set_payload.
  destruct payload; apply raises_bind; exact H.
Qed.

Lemma set_decoration_raises (decoration : Decoration) (d : dict) :
  raises (NDecoration decoration) ->
  exists e, Open.set_decoration convert_symbol_layer new_convert_symbol
              convert_decoration (Some decoration) d = Raise e.
Proof.
  intros H. unfold Open.set_decoration.
  destruct decoration; apply raises_bind; exact H.
Qed.

(** Looks for the step of a sequence that raises. *)
Ltac find_raise :=
  solve
    [ eassumption
    | apply set_outline_raises_layer; eassumption
    | apply set_outline_raises_symbol; eassumption
    | apply set_payload_raises; eassumption
    | apply set_decoration_raises; eassumption
    | apply payload_raises; eassumption
    | apply raises_bind; find_raise
    | apply raises_bind_k; intro; cbv zeta; find_raise ].

(** An exception raised while a part is converted is raised by the
    conversion of the whole. *)
Lemma child_raises (c p : node) : child c p -> raises c -> raises p.
Proof.
  intros Hchild Hc.
  destruct Hchild; unfold raises in *; cbn [convert_node] in *;
    try (rewrite convert_symbol_layer_eq; unfold Open.convert_symbol_layer;
         cbn [is_FillSymbolLayer is_LineSymbolLayer is_MarkerSymbolLayer];
         apply raises_bind;
         cbn [Open.convert_fill_symbol_layer Open.convert_line_symbol_layer];
         unfold Open.convert_simple_fill_symbol_layer,
           Open.convert_gradient_fill_symbol_layer,
           Open.convert_line_fill_symbol_layer,
           Open.convert_marker_fill_symbol_layer,
           Open.convert_picture_fill_symbol_layer,
           Open.convert_cartographic_line_symbol_layer,
           Open.convert_marker_line_symbol_layer,
           Open.convert_hash_line_symbol_layer;
         cbv zeta; find_raise).
  - rewrite new_convert_symbol_BareLayer.
    rewrite new_convert_symbol_FillSymbol, new_convert_symbol_LineSymbol.
    destruct Hc as [e He]. cbn [mapM]. rewrite He. cbn [bind].
    destruct (is_FillSymbolLayer l); [now eexists|].
    destruct (is_LineSymbolLayer l); [now eexists|].
    destruct (is_MarkerSymbolLayer l); now eexists.
  - rewrite new_convert_symbol_FillSymbol. apply raises_bind.
    now apply (mapM_Raise _ _ l).
  - rewrite new_convert_symbol_LineSymbol. apply raises_bind.
    now apply (mapM_Raise _ _ l).
  - rewrite new_convert_symbol_MarkerSymbol. apply raises_bind_k. intros entry.
    apply raises_bind. now apply (mapM_Raise _ _ l).
  - rewrite new_convert_symbol_MarkerSymbol. apply raises_bind.
    unfold halo_entry. now apply raises_bind.
  - rewrite convert_decoration_eq. unfold Open.convert_decoration.
    apply raises_bind. apply (mapM_Raise _ _ d); [assumption|].
    now destruct d.
  - unfold convert_simple_line_decoration, Open.convert_simple_line_decoration.
    cbv zeta. destruct p; apply raises_bind; exact Hc.
Qed.

Lemma part_raises (c p : node) : part_of c p -> raises c -> raises p.
Proof.
  intros H. induction H as [n|c m p Hstep _ IH]; [trivial|].
  intros Hc. apply IH. now apply (child_raises c m).
Qed.

(** *** Gradient types *)







(** *** Bare layers *)

(** C3: a bare layer of the fill family converts to the map of the
    [FillSymbol] whose only layer it is, and a bare layer of the line family
    to the map of that [LineSymbol]: the [levels] are the same.  A bare
    layer of the marker family does not: [convert_marker_symbol] reads
    [symbol.halo] before anything else and raises [AttributeError], while
    the [MarkerSymbol] whose only layer it is converts, with the one
    converted layer as its [levels]. *)
Theorem bare_layer_levels :
  (forall layer self,
      is_FillSymbolLayer layer = true ->
      snd (convert_symbol (BareLayer layer) self)
      = snd (convert_symbol (FillSymbol [layer]) self))
  /\ (forall layer self,
        is_LineSymbolLayer layer = true ->
        snd (convert_symbol (BareLayer layer) self)
        = snd (convert_symbol (LineSymbol [layer]) self))
  /\ (forall layer self,
        convert_marker_symbol (BareLayer layer) self
        = (self,
           Raise (AttributeError
                    ("'" ++ layer_class_name layer
                         ++ "' object has no attribute 'halo'"))))
  /\ (forall layer d halo halo_size self,
        is_MarkerSymbolLayer layer = true ->
        convert_symbol_layer layer = Ok d ->
        snd (convert_symbol (BareLayer layer) self)
        = Raise (AttributeError
                   ("'" ++ layer_class_name layer
                        ++ "' object has no attribute 'halo'"))
        /\ exists result,
            snd (convert_symbol (MarkerSymbol [layer] halo halo_size None) self)
            = Ok result
            /\ Dict.get "levels" result = Some (VList [VDict d])).
Proof.
  split; [|split; [|split]].
  - intros layer self Hf. rewrite !convert_symbol_result.
    rewrite new_convert_symbol_BareLayer. now rewrite Hf.
  - intros layer self Hl. rewrite !convert_symbol_result.
    rewrite new_convert_symbol_BareLayer. rewrite Hl.
    now destruct layer.
  - reflexivity.
  - intros layer d halo halo_size self Hm Hd. split.
    + rewrite convert_symbol_result.
      rewrite new_convert_symbol_BareLayer. rewrite Hm.
      now destruct layer.
    + rewrite convert_symbol_result, new_convert_symbol_MarkerSymbol.
      cbn [halo_entry mapM bind]. rewrite Hd. cbn [bind map app].
      eexists. split; reflexivity.
Qed.

(** *** Multi-layer symbols *)

Lemma levels_in_order_intro (symbol : SymbolOrLayer) (result : dict)
    (converted : list dict) :
  mapM convert_symbol_layer (symbol_levels symbol) = Ok converted ->
  Dict.get "levels" result = Some (VList (map VDict converted)) ->
  levels_in_order symbol result.
Proof.
  intros Hmap Hget. exists converted. split; [exact Hget|].
  apply mapM_Forall2 in Hmap.
  split; [symmetry; exact (Forall2_length Hmap)|].
  intros i layer Hi. exact (Forall2_nth_error_l _ _ _ _ _ Hmap Hi).
Qed.

(** C4: the map a symbol converts to has, under [levels], one entry per
    layer of the symbol, in the order of the layers: the i-th entry is the
    conversion of the i-th layer.  This holds of the map [convert_symbol]
    returns and of [self.out] after [convert_fill_symbol],
    [convert_line_symbol] or [convert_marker_symbol] has returned. *)
Theorem levels_follow_layers :
  (forall symbol self self' result,
      convert_symbol symbol self = (self', Ok result) ->
      levels_in_order symbol result)
  /\ (forall symbol self self' u,
        convert_fill_symbol symbol self = (self', Ok u) ->
        levels_in_order symbol (out self'))
  /\ (forall symbol self self' u,
        convert_line_symbol symbol self = (self', Ok u) ->
        levels_in_order symbol (out self'))
  /\ (forall symbol self self' u,
        convert_marker_symbol symbol self = (self', Ok u) ->
        levels_in_order symbol (out self')).
Proof.
  split; [|split; [|split]].
  - intros symbol self self' result Hrun.
    assert (H : new_convert_symbol symbol = Ok result).
    { rewrite <- (convert_symbol_result symbol self). now rewrite Hrun. }
    clear Hrun.
    destruct symbol as [layer|levels|levels|levels halo halo_size halo_symbol].
    + rewrite new_convert_symbol_BareLayer in H.
      rewrite new_convert_symbol_FillSymbol, new_convert_symbol_LineSymbol in H.
      destruct (is_FillSymbolLayer layer);
        [|destruct (is_LineSymbolLayer layer);
          [|destruct (is_MarkerSymbolLayer layer); discriminate H]];
        apply bind_Ok in H as (vs & Hvs & [= <-]);
        now apply (levels_in_order_intro _ _ vs).
    + rewrite new_convert_symbol_FillSymbol in H.
      apply bind_Ok in H as (vs & Hvs & [= <-]).
      now apply (levels_in_order_intro _ _ vs).
    + rewrite new_convert_symbol_LineSymbol in H.
      apply bind_Ok in H as (vs & Hvs & [= <-]).
      now apply (levels_in_order_intro _ _ vs).
    + rewrite new_convert_symbol_MarkerSymbol in H.
      apply bind_Ok in H as (entry & _ & H).
      apply bind_Ok in H as (vs & Hvs & [= <-]).
      now apply (levels_in_order_intro _ _ vs).
  - intros symbol self self' u Hrun.
    pose proof (convert_fill_symbol_run symbol self) as H.
    destruct (mapM convert_symbol_layer (symbol_levels symbol)) as [vs|e] eqn:Hvs.
    + rewrite H in Hrun. injection Hrun as <- _.
      now apply (levels_in_order_intro _ _ vs).
    + destruct H as [s' H]. rewrite H in Hrun. discriminate.
  - intros symbol self self' u Hrun.
    pose proof (convert_line_symbol_run symbol self) as H.
    destruct (mapM convert_symbol_layer (symbol_levels symbol)) as [vs|e] eqn:Hvs.
    + rewrite H in Hrun. injection Hrun as <- _.
      now apply (levels_in_order_intro _ _ vs).
    + destruct H as [s' H]. rewrite H in Hrun. discriminate.
  - intros symbol self self' u Hrun.
    destruct symbol as [layer|levels|levels|levels halo halo_size halo_symbol];
      try discriminate Hrun.
    pose proof (convert_marker_symbol_run levels halo halo_size halo_symbol self) as H.
    destruct (halo_entry halo_symbol) as [entry|e].
    + cbn [symbol_levels].
      destruct (mapM convert_symbol_layer levels) as [vs|e] eqn:Hvs.
      * rewrite H in Hrun. injection Hrun as <- _.
        now apply (levels_in_order_intro _ _ vs).
      * destruct H as [s' H]. rewrite H in Hrun. discriminate.
    + destruct H as [s' H]. rewrite H in Hrun. discriminate.
Qed.

(** *** Line layers *)

Lemma convert_symbol_layer_inv (layer : SymbolLayer) (result : dict) :
  convert_symbol_layer layer = Ok result ->
  exists base,
    family_base layer base
    /\ (forall k : string,
           k <> "type" -> k <> "enabled" -> k <> "locked" -> k <> "tags" ->
           Dict.get k result = Dict.get k base).
Proof.
  rewrite convert_symbol_layer_eq. unfold Open.convert_symbol_layer. intros H.
  apply bind_Ok in H as (base & Hbase & [= <-]). exists base. split.
  - unfold family_base, convert_fill_symbol_layer, convert_line_symbol_layer,
      convert_marker_symbol_layer.
    destruct (is_FillSymbolLayer layer); [now left|].
    destruct (is_LineSymbolLayer layer); [right; now left|].
    destruct (is_MarkerSymbolLayer layer); [right; now right|discriminate].
  - intros k H1 H2 H3 H4. rewrite set_tags_other by assumption.
    now rewrite !get_set_other by assumption.
Qed.

(** Looks a key up in the map of a layer: first through the universal
    fields, then through the map of the family converter. *)
Ltac through_family H base Hbase Hkeys :=
  apply convert_symbol_layer_inv in H as (base & Hbase & Hkeys);
  destruct Hbase as [[Hfam Hbase]|[[Hfam Hbase]|[Hfam Hbase]]];
  try discriminate Hfam; clear Hfam;
  unfold convert_fill_symbol_layer, convert_line_symbol_layer,
    convert_marker_symbol_layer in Hbase;
  cbn [Open.convert_fill_symbol_layer Open.convert_line_symbol_layer
       Open.convert_marker_symbol_layer] in Hbase;
  rewrite ?Hkeys by discriminate.

(** C5: the map of a cartographic line layer always has the keys
    [template] and [decoration].  Without a template the value of [template]
    is [None]; with one it is the map of [pattern_interval] and
    [pattern_parts], the parts in their order.  Without a decoration the
    value of [decoration] is [None]; with one it is the conversion of the
    decoration. *)
Theorem cartographic_template_and_decoration (base : LayerAttrs)
    (a : CartographicLine.attrs) (decoration : option Decoration)
    (result : dict) :
  convert_symbol_layer (CartographicLineSymbolLayer base a decoration) = Ok result ->
  (CartographicLine.template a = None ->
   Dict.get "template" result = Some VNone)
  /\ (forall t,
        CartographicLine.template a = Some t ->
        Dict.get "template" result = Some (VDict (convert_template t))
        /\ convert_template t
           = [("pattern_interval", pattern_interval t);
              ("pattern_parts", VList (pattern_parts t))])
  /\ (decoration = None -> Dict.get "decoration" result = Some VNone)
  /\ (forall ds,
        decoration = Some (LineDecoration ds) ->
        exists d,
          convert_decoration (LineDecoration ds) = Ok d
          /\ Dict.get "decoration" result = Some (VDict d))
  /\ (forall fa ff fl m ps,
        decoration = Some (SimpleLineDecoration fa ff fl m ps) ->
        exists d,
          convert_simple_line_decoration (SimpleLineDecoration fa ff fl m ps) = Ok d
          /\ Dict.get "decoration" result = Some (VDict d)).
Proof.
  intros H. through_family H d Hd Hkeys.
  unfold Open.convert_cartographic_line_symbol_layer in Hd.
  apply bind_Ok in Hd as (color_model & _ & Hd). cbv zeta in Hd.
  split; [|split; [|split; [|split]]].
  - intros Ht. rewrite Ht in Hd. now skip_keys.
  - intros t Ht. rewrite Ht in Hd. split; [|reflexivity]. now skip_keys.
  - intros ->. now injection Hd as <-; skip_keys; destruct (CartographicLine.template a).
  - intros ds ->. cbn [Open.set_decoration] in Hd.
    apply bind_Ok in Hd as (x & Hx & [= <-]). exists x.
    split; [exact Hx | apply get_set_same].
  - intros fa ff fl m ps ->. cbn [Open.set_decoration] in Hd.
    apply bind_Ok in Hd as (x & Hx & [= <-]). exists x.
    split; [exact Hx | apply get_set_same].
Qed.

(** *** Nullable colors *)

(** C6: where the source guards the read of a color's model, an absent
    color gives [None] for the color and for its model: [color] and
    [color_model] of a marker line layer, [color_transparent] and
    [color_transparent_model] of a picture fill layer and of a picture
    marker layer. *)
Theorem nullable_colors :
  (forall base a pattern_marker decoration result,
      MarkerLine.color a = None ->
      convert_symbol_layer
        (MarkerLineSymbolLayer base a pattern_marker decoration) = Ok result ->
      Dict.get "color" result = Some VNone
      /\ Dict.get "color_model" result = Some VNone)
  /\ (forall base a outline_layer outline_symbol result,
        PictureFill.color_transparent a = None ->
        convert_symbol_layer
          (PictureFillSymbolLayer base a outline_layer outline_symbol) = Ok result ->
        Dict.get "color_transparent" result = Some VNone
        /\ Dict.get "color_transparent_model" result = Some VNone)
  /\ (forall base a result,
        PictureMarker.color_transparent a = None ->
        convert_symbol_layer (PictureMarkerSymbolLayer base a) = Ok result ->
        Dict.get "color_transparent" result = Some VNone
        /\ Dict.get "color_transparent_model" result = Some VNone).
Proof.
  split; [|split].
  - intros base a pm deco result Hnone H. through_family H d Hd Hkeys.
    unfold Open.convert_marker_line_symbol_layer in Hd. cbv zeta in Hd.
    rewrite Hnone in Hd. apply bind_Ok in Hd as (d1 & Hd1 & Hd).
    split; now skip_keys.
  - intros base a ol os result Hnone H. through_family H d Hd Hkeys.
    unfold Open.convert_picture_fill_symbol_layer in Hd.
    rewrite Hnone in Hd. split_Ok Hd. injection Hd as <-.
    split; now skip_keys.
  - intros base a result Hnone H. through_family H d Hd Hkeys.
    unfold convert_picture_marker_symbol_layer in Hd.
    rewrite Hnone in Hd. split_Ok Hd. injection Hd as <-.
    split; reflexivity.
Qed.

(** *** Optional parts of line and marker layers *)

(** C9: an absent optional part is emitted as a key whose value is [None]:
    [template], [line] and [decoration] of a hash line layer,
    [pattern_marker] (and [template], [decoration]) of a marker line layer,
    [std_font] of a character marker layer. *)
Theorem absent_parts_are_null :
  (forall base a line decoration result,
      convert_symbol_layer (HashLineSymbolLayer base a line decoration) = Ok result ->
      (HashLine.template a = None -> Dict.get "template" result = Some VNone)
      /\ (line = None -> Dict.get "line" result = Some VNone)
      /\ (decoration = None -> Dict.get "decoration" result = Some VNone))
  /\ (forall base a pattern_marker decoration result,
        convert_symbol_layer
          (MarkerLineSymbolLayer base a pattern_marker decoration) = Ok result ->
        (MarkerLine.template a = None -> Dict.get "template" result = Some VNone)
        /\ (pattern_marker = None -> Dict.get "pattern_marker" result = Some VNone)
        /\ (decoration = None -> Dict.get "decoration" result = Some VNone))
  /\ (forall base a result,
        convert_symbol_layer (CharacterMarkerSymbolLayer base a) = Ok result ->
        CharacterMarker.std_font a = None ->
        Dict.get "std_font" result = Some VNone).
Proof.
  split; [|split].
  - intros base a line deco result H. through_family H d Hd Hkeys.
    unfold Open.convert_hash_line_symbol_layer in Hd.
    apply bind_Ok in Hd as (color_model & _ & Hd). cbv zeta in Hd.
    apply bind_Ok in Hd as (d1 & Hd1 & Hd).
    split; [|split].
    + intros Ht. rewrite Ht in Hd1. now skip_keys.
    + intros ->. skip_keys. injection Hd1 as <-.
      now destruct (HashLine.template a).
    + intros ->. injection Hd as <-. skip_keys.
      now destruct (HashLine.template a).
  - intros base a pm deco result H. through_family H d Hd Hkeys.
    unfold Open.convert_marker_line_symbol_layer in Hd. cbv zeta in Hd.
    apply bind_Ok in Hd as (d1 & Hd1 & Hd).
    split; [|split].
    + intros Ht. rewrite Ht in Hd1. now skip_keys.
    + intros ->. skip_keys. injection Hd1 as <-.
      now destruct (MarkerLine.template a).
    + intros ->. injection Hd as <-. skip_keys.
      now destruct (MarkerLine.template a).
  - intros base a result H Hfont. through_family H d Hd Hkeys.
    unfold convert_character_marker_symbol_layer in Hd.
    apply bind_Ok in Hd as (color_model & _ & Hd). cbv zeta in Hd.
    rewrite Hfont in Hd. now injection Hd as <-.
Qed.

(** *** Pictures *)

(** C7: [convert_picture] returns [None] for [None].  Otherwise it unwraps
    a [StdPicture] to its payload, and returns the map of [type], the class
    name of the payload, and [content]: the base64 text of the re-encoded
    PNG for a [BmpPicture], the base64 text of the bytes for an
    [EmfPicture].  Any other payload raises [NotImplementedException]. *)
Theorem picture_conversion :
  convert_picture None = Ok VNone
  /\ (forall content,
        convert_picture (Some (BmpPicture content))
        = Ok (VDict [("type", VStr "BmpPicture");
                     ("content", VStr (to_base64_png content))])
        /\ convert_picture (Some (StdPicture (Some (BmpPicture content))))
           = convert_picture (Some (BmpPicture content)))
  /\ (forall content,
        convert_picture (Some (EmfPicture content))
        = Ok (VDict [("type", VStr "EmfPicture");
                     ("content", VStr (to_base64 content))])
        /\ convert_picture (Some (StdPicture (Some (EmfPicture content))))
           = convert_picture (Some (EmfPicture content)))
  /\ (forall cls,
        convert_picture (Some (OtherPicture cls))
        = Raise (NotImplementedException
                   (cls ++ " picture conversion not implemented"))
        /\ convert_picture (Some (StdPicture (Some (OtherPicture cls))))
           = convert_picture (Some (OtherPicture cls)))
  /\ (forall payload,
        convert_picture (Some (StdPicture (Some (StdPicture payload))))
        = Raise (NotImplementedException
                   "StdPicture picture conversion not implemented"))
  /\ convert_picture (Some (StdPicture None))
     = Raise (NotImplementedException
                "NoneType picture conversion not implemented").
Proof.
  split; [reflexivity|].
  split; [intros content; split; reflexivity|].
  split; [intros content; split; reflexivity|].
  split; [intros cls; split; reflexivity|].
  split; [intros payload; reflexivity | reflexivity].
Qed.

(** *** The halo of a marker symbol *)

Lemma halo_fields_intro (halo : bool) (halo_size : value)
    (halo_symbol : option SymbolOrLayer) (entry : dict) (levels : value) :
  halo_entry halo_symbol = Ok entry ->
  halo_fields halo halo_size halo_symbol
    ([("type", VStr "MarkerSymbol");
      ("levels", levels);
      ("halo", VBool halo);
      ("halo_size", halo_size);
      ("halo_symbol_type", VStr (class_name halo_symbol))] ++ entry)%list.
Proof.
  intros Hentry. unfold halo_fields.
  repeat (split; [reflexivity|]).
  split; [now intros ->|].
  unfold halo_entry in Hentry. fold (new_convert_symbol) in *.
  destruct halo_symbol as [[l|hl|hl|hl hh hs hsym]|];
    try (injection Hentry as <-; split;
         [split; [discriminate | intros [hl' [=]]] | intros hl' [=]]).
  apply bind_Ok in Hentry as (d & Hd & [= <-]). split.
  - split; [now exists hl | reflexivity].
  - intros hl' [= <-]. exists d. repeat split. exact Hd.
Qed.

(** C8: the map of a [MarkerSymbol] has [halo], [halo_size] and
    [halo_symbol_type], the class name of the halo symbol or ['NoneType']
    when there is none.  The key [halo_symbol] is present exactly when the
    halo symbol is a [FillSymbol], and then holds the map a new converter
    instance returns for it.  This holds of the map [convert_symbol] returns
    and of [self.out] after [convert_marker_symbol] has returned. *)
Theorem marker_symbol_halo :
  (forall levels halo halo_size halo_symbol self self' result,
      convert_symbol (MarkerSymbol levels halo halo_size halo_symbol) self
      = (self', Ok result) ->
      halo_fields halo halo_size halo_symbol result)
  /\ (forall levels halo halo_size halo_symbol self self' u,
        convert_marker_symbol (MarkerSymbol levels halo halo_size halo_symbol) self
        = (self', Ok u) ->
        halo_fields halo halo_size halo_symbol (out self')).
Proof.
  split.
  - intros levels halo halo_size halo_symbol self self' result Hrun.
    assert (H : new_convert_symbol (MarkerSymbol levels halo halo_size halo_symbol)
                = Ok result).
    { rewrite <- (convert_symbol_result _ self). now rewrite Hrun. }
    clear Hrun. rewrite new_convert_symbol_MarkerSymbol in H.
    apply bind_Ok in H as (entry & Hentry & H).
    apply bind_Ok in H as (vs & _ & [= <-]).
    now apply halo_fields_intro.
  - intros levels halo halo_size halo_symbol self self' u Hrun.
    pose proof (convert_marker_symbol_run levels halo halo_size halo_symbol self) as H.
    destruct (halo_entry halo_symbol) as [entry|e] eqn:Hentry.
    + destruct (mapM convert_symbol_layer levels) as [vs|e].
      * rewrite H in Hrun. injection Hrun as <- _.
        now apply halo_fields_intro.
      * destruct H as [s' H]. rewrite H in Hrun. discriminate.
    + destruct H as [s' H]. rewrite H in Hrun. discriminate.
Qed.

(** *** Unguarded reads of a color's model *)

Lemma bind_Raise_inv {A B : Type} (m : result A) (k : A -> result B) (e : exn) :
  bind m k = Raise e -> m = Raise e \/ exists a, m = Ok a /\ k a = Raise e.
Proof.
  destruct m as [a|e']; simpl; intros H.
  - right. now exists a.
  - left. now injection H as ->.
Qed.

Lemma set_outline_Raise_inv (outline_layer : option SymbolLayer)
    (outline_symbol : option SymbolOrLayer) (d : dict) (e : exn) :
  Open.set_outline convert_symbol_layer new_convert_symbol
    outline_layer outline_symbol d = Raise e ->
  (exists l, outline_layer = Some l /\ raises (NLayer l))
  \/ (exists sy, outline_symbol = Some sy /\ raises (NSymbol sy)).
Proof.
  unfold Open.set_outline, raises. cbn [convert_node]. intros H.
  apply bind_Raise_inv in H as [H|(d1 & _ & H)].
  - destruct outline_layer as [l|]; [|discriminate]. left. exists l.
    split; [reflexivity|].
    apply bind_Raise_inv in H as [H|(x & _ & H)]; [now exists e | discriminate].
  - destruct outline_symbol as [sy|]; [|discriminate]. right. exists sy.
    split; [reflexivity|].
    apply bind_Raise_inv in H as [H|(x & _ & H)]; [now exists e | discriminate].
Qed.

Lemma set_payload_Raise_inv (key : string) (payload : option SymbolOrLayer)
    (d : dict) (e : exn) :
  Open.set_payload convert_symbol_layer new_convert_symbol key payload d = Raise e ->
  exists p, payload = Some p /\ raises (payload_node p).
Proof.
  unfold Open.set_payload, raises. intros H.
  destruct payload as [p|]; [|discriminate]. exists p. split; [reflexivity|].
  destruct p; cbn [payload_node convert_node];
    apply bind_Raise_inv in H as [H|(x & _ & H)];
    try discriminate; now exists e.
Qed.

Lemma set_decoration_Raise_inv (decoration : option Decoration) (d : dict)
    (e : exn) :
  Open.set_decoration convert_symbol_layer new_convert_symbol convert_decoration
    decoration d = Raise e ->
  exists dd, decoration = Some dd /\ raises (NDecoration dd).
Proof.
  unfold Open.set_decoration, raises. intros H.
  destruct decoration as [dd|]; [|discriminate]. exists dd. split; [reflexivity|].
  destruct dd; cbn [convert_node];
    apply bind_Raise_inv in H as [H|(x & _ & H)];
    try discriminate; now exists e.
Qed.

(** An exception of [convert_symbol_layer] is an exception of the family
    converter: the universal fields are assigned without a read that can
    fail. *)
Lemma convert_symbol_layer_Raise_inv (layer : SymbolLayer) (e : exn) :
  convert_symbol_layer layer = Raise e ->
  (if is_FillSymbolLayer layer then convert_fill_symbol_layer layer
   else if is_LineSymbolLayer layer then convert_line_symbol_layer layer
   else if is_MarkerSymbolLayer layer then convert_marker_symbol_layer layer
   else Raise (NotImplementedException
                 (repr_class (layer_class_name layer) ++ " not implemented yet")))
  = Raise e.
Proof.
  rewrite convert_symbol_layer_eq. unfold Open.convert_symbol_layer. intros H.
  apply bind_Raise_inv in H as [H|(x & _ & H)]; [exact H | discriminate].
Qed.

(** Unfolds the conversion of a layer down to the converter of its class. *)
Ltac to_class_converter :=
  rewrite convert_symbol_layer_eq; unfold Open.convert_symbol_layer;
  cbn [is_FillSymbolLayer is_LineSymbolLayer is_MarkerSymbolLayer
       Open.convert_fill_symbol_layer Open.convert_line_symbol_layer
       Open.convert_marker_symbol_layer];
  unfold Open.convert_simple_fill_symbol_layer, convert_color_symbol,
    Open.convert_picture_fill_symbol_layer,
    convert_simple_line_symbol_layer,
    Open.convert_cartographic_line_symbol_layer,
    Open.convert_hash_line_symbol_layer,
    convert_simple_marker_symbol_layer,
    convert_character_marker_symbol_layer,
    convert_arrow_marker_symbol_layer,
    convert_picture_marker_symbol_layer.

Ltac class_converter_raises He :=
  apply convert_symbol_layer_Raise_inv in He;
  cbn [is_FillSymbolLayer is_LineSymbolLayer is_MarkerSymbolLayer] in He;
  unfold convert_fill_symbol_layer, convert_line_symbol_layer,
    convert_marker_symbol_layer in He;
  cbn [Open.convert_fill_symbol_layer Open.convert_line_symbol_layer
       Open.convert_marker_symbol_layer] in He;
  unfold Open.convert_simple_fill_symbol_layer,
    Open.convert_picture_fill_symbol_layer,
    Open.convert_cartographic_line_symbol_layer,
    Open.convert_hash_line_symbol_layer,
    convert_picture_marker_symbol_layer in He.

(** C10, amended: the conversions of [SimpleFillSymbolLayer], [ColorSymbol],
    [SimpleLineSymbolLayer], [CartographicLineSymbolLayer],
    [HashLineSymbolLayer], [SimpleMarkerSymbolLayer],
    [CharacterMarkerSymbolLayer] and [ArrowMarkerSymbolLayer] read
    [color.model] unguarded, and so do [PictureMarkerSymbolLayer] for its
    foreground and background colors and [PictureFillSymbolLayer] for its
    background color: when that color is [None] the conversion raises the
    [AttributeError] of the read.  When the color is present the read does
    not raise: a layer with no nested part converts, and a layer with nested
    parts raises only if the conversion of a part does (an outline, a
    payload, a decoration, the picture; for a simple marker, the read of
    the outline color's model).  The foreground color of a
    [PictureFillSymbolLayer] is guarded: absent, it gives [None] for
    [color_foreground] and [color_foreground_model]. *)
Theorem unguarded_color_models :
  (forall base color ol os,
      (color = None ->
       convert_symbol_layer (SimpleFillSymbolLayer base color ol os)
       = Raise no_model)
      /\ (color <> None ->
          raises (NLayer (SimpleFillSymbolLayer base color ol os)) ->
          exists c,
            child c (NLayer (SimpleFillSymbolLayer base color ol os))
            /\ raises c))
  /\ (forall base color,
        (color = None ->
         convert_symbol_layer (ColorSymbol base color) = Raise no_model)
        /\ (color <> None ->
            exists result, convert_symbol_layer (ColorSymbol base color) = Ok result))
  /\ (forall base a,
        (SimpleLine.color a = None ->
         convert_symbol_layer (SimpleLineSymbolLayer base a) = Raise no_model)
        /\ (SimpleLine.color a <> None ->
            exists result,
              convert_symbol_layer (SimpleLineSymbolLayer base a) = Ok result))
  /\ (forall base a decoration,
        (CartographicLine.color a = None ->
         convert_symbol_layer (CartographicLineSymbolLayer base a decoration)
         = Raise no_model)
        /\ (CartographicLine.color a <> None ->
            raises (NLayer (CartographicLineSymbolLayer base a decoration)) ->
            exists c,
              child c (NLayer (CartographicLineSymbolLayer base a decoration))
              /\ raises c))
  /\ (forall base a line decoration,
        (HashLine.color a = None ->
         convert_symbol_layer (HashLineSymbolLayer base a line decoration)
         = Raise no_model)
        /\ (HashLine.color a <> None ->
            raises (NLayer (HashLineSymbolLayer base a line decoration)) ->
            exists c,
              child c (NLayer (HashLineSymbolLayer base a line decoration))
              /\ raises c))
  /\ (forall base a,
        (SimpleMarker.color a = None ->
         convert_symbol_layer (SimpleMarkerSymbolLayer base a) = Raise no_model)
        /\ (SimpleMarker.color a <> None ->
            SimpleMarker.outline_color a = None ->
            convert_symbol_layer (SimpleMarkerSymbolLayer base a) = Raise no_model)
        /\ (SimpleMarker.color a <> None ->
            SimpleMarker.outline_color a <> None ->
            exists result,
              convert_symbol_layer (SimpleMarkerSymbolLayer base a) = Ok result))
  /\ (forall base a,
        (CharacterMarker.color a = None ->
         convert_symbol_layer (CharacterMarkerSymbolLayer base a) = Raise no_model)
        /\ (CharacterMarker.color a <> None ->
            exists result,
              convert_symbol_layer (CharacterMarkerSymbolLayer base a) = Ok result))
  /\ (forall base a,
        (ArrowMarker.color a = None ->
         convert_symbol_layer (ArrowMarkerSymbolLayer base a) = Raise no_model)
        /\ (ArrowMarker.color a <> None ->
            exists result,
              convert_symbol_layer (ArrowMarkerSymbolLayer base a) = Ok result))
  /\ (forall base a,
        (PictureMarker.color_foreground a = None ->
         convert_symbol_layer (PictureMarkerSymbolLayer base a) = Raise no_model)
        /\ (PictureMarker.color_foreground a <> None ->
            PictureMarker.color_background a = None ->
            convert_symbol_layer (PictureMarkerSymbolLayer base a) = Raise no_model)
        /\ (PictureMarker.color_foreground a <> None ->
            PictureMarker.color_background a <> None ->
            raises (NLayer (PictureMarkerSymbolLayer base a)) ->
            exists e, convert_picture (PictureMarker.picture a) = Raise e))
  /\ (forall base a ol os,
        (PictureFill.color_background a = None ->
         convert_symbol_layer (PictureFillSymbolLayer base a ol os) = Raise no_model)
        /\ (PictureFill.color_background a <> None ->
            raises (NLayer (PictureFillSymbolLayer base a ol os)) ->
            (exists c,
                child c (NLayer (PictureFillSymbolLayer base a ol os))
                /\ raises c)
            \/ exists e, convert_picture (PictureFill.picture a) = Raise e)
        /\ (PictureFill.color_foreground a = None ->
            forall result,
              convert_symbol_layer (PictureFillSymbolLayer base a ol os) = Ok result ->
              Dict.get "color_foreground" result = Some VNone
              /\ Dict.get "color_foreground_model" result = Some VNone)).
Proof.
  repeat match goal with |- _ /\ _ => split end.
  - intros base color ol os. split.
    + intros ->. now to_class_converter.
    + intros Hc [e He]. destruct color as [c|]; [clear Hc|contradiction].
      class_converter_raises He. cbn [get_model bind] in He.
      apply set_outline_Raise_inv in He as [(l & -> & Hl)|(sy & -> & Hs)];
        eexists; (split; [|eassumption]).
      * apply child_simple_fill_layer.
      * apply child_simple_fill_symbol.
  - intros base color. split.
    + intros ->. now to_class_converter.
    + intros Hc. destruct color as [c|]; [|contradiction].
      to_class_converter. now eexists.
  - intros base a. split.
    + intros H. to_class_converter. now rewrite H.
    + intros Hc. destruct (SimpleLine.color a) as [c|] eqn:E; [|contradiction].
      to_class_converter. rewrite E. now eexists.
  - intros base a deco. split.
    + intros H. to_class_converter. now rewrite H.
    + intros Hc [e He].
      destruct (CartographicLine.color a) as [c|] eqn:E; [clear Hc|contradiction].
      class_converter_raises He. rewrite E in He. cbn [get_model bind] in He.
      cbv zeta in He.
      apply set_decoration_Raise_inv in He as (dd & -> & Hdd).
      eexists. split; [apply child_cartographic_decoration | exact Hdd].
  - intros base a line deco. split.
    + intros H. to_class_converter. now rewrite H.
    + intros Hc [e He].
      destruct (HashLine.color a) as [c|] eqn:E; [clear Hc|contradiction].
      class_converter_raises He. rewrite E in He. cbn [get_model bind] in He.
      cbv zeta in He.
      apply bind_Raise_inv in He as [He|(d & _ & He)].
      * apply set_payload_Raise_inv in He as (p & -> & Hp).
        eexists. split; [apply child_hash_line_line | exact Hp].
      * apply set_decoration_Raise_inv in He as (dd & -> & Hdd).
        eexists. split; [apply child_hash_line_decoration | exact Hdd].
  - intros base a. split; [|split].
    + intros H. to_class_converter. now rewrite H.
    + intros Hc Ho.
      destruct (SimpleMarker.color a) as [c|] eqn:E; [|contradiction].
      to_class_converter. now rewrite E, Ho.
    + intros Hc Ho.
      destruct (SimpleMarker.color a) as [c|] eqn:E; [|contradiction].
      destruct (SimpleMarker.outline_color a) as [oc|] eqn:Eo; [|contradiction].
      to_class_converter. rewrite E, Eo. now eexists.
  - intros base a. split.
    + intros H. to_class_converter. now rewrite H.
    + intros Hc.
      destruct (CharacterMarker.color a) as [c|] eqn:E; [|contradiction].
      to_class_converter. rewrite E.
      destruct (CharacterMarker.std_font a); now eexists.
  - intros base a. split.
    + intros H. to_class_converter. now rewrite H.
    + intros Hc. destruct (ArrowMarker.color a) as [c|] eqn:E; [|contradiction].
      to_class_converter. rewrite E. now eexists.
  - intros base a. split; [|split].
    + intros H. to_class_converter. now rewrite H.
    + intros Hf Hb.
      destruct (PictureMarker.color_foreground a) as [c|] eqn:E; [|contradiction].
      to_class_converter. now rewrite E, Hb.
    + intros Hf Hb [e He].
      destruct (PictureMarker.color_foreground a) as [c|] eqn:E; [|contradiction].
      destruct (PictureMarker.color_background a) as [cb|] eqn:Eb; [|contradiction].
      class_converter_raises He. rewrite E, Eb in He. cbn [get_model bind] in He.
      apply bind_Raise_inv in He as [He|(x & _ & He)]; [now exists e|discriminate].
  - intros base a ol os. split; [|split].
    + intros H. to_class_converter. now rewrite H.
    + intros Hb [e He].
      destruct (PictureFill.color_background a) as [cb|] eqn:Eb; [|contradiction].
      class_converter_raises He. rewrite Eb in He. cbn [get_model bind] in He.
      cbv zeta in He.
      apply bind_Raise_inv in He as [He|(d & _ & He)].
      * left.
        apply set_outline_Raise_inv in He as [(l & -> & Hl)|(sy & -> & Hs)];
          eexists; (split; [|eassumption]).
        -- apply child_picture_fill_layer.
        -- apply child_picture_fill_symbol.
      * right.
        apply bind_Raise_inv in He as [He|(x & _ & He)]; [now exists e|discriminate].
    + intros Hf result H. through_family H d Hd Hkeys.
      unfold Open.convert_picture_fill_symbol_layer in Hd.
      rewrite Hf in Hd. split_Ok Hd. injection Hd as <-.
      split; now skip_keys.
Qed.

(** *** When a conversion succeeds *)

Lemma agrees_Ok {A : Type} (a : A) : agrees true (Ok a).
Proof. reflexivity. Qed.

Lemma agrees_bind {A B : Type} (b1 b2 : bool) (m : result A) (k : A -> result B) :
  agrees b1 m -> (forall a, agrees b2 (k a)) -> agrees (b1 && b2) (bind m k).
Proof.
  unfold agrees. destruct m as [a|e]; simpl.
  - intros -> Hk. exact (Hk a).
  - intros [-> He] _. now split.
Qed.

Lemma agrees_bind_when {A B : Type} (b1 b2 : bool) (m : result A)
    (k : A -> result B) :
  agrees b1 m -> (forall a, m = Ok a -> agrees b2 (k a)) ->
  agrees (b1 && b2) (bind m k).
Proof.
  unfold agrees. destruct m as [a|e]; simpl.
  - intros -> Hk. exact (Hk a eq_refl).
  - intros [-> He] _. now split.
Qed.

Lemma agrees_bind_Ok {A B : Type} (b : bool) (m : result A) (g : A -> B) :
  agrees b m -> agrees b (bind m (fun a => Ok (g a))).
Proof. unfold agrees. now destruct m. Qed.

Lemma agrees_mapM {A B : Type} (ok : A -> bool) (f : A -> result B) (l : list A) :
  (forall a, In a l -> agrees (ok a) (f a)) ->
  agrees (forallb ok l) (mapM f l).
Proof.
  induction l as [|a l IH]; intros H; [reflexivity|].
  cbn [forallb mapM]. apply agrees_bind; [apply H; now left|].
  intros b. rewrite <- (andb_true_r (forallb ok l)).
  apply agrees_bind; [apply IH; intros a' Ha'; apply H; now right|].
  intros bs. reflexivity.
Qed.

Lemma agrees_get_model (color : option Color) :
  agrees (present color) (get_model color).
Proof. destruct color; simpl; [reflexivity | split; [reflexivity | now left]]. Qed.

Lemma agrees_convert_picture (picture : option Picture) :
  agrees (picture_ok picture) (convert_picture picture).
Proof.
  destruct picture as [[c|c|[[c|c|p|cls]|]|cls]|]; simpl; try reflexivity;
    (split; [reflexivity|]; right; right).
  - now exists (Some (StdPicture p)).
  - now exists (Some (OtherPicture cls)).
  - now exists None.
  - now exists (Some (OtherPicture cls)).
Qed.

Lemma agrees_convert_gradient_type (code : Z) :
  agrees (known_code code) (convert_gradient_type code).
Proof.
  unfold known_code, known_gradient_type, gradient_codes, convert_gradient_type.
  cbn [existsb].
  destruct (Z.eqb_spec code LINEAR); [reflexivity|].
  destruct (Z.eqb_spec code CIRCULAR); [reflexivity|].
  destruct (Z.eqb_spec code BUFFERED); [reflexivity|].
  destruct (Z.eqb_spec code RECTANGULAR); [reflexivity|].
  split; [reflexivity|]. right; left. exists code. split; [|reflexivity].
  unfold known_gradient_type, gradient_codes. simpl.
  intros [H|[H|[H|[H|[]]]]]; congruence.
Qed.

Lemma le_list_sum {A : Type} (f : A -> nat) (a : A) (l : list A) :
  In a l -> (f a <= list_sum (map f l))%nat.
Proof.
  induction l as [|x l IH]; [contradiction|].
  intros [->|H]; simpl; [lia|]. specialize (IH H). lia.
Qed.

Lemma agrees_set_outline (ol : option SymbolLayer) (os : option SymbolOrLayer)
    (d : dict) :
  (forall l, ol = Some l -> agrees (layer_ok l) (convert_symbol_layer l)) ->
  (forall sy, os = Some sy -> agrees (symbol_ok sy) (new_convert_symbol sy)) ->
  agrees (match ol with Some l => layer_ok l | None => true end
          && match os with Some sy => symbol_ok sy | None => true end)
         (Open.set_outline convert_symbol_layer new_convert_symbol ol os d).
Proof.
  intros Hl Hs. unfold Open.set_outline. apply agrees_bind.
  - destruct ol as [l|]; [apply agrees_bind_Ok; now apply Hl | reflexivity].
  - intros d'. destruct os as [sy|]; [apply agrees_bind_Ok; now apply Hs | reflexivity].
Qed.

Lemma agrees_payload (payload : SymbolOrLayer) :
  agrees (node_ok (payload_node payload)) (convert_node (payload_node payload)) ->
  agrees (match payload with
          | BareLayer l => layer_ok l
          | FillSymbol _ | LineSymbol _ | MarkerSymbol _ _ _ _ => symbol_ok payload
          end)
         (match payload with
          | BareLayer l => convert_symbol_layer l
          | FillSymbol _ | LineSymbol _ | MarkerSymbol _ _ _ _ =>
              new_convert_symbol payload
          end).
Proof. now destruct payload. Qed.

Lemma agrees_set_payload (key : string) (payload : option SymbolOrLayer) (d : dict) :
  (forall p, payload = Some p ->
             agrees (node_ok (payload_node p)) (convert_node (payload_node p))) ->
  agrees (match payload with
          | Some (BareLayer l) => layer_ok l
          | Some ((FillSymbol _ | LineSymbol _ | MarkerSymbol _ _ _ _) as sy) =>
              symbol_ok sy
          | None => true
          end)
         (Open.set_payload convert_symbol_layer new_convert_symbol key payload d).
Proof.
  intros H. unfold Open.set_payload.
  destruct payload as [p|]; [|reflexivity].
  specialize (H p eq_refl). destruct p; apply agrees_bind_Ok; exact H.
Qed.

Lemma agrees_set_decoration (decoration : option Decoration) (d : dict) :
  (forall dd, decoration = Some dd ->
              agrees (decoration_ok dd) (convert_node (NDecoration dd))) ->
  agrees (match decoration with Some dd => decoration_ok dd | None => true end)
         (Open.set_decoration convert_symbol_layer new_convert_symbol
            convert_decoration decoration d).
Proof.
  intros H. unfold Open.set_decoration.
  destruct decoration as [dd|]; [|reflexivity].
  specialize (H dd eq_refl). destruct dd; apply agrees_bind_Ok; exact H.
Qed.

Lemma payload_node_size (payload : SymbolOrLayer) :
  (node_size (payload_node payload) <= symbol_size payload)%nat.
Proof. destruct payload; simpl; lia. Qed.

Lemma agrees_node (n : nat) (x : node) :
  (node_size x < n)%nat -> agrees (node_ok x) (convert_node x).
Proof.
  revert x. induction n as [|n IH]; intros x Hlt; [lia|].
  assert (IHl : forall l, (layer_size l < n)%nat ->
                          agrees (layer_ok l) (convert_symbol_layer l)).
  { intros l Hl. exact (IH (NLayer l) Hl). }
  assert (IHsy : forall sy, (symbol_size sy < n)%nat ->
                            agrees (symbol_ok sy) (new_convert_symbol sy)).
  { intros sy Hsy. exact (IH (NSymbol sy) Hsy). }
  assert (IHd : forall dd, (decoration_size dd < n)%nat ->
                           agrees (decoration_ok dd) (convert_node (NDecoration dd))).
  { intros dd Hdd. exact (IH (NDecoration dd) Hdd). }
  assert (IHp : forall p, (symbol_size p < n)%nat ->
                          agrees (node_ok (payload_node p))
                                 (convert_node (payload_node p))).
  { intros p Hp. apply IH. pose proof (payload_node_size p). lia. }
  destruct x as [layer|symbol|decoration]; cbn [node_ok convert_node].
  - (* a layer *)
    rewrite convert_symbol_layer_eq. unfold Open.convert_symbol_layer.
    apply agrees_bind_Ok.
    destruct layer; cbn [node_size layer_size] in Hlt;
      cbn [layer_ok is_FillSymbolLayer is_LineSymbolLayer is_MarkerSymbolLayer
           Open.convert_fill_symbol_layer Open.convert_line_symbol_layer
           Open.convert_marker_symbol_layer];
      try (split; [reflexivity | left; now eexists]).
    + unfold Open.convert_simple_fill_symbol_layer.
      apply agrees_bind; [apply agrees_get_model|]. intros cm. cbv zeta.
      apply agrees_set_outline; intros; subst; [apply IHl | apply IHsy]; lia.
    + unfold convert_color_symbol. apply agrees_bind_Ok, agrees_get_model.
    + unfold Open.convert_gradient_fill_symbol_layer.
      apply agrees_bind;
        [apply agrees_set_outline; intros; subst; [apply IHl | apply IHsy]; lia|].
      intros d. cbv zeta. apply agrees_bind_Ok, agrees_convert_gradient_type.
    + unfold Open.convert_line_fill_symbol_layer.
      apply agrees_bind;
        [apply agrees_set_outline; intros; subst; [apply IHl | apply IHsy]; lia|].
      intros d. apply agrees_bind_Ok. apply agrees_payload. apply IHp. lia.
    + unfold Open.convert_marker_fill_symbol_layer.
      apply agrees_bind;
        [apply agrees_set_outline; intros; subst; [apply IHl | apply IHsy]; lia|].
      intros d. apply agrees_bind_Ok. apply agrees_payload. apply IHp. lia.
    + unfold Open.convert_picture_fill_symbol_layer.
      apply agrees_bind; [apply agrees_get_model|]. intros cm. cbv zeta.
      apply agrees_bind;
        [apply agrees_set_outline; intros; subst; [apply IHl | apply IHsy]; lia|].
      intros d. apply agrees_bind_Ok, agrees_convert_picture.
    + unfold convert_simple_line_symbol_layer. apply agrees_bind_Ok, agrees_get_model.
    + unfold Open.convert_cartographic_line_symbol_layer.
      apply agrees_bind; [apply agrees_get_model|]. intros cm. cbv zeta.
      apply agrees_set_decoration. intros dd ->. apply IHd. lia.
    + unfold Open.convert_marker_line_symbol_layer. cbv zeta.
      apply agrees_bind.
      * apply agrees_set_payload. intros p ->. apply IHp. lia.
      * intros d. apply agrees_set_decoration. intros dd ->. apply IHd. lia.
    + unfold Open.convert_hash_line_symbol_layer.
      apply agrees_bind; [apply agrees_get_model|]. intros cm. cbv zeta.
      apply agrees_bind.
      * apply agrees_set_payload. intros p ->. apply IHp. lia.
      * intros d. apply agrees_set_decoration. intros dd ->. apply IHd. lia.
    + unfold convert_simple_marker_symbol_layer.
      apply agrees_bind; [apply agrees_get_model|]. intros cm.
      rewrite <- (andb_true_r (present (SimpleMarker.outline_color a))).
      apply agrees_bind_when; [apply agrees_get_model|]. intros ocm Hocm.
      destruct (SimpleMarker.outline_color a); [reflexivity | discriminate].
    + unfold convert_character_marker_symbol_layer.
      rewrite <- (andb_true_r (present (CharacterMarker.color a))).
      apply agrees_bind; [apply agrees_get_model|]. intros cm. cbv zeta.
      now destruct (CharacterMarker.std_font a).
    + unfold convert_arrow_marker_symbol_layer. apply agrees_bind_Ok, agrees_get_model.
    + unfold convert_picture_marker_symbol_layer.
      apply agrees_bind; [apply agrees_get_model|]. intros fm.
      apply agrees_bind; [apply agrees_get_model|]. intros bm.
      apply agrees_bind_Ok, agrees_convert_picture.
  - (* a symbol *)
    destruct symbol as [layer|levels|levels|levels halo halo_size halo_symbol];
      cbn [node_size symbol_size] in Hlt; cbn [symbol_ok].
    + rewrite new_convert_symbol_BareLayer.
      rewrite new_convert_symbol_FillSymbol, new_convert_symbol_LineSymbol.
      assert (Hl : agrees (layer_ok layer) (convert_symbol_layer layer))
        by (apply IHl; lia).
      assert (Hone : forall t : string,
                 agrees (layer_ok layer)
                   (vs <- mapM convert_symbol_layer [layer] ;;
                    Ok [("type", VStr t); ("levels", VList (map VDict vs))])).
      { intros t. apply agrees_bind_Ok. cbn [mapM].
        rewrite <- (andb_true_r (layer_ok layer)).
        apply agrees_bind; [exact Hl|]. intros d. reflexivity. }
      destruct (is_FillSymbolLayer layer); [apply Hone|].
      destruct (is_LineSymbolLayer layer); [apply Hone|].
      destruct (is_MarkerSymbolLayer layer) eqn:Em;
        (split; [reflexivity|]); [right; now exists layer | left; now eexists].
    + rewrite new_convert_symbol_FillSymbol. apply agrees_bind_Ok.
      apply agrees_mapM. intros l Hin. apply IHl.
      pose proof (le_list_sum layer_size l levels Hin). lia.
    + rewrite new_convert_symbol_LineSymbol. apply agrees_bind_Ok.
      apply agrees_mapM. intros l Hin. apply IHl.
      pose proof (le_list_sum layer_size l levels Hin). lia.
    + rewrite new_convert_symbol_MarkerSymbol. apply agrees_bind.
      * unfold halo_entry. fold new_convert_symbol.
        destruct halo_symbol as [[l|hl|hl|hl hh hs hsym]|]; try reflexivity.
        apply agrees_bind_Ok. apply IHsy. lia.
      * intros entry. apply agrees_bind_Ok.
        apply agrees_mapM. intros l Hin. apply IHl.
        pose proof (le_list_sum layer_size l levels Hin). lia.
  - (* a decoration *)
    destruct decoration as [ds|fa ff fl m ps];
      cbn [node_size decoration_size] in Hlt; cbn [decoration_ok].
    + rewrite convert_decoration_eq. unfold Open.convert_decoration.
      apply agrees_bind_Ok. apply agrees_mapM. intros d Hin.
      assert (Hd : agrees (decoration_ok d) (convert_node (NDecoration d))).
      { apply IHd. pose proof (le_list_sum decoration_size d ds Hin). lia. }
      now destruct d.
    + unfold convert_simple_line_decoration, Open.convert_simple_line_decoration.
      cbv zeta. destruct m as [p|]; [|reflexivity].
      assert (Hp : agrees (node_ok (payload_node p)) (convert_node (payload_node p)))
        by (apply IHp; lia).
      destruct p; apply agrees_bind_Ok; exact Hp.
Qed.

(** X1: a conversion succeeds exactly on the objects [layer_ok],
    [symbol_ok] and [decoration_ok] accept: every color whose model is read
    unguarded is present, every gradient code is known, every picture is one
    [convert_picture] accepts, every layer is of a known class, and a bare
    layer given as a symbol is a fill or a line layer. *)
Theorem conversion_succeeds_iff :
  (forall layer,
      layer_ok layer = true <-> exists d, convert_symbol_layer layer = Ok d)
  /\ (forall symbol self,
        symbol_ok symbol = true
        <-> exists self' d, convert_symbol symbol self = (self', Ok d))
  /\ (forall decorations,
        forallb decoration_ok decorations = true
        <-> exists d, convert_decoration (LineDecoration decorations) = Ok d)
  /\ (forall fa ff fl marker positions,
        decoration_ok (SimpleLineDecoration fa ff fl marker positions) = true
        <-> exists d,
            convert_simple_line_decoration
              (SimpleLineDecoration fa ff fl marker positions) = Ok d).
Proof.
  assert (H : forall x, node_ok x = true <-> exists d, convert_node x = Ok d).
  { intros x. pose proof (agrees_node (S (node_size x)) x (Nat.lt_succ_diag_r _)) as Hx.
    unfold agrees in Hx. destruct (convert_node x) as [d|e].
    - split; [now exists d | intros _; exact Hx].
    - destruct Hx as [-> _]. split; [discriminate | intros [d [=]]]. }
  split; [|split; [|split]].
  - intros layer. exact (H (NLayer layer)).
  - intros symbol self. rewrite (H (NSymbol symbol)). cbn [convert_node].
    rewrite <- (convert_symbol_result symbol self).
    destruct (convert_symbol symbol self) as [self' [d|e]]; cbn [snd]; split.
    + intros _. now exists self', d.
    + intros _. now exists d.
    + intros [d [=]].
    + intros (s' & d & [=]).
  - intros ds. exact (H (NDecoration (LineDecoration ds))).
  - intros fa ff fl m ps. exact (H (NDecoration (SimpleLineDecoration fa ff fl m ps))).
Qed.

(** X2: an exception of a conversion is the exception of one of five places
    in the converter's code, with the message of that place: a layer of an
    unknown class, a gradient type code that is none of the four, a picture
    that is neither a bitmap nor an EMF, the model of a color that is
    [None], and the halo of a bare layer of the marker family.  So the
    converter's own lookups in [self.out] never fail: [self.out['levels']]
    is assigned before the loop appends to it, and no exception of
    [convert_symbol] is a [KeyError]. *)
Theorem only_foreseen_exceptions :
  (forall layer e, convert_symbol_layer layer = Raise e -> foreseen e)
  /\ (forall symbol self self' e,
        convert_symbol symbol self = (self', Raise e) -> foreseen e)
  /\ (forall decoration e,
        convert_node (NDecoration decoration) = Raise e -> foreseen e)
  /\ (forall symbol self self' e key,
        convert_symbol symbol self = (self', Raise e) -> e <> KeyError key).
Proof.
  assert (H : forall x e, convert_node x = Raise e -> foreseen e).
  { intros x e He.
    pose proof (agrees_node (S (node_size x)) x (Nat.lt_succ_diag_r _)) as Hx.
    unfold agrees in Hx. rewrite He in Hx. exact (proj2 Hx). }
  assert (Hsymbol : forall symbol self self' e,
             convert_symbol symbol self = (self', Raise e) -> foreseen e).
  { intros symbol self self' e Hrun. apply (H (NSymbol symbol)). cbn [convert_node].
    rewrite <- (convert_symbol_result symbol self). now rewrite Hrun. }
  split; [|split; [|split]].
  - intros layer. exact (H (NLayer layer)).
  - exact Hsymbol.
  - intros decoration. exact (H (NDecoration decoration)).
  - intros symbol self self' e key Hrun ->. exact (Hsymbol _ _ _ _ Hrun).
Qed.

(** *** A converter instance over several calls *)

(** X3: [convert_symbol] starts from [self.out = {}], so what it does is the
    same on every instance, whatever an earlier call (of [convert_symbol] or
    of [convert_color_ramp]) left in [self.out]; and the map it returns is
    [self.out]. *)
Theorem converter_can_be_reused :
  (forall symbol self1 self2,
      convert_symbol symbol self1 = convert_symbol symbol self2)
  /\ (forall symbol self self' d,
        convert_symbol symbol self = (self', Ok d) -> out self' = d)
  /\ (forall ramp symbol self,
        (convert_color_ramp ramp ;;; convert_symbol symbol)%M self
        = convert_symbol symbol __init__)
  /\ (forall first second self,
        (convert_symbol first ;;; convert_symbol second)%M self
        = match convert_symbol first self with
          | (_, Ok _) => convert_symbol second __init__
          | (self', Raise e) => (self', Raise e)
          end).
Proof.
  split; [|split; [|split]].
  - intros symbol self1 self2.
    now rewrite (convert_symbol_any_instance symbol self1),
                (convert_symbol_any_instance symbol self2).
  - intros symbol self self' d. rewrite convert_symbol_eq.
    unfold Open.convert_symbol, bind_M, set_out, get_out.
    destruct (Open.Converter_convert_symbol _ _ _ _) as [s [u|e]];
      intros [= <- <-]; reflexivity.
  - intros ramp symbol self. unfold bind_M, convert_color_ramp, set_out.
    apply convert_symbol_any_instance.
  - intros first second self. unfold bind_M.
    destruct (convert_symbol first self) as [s [d|e]]; [|reflexivity].
    apply convert_symbol_any_instance.
Qed.

(** *** The first layer that fails *)

Lemma mapM_app_Raise {A B : Type} (f : A -> result B) (pre post : list A)
    (a : A) (bs : list B) (e : exn) :
  mapM f pre = Ok bs -> f a = Raise e -> mapM f (pre ++ a :: post) = Raise e.
Proof.
  revert bs. induction pre as [|x pre IH]; intros bs Hpre Ha; simpl.
  - now rewrite Ha.
  - simpl in Hpre. apply bind_Ok in Hpre as (b & Hb & Hpre).
    apply bind_Ok in Hpre as (bs' & Hbs' & _).
    rewrite Hb. simpl. now rewrite (IH bs' Hbs' Ha).
Qed.

Lemma append_levels_stops (symbol : SymbolOrLayer) (pre post : list SymbolLayer)
    (l : SymbolLayer) (vs : list dict) (e : exn) (self : DictionaryConverter)
    (acc : list value) :
  symbol_levels symbol = (pre ++ l :: post)%list ->
  mapM convert_symbol_layer pre = Ok vs ->
  convert_symbol_layer l = Raise e ->
  Dict.get "levels" (out self) = Some (VList acc) ->
  Open.append_levels convert_symbol_layer symbol self
  = ({| out := Dict.set "levels" (VList (acc ++ map VDict vs)) (out self) |}, Raise e).
Proof.
  intros Hlevels Hpre Hl.
  assert (loop : forall pre vs self acc,
    mapM convert_symbol_layer pre = Ok vs ->
    Dict.get "levels" (out self) = Some (VList acc) ->
    for_each (fun l => (x <- lift (convert_symbol_layer l) ;;
                        levels_append (VDict x))%M) (pre ++ l :: post) self
    = ({| out := Dict.set "levels" (VList (acc ++ map VDict vs)) (out self) |},
       Raise e)).
  { clear pre vs Hlevels Hpre self acc.
    intros pre. induction pre as [|a pre IH]; intros vs self acc Hpre Hacc.
    - injection Hpre as <-. cbn [app map]. rewrite for_each_cons. cbv beta.
      rewrite (convert_and_append _ _ _ Hacc), Hl.
      rewrite app_nil_r, (set_get_same _ _ _ Hacc). now destruct self.
    - cbn [mapM] in Hpre. apply bind_Ok in Hpre as (x & Hx & Hpre).
      apply bind_Ok in Hpre as (vs' & Hvs' & [= <-]).
      cbn [app]. rewrite for_each_cons. cbv beta.
      rewrite (convert_and_append _ _ _ Hacc), Hx.
      rewrite (IH vs'
                 {| out := Dict.set "levels" (VList (acc ++ [VDict x])) (out self) |}
                 (acc ++ [VDict x])%list Hvs' (get_set_same _ _ _)).
      cbn [out map]. now rewrite set_set_same, <- app_assoc. }
  intros Hacc.
  destruct symbol as [layer|levels|levels|levels halo halo_size halo_symbol];
    cbn [symbol_levels] in Hlevels; subst; cbn [Open.append_levels];
    try (now apply loop).
  destruct pre as [|a [|b pre]]; try discriminate Hlevels.
  injection Hlevels as <- <-. injection Hpre as <-.
  rewrite (convert_and_append _ _ _ Hacc), Hl.
  cbn [map]. rewrite app_nil_r, (set_get_same _ _ _ Hacc). now destruct self.
Qed.

(** X4: the layers of a symbol are converted in their order and the loop
    stops at the first layer whose conversion raises: [convert_symbol]
    raises that exception, and [self.out] is left holding the [type] and the
    [levels] converted so far. *)
Theorem first_failing_layer :
  forall pre l post vs e self,
    mapM convert_symbol_layer pre = Ok vs ->
    convert_symbol_layer l = Raise e ->
    convert_symbol (FillSymbol (pre ++ l :: post)) self
    = ({| out := [("type", VStr "FillSymbol");
                  ("levels", VList (map VDict vs))] |}, Raise e)
    /\ convert_symbol (LineSymbol (pre ++ l :: post)) self
       = ({| out := [("type", VStr "LineSymbol");
                     ("levels", VList (map VDict vs))] |}, Raise e)
    /\ (forall halo halo_size,
          convert_symbol (MarkerSymbol (pre ++ l :: post) halo halo_size None) self
          = ({| out := [("type", VStr "MarkerSymbol");
                        ("levels", VList (map VDict vs));
                        ("halo", VBool halo);
                        ("halo_size", halo_size);
                        ("halo_symbol_type", VStr "NoneType")] |}, Raise e)).
Proof.
  intros pre l post vs e self Hpre Hl.
  split; [|split; [|intros halo halo_size]];
    rewrite convert_symbol_eq;
    unfold Open.convert_symbol, Open.Converter_convert_symbol,
      Open.convert_fill_symbol, Open.convert_line_symbol,
      Open.convert_marker_symbol;
    cbn [Open.get_halo Open.get_halo_size Open.get_halo_symbol];
    unfold bind_M, set_out, lift, ret_M.
  - now rewrite (append_levels_stops (FillSymbol (pre ++ l :: post)) pre post l vs e
                   {| out := [("type", VStr "FillSymbol"); ("levels", VList [])] |}
                   [] eq_refl Hpre Hl eq_refl).
  - now rewrite (append_levels_stops (LineSymbol (pre ++ l :: post)) pre post l vs e
                   {| out := [("type", VStr "LineSymbol"); ("levels", VList [])] |}
                   [] eq_refl Hpre Hl eq_refl).
  - now rewrite (append_levels_stops
                   (MarkerSymbol (pre ++ l :: post) halo halo_size None)
                   pre post l vs e
                   {| out := [("type", VStr "MarkerSymbol");
                              ("levels", VList []);
                              ("halo", VBool halo);
                              ("halo_size", halo_size);
                              ("halo_symbol_type", VStr (class_name None))] |}
                   [] eq_refl Hpre Hl eq_refl).
Qed.

(** *** The shape of a symbol's map *)

(** X5: the map [convert_symbol] returns has the keys [type] and [levels],
    followed for a [MarkerSymbol] by [halo], [halo_size], [halo_symbol_type]
    and, with a [FillSymbol] halo, [halo_symbol]; [type] is the category of
    the symbol, and for a bare layer the category of the layer's family, not
    the class of the layer.  A symbol with no layer converts, to empty
    [levels]. *)
Theorem symbol_map_shape :
  (forall symbol self self' d,
      convert_symbol symbol self = (self', Ok d) ->
      Dict.keys d = symbol_keys symbol
      /\ Dict.get "type" d = Some (VStr (category symbol)))
  /\ (forall self,
        snd (convert_symbol (FillSymbol []) self)
        = Ok [("type", VStr "FillSymbol"); ("levels", VList [])]
        /\ snd (convert_symbol (LineSymbol []) self)
           = Ok [("type", VStr "LineSymbol"); ("levels", VList [])]).
Proof.
  split; [|intros self; split; now rewrite convert_symbol_result].
  intros symbol self self' d Hrun.
  assert (H : new_convert_symbol symbol = Ok d).
  { rewrite <- (convert_symbol_result symbol self). now rewrite Hrun. }
  clear Hrun.
  destruct symbol as [layer|levels|levels|levels halo halo_size halo_symbol].
  - rewrite new_convert_symbol_BareLayer in H.
    rewrite new_convert_symbol_FillSymbol, new_convert_symbol_LineSymbol in H.
    cbn [category symbol_keys].
    destruct (is_FillSymbolLayer layer);
      [|destruct (is_LineSymbolLayer layer);
        [|destruct (is_MarkerSymbolLayer layer); discriminate H]];
      apply bind_Ok in H as (vs & _ & [= <-]); now split.
  - rewrite new_convert_symbol_FillSymbol in H.
    apply bind_Ok in H as (vs & _ & [= <-]). now split.
  - rewrite new_convert_symbol_LineSymbol in H.
    apply bind_Ok in H as (vs & _ & [= <-]). now split.
  - rewrite new_convert_symbol_MarkerSymbol in H.
    apply bind_Ok in H as (entry & Hentry & H).
    apply bind_Ok in H as (vs & _ & [= <-]).
    unfold halo_entry in Hentry.
    destruct halo_symbol as [[l|hl|hl|hl hh hs hsym]|];
      try (injection Hentry as <-; now split).
    apply bind_Ok in Hentry as (x & _ & [= <-]). now split.
Qed.

(** X6: a halo symbol that is not a [FillSymbol] is not converted: the
    marker symbol converts exactly as its layers do, whatever the halo
    symbol holds; the map records the class name of the halo symbol and has
    no [halo_symbol]. *)
Theorem other_halo_is_not_converted (levels : list SymbolLayer) (halo : bool)
    (halo_size : value) (h : SymbolOrLayer) (self : DictionaryConverter) :
  (forall hl, h <> FillSymbol hl) ->
  snd (convert_symbol (MarkerSymbol levels halo halo_size (Some h)) self)
  = (vs <- mapM convert_symbol_layer levels ;;
     Ok [("type", VStr "MarkerSymbol");
         ("levels", VList (map VDict vs));
         ("halo", VBool halo);
         ("halo_size", halo_size);
         ("halo_symbol_type", VStr (class_name (Some h)))]).
Proof.
  intros Hh. rewrite convert_symbol_result, new_convert_symbol_MarkerSymbol.
  destruct h as [l|hl|hl|hl hh hs hsym]; try reflexivity.
  now contradiction (Hh hl).
Qed.

(** *** Outlines of fill layers *)

Lemma set_outline_entries (ol : option SymbolLayer) (os : option SymbolOrLayer)
    (d d' : dict) :
  Open.set_outline convert_symbol_layer new_convert_symbol ol os d = Ok d' ->
  Dict.get "outline_layer" d = None ->
  Dict.get "outline_symbol" d = None ->
  outline_entries ol os d'.
Proof.
  unfold Open.set_outline, outline_entries. intros H Hl Hs.
  apply bind_Ok in H as (d1 & H1 & H2).
  destruct ol as [l|], os as [sy|].
  - apply bind_Ok in H1 as (x & Hx & [= <-]).
    apply bind_Ok in H2 as (y & Hy & [= <-]). split.
    + exists x. split; [exact Hx|].
      rewrite get_set_other by discriminate. apply get_set_same.
    + exists y. split; [exact Hy | apply get_set_same].
  - apply bind_Ok in H1 as (x & Hx & [= <-]). injection H2 as <-. split.
    + exists x. split; [exact Hx | apply get_set_same].
    + now rewrite get_set_other by discriminate.
  - injection H1 as <-. apply bind_Ok in H2 as (y & Hy & [= <-]). split.
    + now rewrite get_set_other by discriminate.
    + exists y. split; [exact Hy | apply get_set_same].
  - injection H1 as <-. injection H2 as <-. now split.
Qed.

Lemma outline_entries_transfer (ol : option SymbolLayer)
    (os : option SymbolOrLayer) (d d' : dict) :
  outline_entries ol os d ->
  Dict.get "outline_layer" d' = Dict.get "outline_layer" d ->
  Dict.get "outline_symbol" d' = Dict.get "outline_symbol" d ->
  outline_entries ol os d'.
Proof.
  unfold outline_entries. intros [Hl Hs] El Es. rewrite El, Es. now split.
Qed.

(** X7: in the map of a fill layer that has an outline (simple, gradient,
    line, marker and picture fill) the key [outline_layer] is present exactly
    when the layer has an outline layer, and holds its conversion; the key
    [outline_symbol] is present exactly when the layer has an outline
    symbol, and holds the map a new instance converts it to.  An absent
    outline is omitted, not [None]. *)
Theorem outline_keys (layer : SymbolLayer) (ol : option SymbolLayer)
    (os : option SymbolOrLayer) (result : dict) :
  outlines layer = Some (ol, os) ->
  convert_symbol_layer layer = Ok result ->
  outline_entries ol os result.
Proof.
  intros Houtlines H.
  apply convert_symbol_layer_inv in H as (base & Hbase & Hkeys).
  apply (outline_entries_transfer ol os base);
    [|apply Hkeys; discriminate|apply Hkeys; discriminate].
  clear Hkeys result.
  destruct Hbase as [[Hfam Hbase]|[[Hfam Hbase]|[Hfam Hbase]]];
    destruct layer; try discriminate Hfam; try discriminate Houtlines;
    injection Houtlines as <- <-;
    unfold convert_fill_symbol_layer in Hbase;
    cbn [Open.convert_fill_symbol_layer] in Hbase.
  - unfold Open.convert_simple_fill_symbol_layer in Hbase.
    apply bind_Ok in Hbase as (cm & _ & Hbase). cbv zeta in Hbase.
    now apply (set_outline_entries _ _ _ _ Hbase).
  - unfold Open.convert_gradient_fill_symbol_layer in Hbase.
    apply bind_Ok in Hbase as (d & Hd & Hbase). cbv zeta in Hbase.
    apply bind_Ok in Hbase as (g & _ & [= <-]).
    apply (outline_entries_transfer _ _ d);
      [now apply (set_outline_entries _ _ _ _ Hd)| |];
      now rewrite !get_set_other by discriminate.
  - unfold Open.convert_line_fill_symbol_layer in Hbase.
    apply bind_Ok in Hbase as (d & Hd & Hbase).
    apply bind_Ok in Hbase as (x & _ & [= <-]).
    apply (outline_entries_transfer _ _ d);
      [now apply (set_outline_entries _ _ _ _ Hd)| |];
      now rewrite !get_set_other by discriminate.
  - unfold Open.convert_marker_fill_symbol_layer in Hbase.
    apply bind_Ok in Hbase as (d & Hd & Hbase).
    apply bind_Ok in Hbase as (x & _ & [= <-]).
    apply (outline_entries_transfer _ _ d);
      [now apply (set_outline_entries _ _ _ _ Hd)| |];
      now rewrite !get_set_other by discriminate.
  - unfold Open.convert_picture_fill_symbol_layer in Hbase.
    apply bind_Ok in Hbase as (cm & _ & Hbase). cbv zeta in Hbase.
    apply bind_Ok in Hbase as (d & Hd & Hbase).
    apply bind_Ok in Hbase as (x & _ & [= <-]).
    apply (outline_entries_transfer _ _ d);
      [now apply (set_outline_entries _ _ _ _ Hd)| |];
      now rewrite !get_set_other by discriminate.
Qed.

(** *** Payloads: a bare layer or a symbol *)

Lemma set_payload_Ok_inv (key : string) (p : SymbolOrLayer) (d d' : dict) :
  Open.set_payload convert_symbol_layer new_convert_symbol key (Some p) d = Ok d' ->
  exists x, convert_node (payload_node p) = Ok x
            /\ d' = Dict.set key (VDict x) d.
Proof.
  unfold Open.set_payload. intros H.
  destruct p; apply bind_Ok in H as (x & Hx & [= <-]); now exists x.
Qed.

Lemma set_decoration_Ok_inv (dd : Decoration) (d d' : dict) :
  Open.set_decoration convert_symbol_layer new_convert_symbol convert_decoration
    (Some dd) d = Ok d' ->
  exists x, convert_node (NDecoration dd) = Ok x
            /\ d' = Dict.set "decoration" (VDict x) d.
Proof.
  unfold Open.set_decoration. intros H.
  destruct dd; apply bind_Ok in H as (x & Hx & [= <-]); now exists x.
Qed.

(** X8: the hatch line of a line fill and the marker of a marker fill are
    converted by [convert_symbol_layer] when they are a bare layer and by a
    new instance's [convert_symbol] when they are a symbol; the map holds
    the result under [line_symbol], respectively [marker], beside the
    layer's own attributes. *)
Theorem fill_payloads :
  (forall base a ol os line result,
      convert_symbol_layer (LineFillSymbolLayer base a ol os line) = Ok result ->
      (exists x,
          convert_node (payload_node line) = Ok x
          /\ Dict.get "line_symbol" result = Some (VDict x))
      /\ Dict.get "angle" result = Some (LineFill.angle a)
      /\ Dict.get "offset" result = Some (LineFill.offset a)
      /\ Dict.get "separation" result = Some (LineFill.separation a))
  /\ (forall base a ol os marker result,
        convert_symbol_layer (MarkerFillSymbolLayer base a ol os marker) = Ok result ->
        (exists x,
            convert_node (payload_node marker) = Ok x
            /\ Dict.get "marker" result = Some (VDict x))
        /\ Dict.get "offset_x" result = Some (MarkerFill.offset_x a)
        /\ Dict.get "offset_y" result = Some (MarkerFill.offset_y a)
        /\ Dict.get "separation_x" result = Some (MarkerFill.separation_x a)
        /\ Dict.get "separation_y" result = Some (MarkerFill.separation_y a)
        /\ Dict.get "random" result = Some (MarkerFill.random a)).
Proof.
  split.
  - intros base a ol os line result H. through_family H d Hd Hkeys.
    unfold Open.convert_line_fill_symbol_layer in Hd.
    apply bind_Ok in Hd as (d0 & _ & Hd).
    apply bind_Ok in Hd as (x & Hx & [= <-]).
    split; [|repeat split; skip_keys; apply get_set_same].
    exists x. split; [now destruct line|].
    rewrite ?Hkeys by discriminate. skip_keys. apply get_set_same.
  - intros base a ol os marker result H. through_family H d Hd Hkeys.
    unfold Open.convert_marker_fill_symbol_layer in Hd.
    apply bind_Ok in Hd as (d0 & _ & Hd).
    apply bind_Ok in Hd as (x & Hx & [= <-]).
    split; [|repeat split; skip_keys; apply get_set_same].
    exists x. split; [now destruct marker|].
    rewrite ?Hkeys by discriminate. skip_keys. apply get_set_same.
Qed.

(** X9: in the map of a marker line layer and of a hash line layer an
    optional part that is present is converted: [template] holds the map of
    the template, [pattern_marker] (marker line) or [line] (hash line) the
    conversion of the payload, by [convert_symbol_layer] for a bare layer
    and by a new instance for a symbol, and [decoration] the conversion of
    the decoration. *)
Theorem line_parts_when_present :
  (forall base a pattern_marker decoration result,
      convert_symbol_layer
        (MarkerLineSymbolLayer base a pattern_marker decoration) = Ok result ->
      (forall t, MarkerLine.template a = Some t ->
                 Dict.get "template" result = Some (VDict (convert_template t)))
      /\ (forall p, pattern_marker = Some p ->
                    exists x, convert_node (payload_node p) = Ok x
                              /\ Dict.get "pattern_marker" result = Some (VDict x))
      /\ (forall dd, decoration = Some dd ->
                     exists x, convert_node (NDecoration dd) = Ok x
                               /\ Dict.get "decoration" result = Some (VDict x)))
  /\ (forall base a line decoration result,
        convert_symbol_layer (HashLineSymbolLayer base a line decoration) = Ok result ->
        (forall t, HashLine.template a = Some t ->
                   Dict.get "template" result = Some (VDict (convert_template t)))
        /\ (forall p, line = Some p ->
                      exists x, convert_node (payload_node p) = Ok x
                                /\ Dict.get "line" result = Some (VDict x))
        /\ (forall dd, decoration = Some dd ->
                       exists x, convert_node (NDecoration dd) = Ok x
                                 /\ Dict.get "decoration" result = Some (VDict x))).
Proof.
  split.
  - intros base a pm deco result H.
    apply convert_symbol_layer_inv in H as (d & Hd & Hkeys).
    destruct Hd as [[Hfam Hd]|[[Hfam Hd]|[Hfam Hd]]]; try discriminate Hfam.
    unfold convert_line_symbol_layer in Hd.
    cbn [Open.convert_line_symbol_layer] in Hd.
    unfold Open.convert_marker_line_symbol_layer in Hd. cbv zeta in Hd.
    apply bind_Ok in Hd as (d1 & Hd1 & Hd).
    split; [|split].
    + intros t Ht. rewrite Ht in Hd1. rewrite Hkeys by discriminate.
      now skip_keys.
    + intros p ->. apply set_payload_Ok_inv in Hd1 as (x & Hx & ->).
      exists x. split; [exact Hx|]. rewrite Hkeys by discriminate.
      skip_keys. apply get_set_same.
    + intros dd ->. apply set_decoration_Ok_inv in Hd as (x & Hx & ->).
      exists x. split; [exact Hx|]. rewrite Hkeys by discriminate.
      apply get_set_same.
  - intros base a line deco result H.
    apply convert_symbol_layer_inv in H as (d & Hd & Hkeys).
    destruct Hd as [[Hfam Hd]|[[Hfam Hd]|[Hfam Hd]]]; try discriminate Hfam.
    unfold convert_line_symbol_layer in Hd.
    cbn [Open.convert_line_symbol_layer] in Hd.
    unfold Open.convert_hash_line_symbol_layer in Hd.
    apply bind_Ok in Hd as (cm & _ & Hd). cbv zeta in Hd.
    apply bind_Ok in Hd as (d1 & Hd1 & Hd).
    split; [|split].
    + intros t Ht. rewrite Ht in Hd1. rewrite Hkeys by discriminate.
      now skip_keys.
    + intros p ->. apply set_payload_Ok_inv in Hd1 as (x & Hx & ->).
      exists x. split; [exact Hx|]. rewrite Hkeys by discriminate.
      skip_keys. apply get_set_same.
    + intros dd ->. apply set_decoration_Ok_inv in Hd as (x & Hx & ->).
      exists x. split; [exact Hx|]. rewrite Hkeys by discriminate.
      apply get_set_same.
Qed.

(** *** Decorations *)

(** X10: the map of a [LineDecoration] has the one key [decorations], a
    list with one entry per element in the order of the elements; the entry
    of a nested [LineDecoration] is its own conversion and the entry of a
    [SimpleLineDecoration] the map of [convert_simple_line_decoration].  An
    empty decoration converts to an empty list. *)
Theorem decorations_in_order :
  (forall decorations result,
      convert_decoration (LineDecoration decorations) = Ok result ->
      exists converted : list dict,
        result = [("decorations", VList (map VDict converted))]
        /\ List.length converted = List.length decorations
        /\ (forall i d,
               nth_error decorations i = Some d ->
               exists x, nth_error converted i = Some x
                         /\ convert_node (NDecoration d) = Ok x))
  /\ convert_decoration (LineDecoration []) = Ok [("decorations", VList [])].
Proof.
  split; [|reflexivity].
  intros ds result H. rewrite convert_decoration_eq in H.
  unfold Open.convert_decoration in H.
  apply bind_Ok in H as (converted & Hmap & [= <-]).
  exists converted. split; [reflexivity|].
  apply mapM_Forall2 in Hmap.
  split; [symmetry; exact (Forall2_length Hmap)|].
  intros i d Hi.
  destruct (Forall2_nth_error_l _ _ _ _ _ Hmap Hi) as (x & Hx & Hconv).
  exists x. split; [exact Hx|]. now destruct d.
Qed.

(** X11: the map of a [SimpleLineDecoration] has the keys [fixed_angle],
    [flip_first], [flip_all], [marker] and [positions], in this order; the
    flags and the positions are the decoration's own, and [marker] is
    [None] without a marker, the conversion of the layer for a bare layer
    and the map of a new instance for a symbol. *)
Theorem simple_line_decoration_map (fa ff fl : bool)
    (marker : option SymbolOrLayer) (positions : list value) (result : dict) :
  convert_simple_line_decoration
    (SimpleLineDecoration fa ff fl marker positions) = Ok result ->
  exists m : value,
    result = [("fixed_angle", VBool fa); ("flip_first", VBool ff);
              ("flip_all", VBool fl); ("marker", m);
              ("positions", VList positions)]
    /\ (marker = None -> m = VNone)
    /\ (forall p, marker = Some p ->
                  exists x, convert_node (payload_node p) = Ok x /\ m = VDict x).
Proof.
  unfold convert_simple_line_decoration, Open.convert_simple_line_decoration.
  cbv zeta. intros H. destruct marker as [p|].
  - destruct p; apply bind_Ok in H as (x & Hx & [= <-]);
      (eexists; split; [reflexivity|]; split; [discriminate|]);
      intros p' [= <-]; now exists x.
  - injection H as <-. eexists. split; [reflexivity|]. split; [reflexivity|].
    discriminate.
Qed.

(** *** Unsupported classes *)

(** X12: no exception is caught: when the conversion of a part raises, the
    conversion of every object the part belongs to raises, and
    [convert_symbol] returns no map.  A layer whose class the converter does
    not know is such a part: it raises [NotImplementedException], whether
    the class belongs to a family or to none, and the message is the text
    Python prints for the class ([repr_class], the module path of the class
    included) followed by [ not implemented yet]. *)
Theorem failure_propagates :
  (forall c p, part_of c p -> raises c -> raises p)
  /\ (forall c top self,
        part_of c (NSymbol top) -> raises c ->
        exists self' e, convert_symbol top self = (self', Raise e))
  /\ (forall cls base,
        convert_symbol_layer (OtherFillSymbolLayer cls base)
        = Raise (NotImplementedException (repr_class cls ++ " not implemented yet"))
        /\ convert_symbol_layer (OtherLineSymbolLayer cls base)
           = Raise (NotImplementedException (repr_class cls ++ " not implemented yet"))
        /\ convert_symbol_layer (OtherMarkerSymbolLayer cls base)
           = Raise (NotImplementedException (repr_class cls ++ " not implemented yet"))
        /\ convert_symbol_layer (OtherSymbolLayer cls base)
           = Raise (NotImplementedException (repr_class cls ++ " not implemented yet"))).
Proof.
  split; [exact part_raises|]. split.
  - intros c top self Hpart Hc.
    destruct (part_raises _ _ Hpart Hc) as [e He]. cbn [convert_node] in He.
    rewrite <- (convert_symbol_result top self) in He.
    destruct (convert_symbol top self) as [self' r]. cbn [snd] in He. subst r.
    now exists self', e.
  - intros cls base. repeat split.
Qed.

(** *** Pictures in picture layers *)

(** X13: the map of a picture fill layer and of a picture marker layer
    holds under [picture] what [convert_picture] returns for the layer's
    picture, [None] for no picture; with its colors present, a picture
    marker layer converts exactly when its picture does, and raises the
    exception of [convert_picture] otherwise. *)
Theorem picture_of_picture_layers :
  (forall base a ol os result,
      convert_symbol_layer (PictureFillSymbolLayer base a ol os) = Ok result ->
      exists p, convert_picture (PictureFill.picture a) = Ok p
                /\ Dict.get "picture" result = Some p
                /\ (PictureFill.picture a = None -> p = VNone))
  /\ (forall base a result,
        convert_symbol_layer (PictureMarkerSymbolLayer base a) = Ok result ->
        exists p, convert_picture (PictureMarker.picture a) = Ok p
                  /\ Dict.get "picture" result = Some p
                  /\ (PictureMarker.picture a = None -> p = VNone))
  /\ (forall base a e,
        PictureMarker.color_foreground a <> None ->
        PictureMarker.color_background a <> None ->
        convert_picture (PictureMarker.picture a) = Raise e ->
        convert_symbol_layer (PictureMarkerSymbolLayer base a) = Raise e).
Proof.
  split; [|split].
  - intros base a ol os result H. through_family H d Hd Hkeys.
    unfold Open.convert_picture_fill_symbol_layer in Hd.
    apply bind_Ok in Hd as (cm & _ & Hd). cbv zeta in Hd.
    apply bind_Ok in Hd as (d1 & Hd1 & Hd).
    apply bind_Ok in Hd as (p & Hp & [= <-]).
    exists p. split; [exact Hp|]. split.
    + rewrite ?Hkeys by discriminate. skip_keys. apply get_set_same.
    + intros Hnone. rewrite Hnone in Hp. now injection Hp as <-.
  - intros base a result H. through_family H d Hd Hkeys.
    unfold convert_picture_marker_symbol_layer in Hd.
    apply bind_Ok in Hd as (fm & _ & Hd).
    apply bind_Ok in Hd as (bm & _ & Hd).
    apply bind_Ok in Hd as (p & Hp & [= <-]).
    exists p. split; [exact Hp|]. split.
    + rewrite ?Hkeys by discriminate. reflexivity.
    + intros Hnone. rewrite Hnone in Hp. now injection Hp as <-.
  - intros base a e Hf Hb Hp. to_class_converter.
    destruct (PictureMarker.color_foreground a); [|contradiction].
    destruct (PictureMarker.color_background a); [|contradiction].
    cbn [get_model bind]. now rewrite Hp.
Qed.

(** *** The font of a character marker *)

(** X14: a character marker layer with a standard font holds under
    [std_font] the map of [convert_font]: the font's name, character set,
    weight, size and its italic, strikethrough and underline flags, under
    seven keys in this order. *)
Theorem std_font_when_present (base : LayerAttrs) (a : CharacterMarker.attrs)
    (f : Font) (result : dict) :
  CharacterMarker.std_font a = Some f ->
  convert_symbol_layer (CharacterMarkerSymbolLayer base a) = Ok result ->
  Dict.get "std_font" result = Some (VDict (convert_font f))
  /\ Dict.keys (convert_font f)
     = ["font_name"; "charset"; "weight"; "size"; "italic"; "strikethrough";
        "underline"]
  /\ Dict.get "font" result = Some (CharacterMarker.font a).
Proof.
  intros Hf H. through_family H d Hd Hkeys.
  unfold convert_character_marker_symbol_layer in Hd.
  apply bind_Ok in Hd as (cm & _ & Hd). cbv zeta in Hd.
  rewrite Hf in Hd. injection Hd as <-. repeat split.
Qed.

(** *** The universal fields come last *)

Ltac base_lacks_key layer Hbase :=
  destruct Hbase as [[Hf H]|[[Hf H]|[Hf H]]]; destruct layer;
  try discriminate Hf; try discriminate H;
  unfold convert_fill_symbol_layer, convert_line_symbol_layer,
    convert_marker_symbol_layer in H;
  cbn [Open.convert_fill_symbol_layer Open.convert_line_symbol_layer
       Open.convert_marker_symbol_layer] in H;
  unfold Open.convert_simple_fill_symbol_layer, convert_color_symbol,
    Open.convert_gradient_fill_symbol_layer,
    Open.convert_line_fill_symbol_layer,
    Open.convert_marker_fill_symbol_layer,
    Open.convert_picture_fill_symbol_layer,
    convert_simple_line_symbol_layer,
    Open.convert_cartographic_line_symbol_layer,
    Open.convert_marker_line_symbol_layer,
    Open.convert_hash_line_symbol_layer,
    convert_simple_marker_symbol_layer,
    convert_character_marker_symbol_layer,
    convert_arrow_marker_symbol_layer,
    convert_picture_marker_symbol_layer in H;
  cbv zeta in H; split_Ok H;
  try match type of H with
      | context [CharacterMarker.std_font ?a] =>
          destruct (CharacterMarker.std_font a)
      end;
  try (injection H as <-);
  now skip_keys.

Lemma family_base_no_universal (layer : SymbolLayer) (base : dict) (k : string) :
  family_base layer base ->
  In k ["type"; "enabled"; "locked"; "tags"] ->
  Dict.get k base = None.
Proof.
  intros Hbase [<-|[<-|[<-|[<-|[]]]]]; base_lacks_key layer Hbase.
Qed.

Lemma keys_set_new (k : string) (v : value) (d : dict) :
  Dict.get k d = None -> Dict.keys (Dict.set k v d) = (Dict.keys d ++ [k])%list.
Proof.
  unfold Dict.keys. induction d as [|[k' v'] d IH]; simpl; [reflexivity|].
  destruct (String.eqb k k'); [discriminate|]. intros H. simpl. now rewrite IH.
Qed.

(** X15: no converter of a layer class emits a key [type], [enabled],
    [locked] or [tags]: the universal fields never overwrite a field of the
    layer.  Every entry of the class's map is in the layer's map, and the
    keys of the layer's map are those of the class's map followed by
    [type], [enabled], [locked] and, with tags, [tags]. *)
Theorem universal_fields_come_last (layer : SymbolLayer) (base result : dict) :
  family_base layer base ->
  convert_symbol_layer layer = Ok result ->
  (forall k v, Dict.get k base = Some v -> Dict.get k result = Some v)
  /\ Dict.keys result
     = (Dict.keys base ++ ["type"; "enabled"; "locked"]
          ++ match tags (layer_attrs layer) with
             | Some (_ :: _) => ["tags"]
             | _ => []
             end)%list.
Proof.
  intros Hbase H. rewrite (convert_symbol_layer_family _ _ Hbase) in H.
  injection H as <-.
  assert (Hno : forall k, In k ["type"; "enabled"; "locked"; "tags"] ->
                          Dict.get k base = None).
  { intros k. now apply (family_base_no_universal layer). }
  split.
  - intros k v Hk.
    assert (Hk' : ~ In k ["type"; "enabled"; "locked"; "tags"]).
    { intros Hin. rewrite (Hno k Hin) in Hk. discriminate. }
    rewrite set_tags_other by (intros ->; apply Hk'; simpl; auto 10).
    now rewrite !get_set_other by (intros ->; apply Hk'; simpl; auto 10).
  - assert (K1 : Dict.keys (Dict.set "type" (VStr (layer_class_name layer)) base)
                 = (Dict.keys base ++ ["type"])%list).
    { apply keys_set_new, Hno. simpl. tauto. }
    assert (K2 : Dict.keys
                   (Dict.set "enabled" (VBool (enabled (layer_attrs layer)))
                      (Dict.set "type" (VStr (layer_class_name layer)) base))
                 = (Dict.keys base ++ ["type"; "enabled"])%list).
    { rewrite keys_set_new, K1, <- app_assoc; [reflexivity|].
      rewrite get_set_other by discriminate. apply Hno. simpl. tauto. }
    assert (K3 : Dict.keys
                   (Dict.set "locked" (VBool (locked (layer_attrs layer)))
                      (Dict.set "enabled" (VBool (enabled (layer_attrs layer)))
                         (Dict.set "type" (VStr (layer_class_name layer)) base)))
                 = (Dict.keys base ++ ["type"; "enabled"; "locked"])%list).
    { rewrite keys_set_new, K2, <- app_assoc; [reflexivity|].
      rewrite !get_set_other by discriminate. apply Hno. simpl. tauto. }
    destruct (tags (layer_attrs layer)) as [[|t ts]|]; cbn [Open.set_tags].
    + now rewrite K3.
    + rewrite keys_set_new, K3, <- app_assoc; [reflexivity|].
      rewrite !get_set_other by discriminate. apply Hno. simpl. tauto.
    + now rewrite K3.
Qed.

(** *** A bare marker layer as a payload *)

(** X16: a bare layer of the marker family is converted where it is a
    payload: as the marker of a marker fill, the pattern marker of a marker
    line and the marker of a line decoration it is converted by
    [convert_symbol_layer], and the map holds the layer's own conversion;
    only [convert_symbol] on the bare layer raises. *)
Theorem bare_marker_layer_as_payload (l : SymbolLayer) (d : dict) :
  is_MarkerSymbolLayer l = true ->
  convert_symbol_layer l = Ok d ->
  (forall base a,
      exists result,
        convert_symbol_layer (MarkerFillSymbolLayer base a None None (BareLayer l))
        = Ok result
        /\ Dict.get "marker" result = Some (VDict d))
  /\ (forall base a,
        exists result,
          convert_symbol_layer (MarkerLineSymbolLayer base a (Some (BareLayer l)) None)
          = Ok result
          /\ Dict.get "pattern_marker" result = Some (VDict d))
  /\ (forall fa ff fl positions,
        convert_simple_line_decoration
          (SimpleLineDecoration fa ff fl (Some (BareLayer l)) positions)
        = Ok [("fixed_angle", VBool fa); ("flip_first", VBool ff);
              ("flip_all", VBool fl); ("marker", VDict d);
              ("positions", VList positions)])
  /\ (forall self, exists e, snd (convert_symbol (BareLayer l) self) = Raise e).
Proof.
  intros Hm Hd. split; [|split; [|split]].
  - intros base a. eexists. split.
    + to_class_converter. unfold Open.convert_marker_fill_symbol_layer.
      cbn [Open.set_outline bind]. rewrite Hd. cbn [bind]. reflexivity.
    + skip_keys. apply get_set_same.
  - intros base a. eexists. split.
    + to_class_converter. unfold Open.convert_marker_line_symbol_layer.
      cbv zeta. cbn [Open.set_payload Open.set_decoration].
      rewrite Hd. cbn [bind]. reflexivity.
    + skip_keys. destruct (MarkerLine.template a); reflexivity.
  - intros fa ff fl positions.
    unfold convert_simple_line_decoration, Open.convert_simple_line_decoration.
    cbv zeta. now rewrite Hd.
  - intros self. rewrite convert_symbol_result, new_convert_symbol_BareLayer.
    destruct l; try discriminate Hm; now eexists.
Qed.

End Properties.

(** ** The properties on the concrete inputs *)

#[local] Existing Instance Sample.utils.
#[local] Existing Instance Sample.gradients.
#[local] Existing Instance Sample.classes.

(** A tagged simple line layer and the plain simple fill of the scenario *)
Lemma layer_universal_fields_witness :
  family_base Sample.simple_line
    [("color", VDict (to_dict Sample.red)); ("color_model", VStr "rgb");
     ("width", Sample.four); ("line_type", VStr "solid")]
  /\ (exists result,
        convert_symbol_layer Sample.simple_line = Ok result
        /\ Dict.get "type" result = Some (VStr "SimpleLineSymbolLayer")
        /\ Dict.get "width" result = Some Sample.four
        /\ Dict.get "tags" result = Some (VList [VStr "roads"; VStr "major"]))
  /\ (exists result,
        convert_symbol_layer Sample.simple_fill = Ok result
        /\ Dict.keys result = ["color"; "color_model"; "type"; "enabled"; "locked"]).
Proof.
  assert (H : family_base Sample.simple_line
                [("color", VDict (to_dict Sample.red)); ("color_model", VStr "rgb");
                 ("width", Sample.four); ("line_type", VStr "solid")]).
  { right. left. split; reflexivity. }
  split; [exact H|]. split.
  - destruct (proj1 layer_universal_fields _ _ H)
      as (result & Hr & Ht & _ & _ & Hk & _ & Htags).
    exists result. split; [exact Hr|]. split; [exact Ht|]. split.
    + rewrite Hk by discriminate. reflexivity.
    + exact (Htags _ _ eq_refl).
  - destruct (proj2 layer_universal_fields Sample.red (Some []) (or_introl eq_refl))
      as (result & Hr & _ & Hkeys & _).
    exists result. split; [exact Hr | exact Hkeys].
Defined.


(** A bare fill layer, a bare line layer and a bare marker layer *)
Lemma bare_layer_levels_witness :
  is_FillSymbolLayer Sample.simple_fill = true
  /\ snd (convert_symbol (BareLayer Sample.simple_fill) __init__)
     = snd (convert_symbol (FillSymbol [Sample.simple_fill]) __init__)
  /\ is_LineSymbolLayer Sample.simple_line = true
  /\ snd (convert_symbol (BareLayer Sample.simple_line) __init__)
     = snd (convert_symbol (LineSymbol [Sample.simple_line]) __init__)
  /\ is_MarkerSymbolLayer Sample.simple_marker = true
  /\ snd (convert_symbol (BareLayer Sample.simple_marker) __init__)
     = Raise (AttributeError
                "'SimpleMarkerSymbolLayer' object has no attribute 'halo'")
  /\ (exists d result,
        convert_symbol_layer Sample.simple_marker = Ok d
        /\ snd (convert_symbol
                  (MarkerSymbol [Sample.simple_marker] false (VInt 0) None)
                  __init__) = Ok result
        /\ Dict.get "levels" result = Some (VList [VDict d])).
Proof.
  destruct bare_layer_levels as (Hfill & Hline & _ & Hmarker).
  assert (Hd : exists d, convert_symbol_layer Sample.simple_marker = Ok d).
  { eexists. reflexivity. }
  destruct Hd as [d Hd].
  destruct (Hmarker Sample.simple_marker d false (VInt 0) __init__ eq_refl Hd)
    as (Hbare & result & Hresult & Hlevels).
  split; [reflexivity|].
  split; [exact (Hfill Sample.simple_fill __init__ eq_refl)|].
  split; [reflexivity|].
  split; [exact (Hline Sample.simple_line __init__ eq_refl)|].
  split; [reflexivity|]. split; [exact Hbare|].
  exists d, result. repeat split; assumption.
Defined.

(** A line symbol of two layers, through [convert_symbol] and through
    [convert_line_symbol] *)
Lemma levels_follow_layers_witness :
  (exists self' result,
      convert_symbol (LineSymbol [Sample.simple_line; Sample.decorated_line]) __init__
      = (self', Ok result)
      /\ exists converted,
          Dict.get "levels" result = Some (VList (map VDict converted))
          /\ List.length converted = 2%nat
          /\ (exists d, nth_error converted 1 = Some d
                        /\ convert_symbol_layer Sample.decorated_line = Ok d))
  /\ (exists self',
        convert_line_symbol (LineSymbol [Sample.simple_line; Sample.decorated_line])
          __init__ = (self', Ok tt)
        /\ levels_in_order (LineSymbol [Sample.simple_line; Sample.decorated_line])
             (out self')).
Proof.
  destruct levels_follow_layers as (Hsymbol & _ & Hline & _).
  split.
  - assert (H : exists self' result,
               convert_symbol (LineSymbol [Sample.simple_line; Sample.decorated_line])
                 __init__ = (self', Ok result)).
    { eexists. eexists. reflexivity. }
    destruct H as (self' & result & H). exists self', result.
    split; [exact H|].
    destruct (Hsymbol _ _ _ _ H) as (converted & Hget & Hlen & Hnth).
    exists converted. split; [exact Hget|]. split; [exact Hlen|].
    exact (Hnth 1%nat Sample.decorated_line eq_refl).
  - assert (H : exists self',
               convert_line_symbol
                 (LineSymbol [Sample.simple_line; Sample.decorated_line])
                 __init__ = (self', Ok tt)).
    { eexists. reflexivity. }
    destruct H as (self' & H). exists self'.
    split; [exact H | exact (Hline _ _ _ _ H)].
Defined.

(** A cartographic line with a template and no decoration, and one with a
    decoration *)
Lemma cartographic_template_and_decoration_witness :
  (exists result,
      convert_symbol_layer Sample.cartographic = Ok result
      /\ Dict.get "template" result
         = Some (VDict [("pattern_interval", Sample.four);
                        ("pattern_parts", VList [VInt 2; VInt 2])])
      /\ Dict.get "decoration" result = Some VNone)
  /\ (exists result d,
        convert_symbol_layer Sample.decorated_line = Ok result
        /\ convert_decoration Sample.arrow_heads = Ok d
        /\ Dict.get "decoration" result = Some (VDict d)).
Proof.
  split.
  - assert (H : exists result, convert_symbol_layer Sample.cartographic = Ok result).
    { eexists. reflexivity. }
    destruct H as [result H]. exists result. split; [exact H|].
    destruct (cartographic_template_and_decoration _ _ _ _ H)
      as (_ & Ht & Hd & _).
    split; [|exact (Hd eq_refl)].
    destruct (Ht Sample.dashes eq_refl) as [Hget Hshape].
    rewrite Hget, Hshape. reflexivity.
  - assert (H : exists result, convert_symbol_layer Sample.decorated_line = Ok result).
    { eexists. reflexivity. }
    destruct H as [result H].
    destruct (cartographic_template_and_decoration _ _ _ _ H)
      as (_ & _ & _ & Hd & _).
    destruct (Hd _ eq_refl) as (d & Hconv & Hget).
    exists result, d. repeat split; assumption.
Defined.

(** A marker line with no color; a picture fill and a picture marker with
    no transparent color *)
Lemma nullable_colors_witness :
  (exists result,
      convert_symbol_layer Sample.marker_line = Ok result
      /\ Dict.get "color" result = Some VNone
      /\ Dict.get "color_model" result = Some VNone)
  /\ (exists result,
        convert_symbol_layer Sample.picture_fill = Ok result
        /\ Dict.get "color_transparent" result = Some VNone
        /\ Dict.get "color_transparent_model" result = Some VNone)
  /\ (exists result,
        convert_symbol_layer Sample.picture_marker = Ok result
        /\ Dict.get "color_transparent" result = Some VNone
        /\ Dict.get "color_transparent_model" result = Some VNone).
Proof.
  destruct nullable_colors as (Hline & Hfill & Hmarker).
  split; [|split].
  - assert (H : exists result, convert_symbol_layer Sample.marker_line = Ok result).
    { eexists. reflexivity. }
    destruct H as [result H]. exists result. split; [exact H|].
    exact (Hline Sample.plain Sample.marker_line_attrs None None result eq_refl H).
  - assert (H : exists result, convert_symbol_layer Sample.picture_fill = Ok result).
    { eexists. reflexivity. }
    destruct H as [result H]. exists result. split; [exact H|].
    exact (Hfill Sample.plain Sample.no_foreground None None result eq_refl H).
  - assert (H : exists result, convert_symbol_layer Sample.picture_marker = Ok result).
    { eexists. reflexivity. }
    destruct H as [result H]. exists result. split; [exact H|].
    exact (Hmarker Sample.plain Sample.picture_marker_attrs result eq_refl H).
Defined.

(** A marker symbol with a fill halo, through [convert_symbol] and through
    [convert_marker_symbol] *)
Lemma marker_symbol_halo_witness :
  (exists self' result d,
      convert_symbol Sample.halo_marker __init__ = (self', Ok result)
      /\ Dict.get "halo" result = Some (VBool true)
      /\ Dict.get "halo_size" result = Some Sample.two
      /\ Dict.get "halo_symbol_type" result = Some (VStr "FillSymbol")
      /\ Dict.mem "halo_symbol" result = true
      /\ snd (convert_symbol (FillSymbol [Sample.simple_fill]) __init__) = Ok d
      /\ Dict.get "halo_symbol" result = Some (VDict d))
  /\ (exists self',
        convert_marker_symbol Sample.halo_marker __init__ = (self', Ok tt)
        /\ halo_fields true Sample.two (Some (FillSymbol [Sample.simple_fill]))
             (out self')).
Proof.
  destruct marker_symbol_halo as (Hsymbol & Hmethod).
  split.
  - assert (H : exists self' result,
               convert_symbol Sample.halo_marker __init__ = (self', Ok result)).
    { eexists. eexists. reflexivity. }
    destruct H as (self' & result & H).
    destruct (Hsymbol _ _ _ _ _ _ _ H)
      as (_ & Hhalo & Hsize & _ & _ & Hmem & Hfill).
    destruct (Hfill _ eq_refl) as (d & Hd & Hget & Htype).
    exists self', result, d.
    split; [exact H|]. split; [exact Hhalo|]. split; [exact Hsize|].
    split; [exact Htype|]. split; [|split; assumption].
    apply Hmem. now exists [Sample.simple_fill].
  - assert (H : exists self',
               convert_marker_symbol Sample.halo_marker __init__ = (self', Ok tt)).
    { eexists. reflexivity. }
    destruct H as (self' & H). exists self'.
    split; [exact H | exact (Hmethod _ _ _ _ _ _ _ H)].
Defined.

(** A hash line, a marker line and a character marker with no optional
    part *)
Lemma absent_parts_are_null_witness :
  (exists result,
      convert_symbol_layer Sample.hash_line = Ok result
      /\ Dict.get "template" result = Some VNone
      /\ Dict.get "line" result = Some VNone
      /\ Dict.get "decoration" result = Some VNone)
  /\ (exists result,
        convert_symbol_layer Sample.marker_line = Ok result
        /\ Dict.get "pattern_marker" result = Some VNone)
  /\ (exists result,
        convert_symbol_layer Sample.character_marker = Ok result
        /\ Dict.get "std_font" result = Some VNone).
Proof.
  destruct absent_parts_are_null as (Hhash & Hline & Hchar).
  split; [|split].
  - assert (H : exists result, convert_symbol_layer Sample.hash_line = Ok result).
    { eexists. reflexivity. }
    destruct H as [result H]. exists result. split; [exact H|].
    destruct (Hhash _ _ _ _ _ H) as (Ht & Hl & Hd).
    split; [exact (Ht eq_refl)|]. split; [exact (Hl eq_refl) | exact (Hd eq_refl)].
  - assert (H : exists result, convert_symbol_layer Sample.marker_line = Ok result).
    { eexists. reflexivity. }
    destruct H as [result H]. exists result. split; [exact H|].
    destruct (Hline _ _ _ _ _ H) as (_ & Hp & _). exact (Hp eq_refl).
  - assert (H : exists result, convert_symbol_layer Sample.character_marker = Ok result).
    { eexists. reflexivity. }
    destruct H as [result H]. exists result. split; [exact H|].
    exact (Hchar _ _ _ H eq_refl).
Defined.

(** A simple fill with no color raises; layers with their colors convert;
    a picture fill with no foreground color converts *)
Lemma unguarded_color_models_witness :
  convert_symbol_layer Sample.no_color_fill = Raise no_model
  /\ (exists result, convert_symbol_layer Sample.simple_line = Ok result)
  /\ (exists result, convert_symbol_layer Sample.simple_marker = Ok result)
  /\ (exists result,
        convert_symbol_layer Sample.picture_fill = Ok result
        /\ Dict.get "color_foreground" result = Some VNone
        /\ Dict.get "color_foreground_model" result = Some VNone).
Proof.
  destruct unguarded_color_models
    as (Hfill & _ & Hline & _ & _ & Hmarker & _ & _ & _ & Hpicture).
  split; [|split; [|split]].
  - exact (proj1 (Hfill Sample.plain None None None) eq_refl).
  - apply (proj2 (Hline _ _)). discriminate.
  - apply (proj2 (proj2 (Hmarker _ _))); discriminate.
  - assert (H : exists result, convert_symbol_layer Sample.picture_fill = Ok result).
    { eexists. reflexivity. }
    destruct H as [result H]. exists result. split; [exact H|].
    exact (proj2 (proj2 (Hpicture Sample.plain Sample.no_foreground None None))
             eq_refl result H).
Defined.

(** The foreground color of a picture fill layer may be absent: the layer
    converts all the same. *)
Lemma picture_fill_converts_without_foreground :
  ~ (forall result,
        convert_symbol_layer Sample.picture_fill = Ok result ->
        PictureFill.color_foreground Sample.no_foreground <> None).
Proof.
  intros H.
  assert (Hok : exists result, convert_symbol_layer Sample.picture_fill = Ok result).
  { eexists. reflexivity. }
  destruct Hok as [result Hok]. now apply (H result Hok).
Qed.

(** ** The further properties on the concrete inputs *)

(** A marker symbol with a fill halo is accepted and converts; a gradient
    of code 7 is not accepted *)
Lemma conversion_succeeds_iff_witness :
  symbol_ok Sample.halo_marker = true
  /\ (exists self' d, convert_symbol Sample.halo_marker __init__ = (self', Ok d))
  /\ (exists d, convert_symbol_layer Sample.patterned_line = Ok d)
  /\ layer_ok Sample.patterned_line = true
  /\ layer_ok Sample.odd_gradient = false.
Proof.
  destruct conversion_succeeds_iff as (Hlayer & Hsymbol & _).
  split; [reflexivity|].
  split; [exact (proj1 (Hsymbol Sample.halo_marker __init__) eq_refl)|].
  assert (H : exists d, convert_symbol_layer Sample.patterned_line = Ok d).
  { eexists. reflexivity. }
  split; [exact H|]. split; [exact (proj2 (Hlayer Sample.patterned_line) H)|].
  reflexivity.
Defined.

(** The exception of a gradient of code 7, and of a symbol holding it; the
    exception of a bare marker layer is no [KeyError] *)
Lemma only_foreseen_exceptions_witness :
  (exists e, convert_symbol_layer Sample.odd_gradient = Raise e /\ foreseen e)
  /\ (exists self' e,
        convert_symbol (FillSymbol [Sample.simple_fill; Sample.odd_gradient]) __init__
        = (self', Raise e)
        /\ foreseen e)
  /\ (exists self' e,
        convert_symbol (BareLayer Sample.simple_marker) __init__ = (self', Raise e)
        /\ e <> KeyError "'levels'").
Proof.
  destruct only_foreseen_exceptions as (Hlayer & Hsymbol & _ & Hown).
  split; [|split].
  - assert (H : exists e, convert_symbol_layer Sample.odd_gradient = Raise e).
    { eexists. reflexivity. }
    destruct H as [e H]. exists e. split; [exact H | exact (Hlayer _ _ H)].
  - assert (H : exists self' e,
               convert_symbol (FillSymbol [Sample.simple_fill; Sample.odd_gradient])
                 __init__ = (self', Raise e)).
    { eexists. eexists. reflexivity. }
    destruct H as (self' & e & H). exists self', e.
    split; [exact H | exact (Hsymbol _ _ _ _ H)].
  - assert (H : exists self' e,
               convert_symbol (BareLayer Sample.simple_marker) __init__
               = (self', Raise e)).
    { eexists. eexists. reflexivity. }
    destruct H as (self' & e & H). exists self', e.
    split; [exact H | exact (Hown _ _ _ _ _ H)].
Defined.

(** The map returned for a fill symbol is what the instance holds *)
Lemma converter_can_be_reused_witness :
  exists self' d,
    convert_symbol (FillSymbol [Sample.simple_fill]) {| out := ramp_to_dict Sample.ramp |}
    = (self', Ok d)
    /\ out self' = d.
Proof.
  destruct converter_can_be_reused as (_ & Hout & _).
  assert (H : exists self' d,
             convert_symbol (FillSymbol [Sample.simple_fill])
               {| out := ramp_to_dict Sample.ramp |} = (self', Ok d)).
  { eexists. eexists. reflexivity. }
  destruct H as (self' & d & H). exists self', d.
  split; [exact H | exact (Hout _ _ _ _ H)].
Defined.

(** A fill symbol whose second layer is a gradient of code 7 *)
Lemma first_failing_layer_witness :
  exists vs e,
    mapM convert_symbol_layer [Sample.simple_fill] = Ok vs
    /\ convert_symbol_layer Sample.odd_gradient = Raise e
    /\ convert_symbol
         (FillSymbol ([Sample.simple_fill] ++ Sample.odd_gradient :: [Sample.simple_fill]))
         __init__
       = ({| out := [("type", VStr "FillSymbol");
                     ("levels", VList (map VDict vs))] |}, Raise e).
Proof.
  assert (Hpre : exists vs, mapM convert_symbol_layer [Sample.simple_fill] = Ok vs).
  { eexists. reflexivity. }
  assert (Hl : exists e, convert_symbol_layer Sample.odd_gradient = Raise e).
  { eexists. reflexivity. }
  destruct Hpre as [vs Hpre]. destruct Hl as [e Hl]. exists vs, e.
  split; [exact Hpre|]. split; [exact Hl|].
  exact (proj1 (first_failing_layer [Sample.simple_fill] Sample.odd_gradient
                  [Sample.simple_fill] vs e __init__ Hpre Hl)).
Defined.

(** The keys of the map of a marker symbol with a fill halo, and the type
    of the map of a bare line layer *)
Lemma symbol_map_shape_witness :
  (exists self' d,
      convert_symbol Sample.halo_marker __init__ = (self', Ok d)
      /\ Dict.keys d
         = ["type"; "levels"; "halo"; "halo_size"; "halo_symbol_type"; "halo_symbol"])
  /\ (exists self' d,
        convert_symbol (BareLayer Sample.simple_line) __init__ = (self', Ok d)
        /\ Dict.get "type" d = Some (VStr "LineSymbol")).
Proof.
  destruct symbol_map_shape as (Hshape & _).
  split.
  - assert (H : exists self' d,
               convert_symbol Sample.halo_marker __init__ = (self', Ok d)).
    { eexists. eexists. reflexivity. }
    destruct H as (self' & d & H). exists self', d.
    split; [exact H | exact (proj1 (Hshape _ _ _ _ H))].
  - assert (H : exists self' d,
               convert_symbol (BareLayer Sample.simple_line) __init__ = (self', Ok d)).
    { eexists. eexists. reflexivity. }
    destruct H as (self' & d & H). exists self', d.
    split; [exact H | exact (proj2 (Hshape _ _ _ _ H))].
Defined.

(** A marker symbol whose halo is a line symbol of an unknown layer *)
Lemma other_halo_is_not_converted_witness :
  (forall hl, LineSymbol [Sample.unknown_layer] <> FillSymbol hl)
  /\ (exists e, new_convert_symbol (LineSymbol [Sample.unknown_layer]) = Raise e)
  /\ exists d,
      snd (convert_symbol Sample.odd_halo_marker __init__) = Ok d
      /\ Dict.get "halo_symbol_type" d = Some (VStr "LineSymbol")
      /\ Dict.get "halo_symbol" d = None.
Proof.
  assert (Hh : forall hl, LineSymbol [Sample.unknown_layer] <> FillSymbol hl)
    by discriminate.
  split; [exact Hh|]. split; [eexists; reflexivity|].
  eexists. split.
  - exact (other_halo_is_not_converted [Sample.simple_marker] true Sample.two
             (LineSymbol [Sample.unknown_layer]) __init__ Hh).
  - split; reflexivity.
Defined.

(** A simple fill with an outline layer and an outline symbol *)
Lemma outline_keys_witness :
  exists result,
    convert_symbol_layer Sample.outlined_fill = Ok result
    /\ outline_entries (Some Sample.simple_line)
         (Some (LineSymbol [Sample.simple_line])) result.
Proof.
  assert (H : exists result, convert_symbol_layer Sample.outlined_fill = Ok result).
  { eexists. reflexivity. }
  destruct H as [result H]. exists result. split; [exact H|].
  exact (outline_keys Sample.outlined_fill _ _ result eq_refl H).
Defined.

(** A line fill whose hatch line is a line symbol, a marker fill whose
    marker is a bare layer *)
Lemma fill_payloads_witness :
  (exists result x,
      convert_symbol_layer Sample.hatch_fill = Ok result
      /\ new_convert_symbol (LineSymbol [Sample.simple_line]) = Ok x
      /\ Dict.get "line_symbol" result = Some (VDict x))
  /\ (exists result x,
        convert_symbol_layer Sample.marker_fill = Ok result
        /\ convert_symbol_layer Sample.simple_marker = Ok x
        /\ Dict.get "marker" result = Some (VDict x)).
Proof.
  destruct fill_payloads as (Hline & Hmarker).
  split.
  - assert (H : exists result, convert_symbol_layer Sample.hatch_fill = Ok result).
    { eexists. reflexivity. }
    destruct H as [result H].
    destruct (Hline _ _ _ _ _ _ H) as ((x & Hx & Hget) & _).
    exists result, x. repeat split; assumption.
  - assert (H : exists result, convert_symbol_layer Sample.marker_fill = Ok result).
    { eexists. reflexivity. }
    destruct H as [result H].
    destruct (Hmarker _ _ _ _ _ _ H) as ((x & Hx & Hget) & _).
    exists result, x. repeat split; assumption.
Defined.

(** A marker line and a hash line with a template, a payload and a
    decoration *)
Lemma line_parts_when_present_witness :
  (exists result x,
      convert_symbol_layer Sample.patterned_line = Ok result
      /\ Dict.get "template" result = Some (VDict (convert_template Sample.dashes))
      /\ convert_symbol_layer Sample.simple_marker = Ok x
      /\ Dict.get "pattern_marker" result = Some (VDict x))
  /\ (exists result x,
        convert_symbol_layer Sample.hashed_line = Ok result
        /\ convert_decoration Sample.arrow_heads = Ok x
        /\ Dict.get "decoration" result = Some (VDict x)).
Proof.
  destruct line_parts_when_present as (Hmarker & Hhash).
  split.
  - assert (H : exists result, convert_symbol_layer Sample.patterned_line = Ok result).
    { eexists. reflexivity. }
    destruct H as [result H].
    destruct (Hmarker _ _ _ _ _ H) as (Ht & Hp & _).
    destruct (Hp _ eq_refl) as (x & Hx & Hget).
    exists result, x. split; [exact H|]. split; [exact (Ht _ eq_refl)|].
    split; assumption.
  - assert (H : exists result, convert_symbol_layer Sample.hashed_line = Ok result).
    { eexists. reflexivity. }
    destruct H as [result H].
    destruct (Hhash _ _ _ _ _ H) as (_ & _ & Hd).
    destruct (Hd _ eq_refl) as (x & Hx & Hget).
    exists result, x. repeat split; assumption.
Defined.

(** A decoration of one element *)
Lemma decorations_in_order_witness :
  exists result converted,
    convert_decoration Sample.arrow_heads = Ok result
    /\ result = [("decorations", VList (map VDict converted))]
    /\ List.length converted = 1%nat.
Proof.
  assert (H : exists result, convert_decoration Sample.arrow_heads = Ok result).
  { eexists. reflexivity. }
  destruct H as [result H].
  destruct (proj1 decorations_in_order _ _ H) as (converted & Hresult & Hlen & _).
  exists result, converted. repeat split; assumption.
Defined.

(** A simple line decoration whose marker is a bare marker layer *)
Lemma simple_line_decoration_map_witness :
  exists result m x,
    convert_simple_line_decoration
      (SimpleLineDecoration true false false (Some (BareLayer Sample.simple_marker))
         [VInt 0; VInt 1]) = Ok result
    /\ Dict.get "marker" result = Some m
    /\ convert_symbol_layer Sample.simple_marker = Ok x
    /\ m = VDict x.
Proof.
  assert (H : exists result,
             convert_simple_line_decoration
               (SimpleLineDecoration true false false
                  (Some (BareLayer Sample.simple_marker)) [VInt 0; VInt 1])
             = Ok result).
  { eexists. reflexivity. }
  destruct H as [result H].
  destruct (simple_line_decoration_map _ _ _ _ _ _ H) as (m & Hresult & _ & Hp).
  destruct (Hp _ eq_refl) as (x & Hx & Hm).
  exists result, m, x. split; [exact H|]. split; [now rewrite Hresult|].
  split; assumption.
Defined.

(** An unknown layer as the outline of a layer of a fill symbol *)
Lemma failure_propagates_witness :
  part_of (NLayer Sample.unknown_layer)
    (NSymbol (FillSymbol [Sample.simple_fill; Sample.fill_with_unknown_outline]))
  /\ raises (NLayer Sample.unknown_layer)
  /\ exists self' e,
      convert_symbol (FillSymbol [Sample.simple_fill; Sample.fill_with_unknown_outline])
        __init__ = (self', Raise e).
Proof.
  assert (Hpart : part_of (NLayer Sample.unknown_layer)
            (NSymbol (FillSymbol [Sample.simple_fill;
                                  Sample.fill_with_unknown_outline]))).
  { apply part_step with (m := NLayer Sample.fill_with_unknown_outline);
      [apply child_simple_fill_layer|].
    eapply part_step; [|apply part_self].
    apply child_fill_symbol. simpl. auto. }
  assert (Hraise : raises (NLayer Sample.unknown_layer)).
  { eexists. reflexivity. }
  split; [exact Hpart|]. split; [exact Hraise|].
  exact (proj1 (proj2 failure_propagates) _ _ __init__ Hpart Hraise).
Defined.

(** A picture fill with an EMF picture; a picture marker with a picture of
    another class *)
Lemma picture_of_picture_layers_witness :
  (exists result p,
      convert_symbol_layer Sample.picture_fill = Ok result
      /\ convert_picture (PictureFill.picture Sample.no_foreground) = Ok p
      /\ Dict.get "picture" result = Some p)
  /\ (exists e,
        convert_picture (PictureMarker.picture Sample.gif_marker_attrs) = Raise e
        /\ convert_symbol_layer
             (PictureMarkerSymbolLayer Sample.plain Sample.gif_marker_attrs)
           = Raise e).
Proof.
  destruct picture_of_picture_layers as (Hfill & _ & Hraise).
  split.
  - assert (H : exists result, convert_symbol_layer Sample.picture_fill = Ok result).
    { eexists. reflexivity. }
    destruct H as [result H].
    destruct (Hfill _ _ _ _ _ H) as (p & Hp & Hget & _).
    exists result, p. repeat split; assumption.
  - assert (H : exists e,
               convert_picture (PictureMarker.picture Sample.gif_marker_attrs)
               = Raise e).
    { eexists. reflexivity. }
    destruct H as [e H]. exists e. split; [exact H|].
    apply (Hraise Sample.plain Sample.gif_marker_attrs e); [discriminate..|exact H].
Defined.

(** A character marker with a standard font *)
Lemma std_font_when_present_witness :
  exists result,
    convert_symbol_layer (CharacterMarkerSymbolLayer Sample.plain Sample.glyph_attrs)
    = Ok result
    /\ Dict.get "std_font" result = Some (VDict (convert_font Sample.arial)).
Proof.
  assert (H : exists result,
             convert_symbol_layer
               (CharacterMarkerSymbolLayer Sample.plain Sample.glyph_attrs)
             = Ok result).
  { eexists. reflexivity. }
  destruct H as [result H]. exists result. split; [exact H|].
  exact (proj1 (std_font_when_present Sample.plain Sample.glyph_attrs Sample.arial
                  result eq_refl H)).
Defined.

(** The keys of the map of a tagged simple line layer *)
Lemma universal_fields_come_last_witness :
  exists base result,
    family_base Sample.simple_line base
    /\ convert_symbol_layer Sample.simple_line = Ok result
    /\ Dict.keys result
       = ["color"; "color_model"; "width"; "line_type";
          "type"; "enabled"; "locked"; "tags"].
Proof.
  assert (Hbase : exists base, family_base Sample.simple_line base).
  { eexists. right. left. split; reflexivity. }
  assert (H : exists result, convert_symbol_layer Sample.simple_line = Ok result).
  { eexists. reflexivity. }
  destruct Hbase as [base Hbase]. destruct H as [result H].
  exists base, result. split; [exact Hbase|]. split; [exact H|].
  rewrite (proj2 (universal_fields_come_last _ _ _ Hbase H)).
  destruct Hbase as [[Hf _]|[[_ Hb]|[Hf _]]]; try discriminate Hf.
  injection Hb as <-. reflexivity.
Defined.

(** A bare simple marker layer as the marker of a marker fill *)
Lemma bare_marker_layer_as_payload_witness :
  exists d result,
    is_MarkerSymbolLayer Sample.simple_marker = true
    /\ convert_symbol_layer Sample.simple_marker = Ok d
    /\ convert_symbol_layer Sample.marker_fill = Ok result
    /\ Dict.get "marker" result = Some (VDict d)
    /\ exists e, snd (convert_symbol (BareLayer Sample.simple_marker) __init__) = Raise e.
Proof.
  assert (Hd : exists d, convert_symbol_layer Sample.simple_marker = Ok d).
  { eexists. reflexivity. }
  destruct Hd as [d Hd].
  destruct (bare_marker_layer_as_payload Sample.simple_marker d eq_refl Hd)
    as (Hfill & _ & _ & Hbare).
  destruct (Hfill Sample.plain Sample.marker_fill_attrs) as (result & Hresult & Hget).
  exists d, result. split; [reflexivity|]. split; [exact Hd|].
  split; [exact Hresult|]. split; [exact Hget | exact (Hbare __init__)].
Defined.
